(** * Echo-Mind: the dialogue orchestration pipeline of [Backend/main.py]

    A shallow embedding of the chat backend: the keyword classifiers, the
    knowledge-base lookup, the escalation policy, the order lookup, the
    prompt composer and the two stateful endpoints ([/chat] and
    [/resolve_case]) over an explicit document store.

    Model boundary.  A Python [str] is modelled as a sequence of 8-bit
    characters, and [lower], [upper], [strip] and the character classes
    of [re] are those of Python on ASCII text; characters above 127 are
    left as they are (every keyword, pattern and table of the program is
    ASCII).  The LLM provider, the wall clock and the [datetime] parsing
    and printing routines are collaborators: they enter as fields of an
    environment record, and every theorem holds for all of them.  One
    request is processed at a time. *)

From Stdlib Require Import Ascii ZArith Bool Lia DecimalString.
From Stdlib Require String.
From stdpp Require Import base option list gmap strings.

(** ** Python string operations *)

Module Py.

Definition code (c : ascii) : nat := nat_of_ascii c.

Definition between (lo hi : nat) (c : ascii) : bool :=
  (lo <=? code c)%nat && (code c <=? hi)%nat.

Definition is_upper : ascii -> bool := between 65 90.
Definition is_lower : ascii -> bool := between 97 122.
Definition is_digit : ascii -> bool := between 48 57.

(** [str.isspace] on the ASCII range: TAB, LF, VT, FF, CR, the four
    separators FS..US and the blank.  The class [\s] of [re] and
    [str.strip] use the same set. *)
Definition is_space (c : ascii) : bool :=
  between 9 13 c || between 28 32 c.

Definition lower_char (c : ascii) : ascii :=
  if is_upper c then ascii_of_nat (code c + 32) else c.

Definition upper_char (c : ascii) : ascii :=
  if is_lower c then ascii_of_nat (code c - 32) else c.

Fixpoint map_chars (f : ascii -> ascii) (s : string) : string :=
  match s with
  | EmptyString => EmptyString
  | String c s' => String (f c) (map_chars f s')
  end.

(** [s.lower()] and [s.upper()] on ASCII text.  Python maps letters
    outside ASCII as well ([upper] even changes the length of some
    texts); properties that compare the two case mappings are therefore
    stated for ASCII text, see [is_ascii]. *)
Definition lower : string -> string := map_chars lower_char.
Definition upper : string -> string := map_chars upper_char.

(** [s.isascii()]: every character is below 128 *)
Fixpoint is_ascii (s : string) : bool :=
  match s with
  | EmptyString => true
  | String c s' => (code c <? 128)%nat && is_ascii s'
  end.

(** [s.capitalize()] *)
Definition capitalize (s : string) : string :=
  match s with
  | EmptyString => EmptyString
  | String c s' => String (upper_char c) (lower s')
  end.

Fixpoint lstrip (s : string) : string :=
  match s with
  | EmptyString => EmptyString
  | String c s' => if is_space c then lstrip s' else s
  end.

Fixpoint rstrip (s : string) : string :=
  match s with
  | EmptyString => EmptyString
  | String c s' =>
      match rstrip s' with
      | EmptyString => if is_space c then EmptyString else String c EmptyString
      | r => String c r
      end
  end.

(** [s.strip()] *)
Definition strip (s : string) : string := rstrip (lstrip s).

(** [s.startswith(p)], returning the remainder *)
Fixpoint drop_prefix (p s : string) : option string :=
  match p, s with
  | EmptyString, _ => Some s
  | String a p', String b s' => if Ascii.eqb a b then drop_prefix p' s' else None
  | String _ _, EmptyString => None
  end.

Definition startswith (p s : string) : bool :=
  match drop_prefix p s with Some _ => true | None => false end.

(** [k in s] on strings: [k] occurs in [s] as a contiguous block *)
Fixpoint contains (k s : string) : bool :=
  startswith k s ||
  match s with
  | EmptyString => false
  | String _ s' => contains k s'
  end.

(** [any(w in s for w in ws)] *)
Definition any_in (ws : list string) (s : string) : bool :=
  existsb (fun w => contains w s) ws.

(** [s.replace(c, '')] for a one-character [c] *)
Fixpoint remove_char (x : ascii) (s : string) : string :=
  match s with
  | EmptyString => EmptyString
  | String c s' => if Ascii.eqb c x then remove_char x s' else String c (remove_char x s')
  end.

(** [sep.join(parts)] *)
Fixpoint join (sep : string) (parts : list string) : string :=
  match parts with
  | [] => EmptyString
  | [p] => p
  | p :: rest => p +:+ sep +:+ join sep rest
  end.

(** [bool(s)]: the empty string is falsy *)
Definition truthy (s : string) : bool :=
  match s with EmptyString => false | String _ _ => true end.

(** the first [n] characters, [s[:n]] *)
Fixpoint take (n : nat) (s : string) : string :=
  match n, s with
  | S n', String c s' => String c (take n' s')
  | _, _ => EmptyString
  end.

End Py.

(** ** The fragment of [re] the program uses

    Repetition is applied to single-character classes only, which is all
    the patterns of the program need; matching is by backtracking, greedy
    loops first and alternatives left to right, as in [re]. *)

Module Re.

Inductive regex : Type :=
| Lit (s : string)                 (* a literal text *)
| Cls (p : ascii -> bool)          (* one character of a class *)
| Star (p : ascii -> bool)         (* [c*], greedy *)
| Plus (p : ascii -> bool)         (* [c+], greedy *)
| Opt (p : ascii -> bool)          (* [c?], greedy *)
| Alt (r1 r2 : regex)              (* [r1|r2], left first *)
| Cat (r1 r2 : regex)
| Group (r : regex).               (* the capturing group *)

Definition one (x : ascii) : ascii -> bool := fun c => Ascii.eqb c x.
Definition either (p q : ascii -> bool) : ascii -> bool := fun c => p c || q c.

(** [[a-zA-Z0-9]] *)
Definition alnum : ascii -> bool :=
  either Py.is_lower (either Py.is_upper Py.is_digit).
(** [[A-Z0-9]] *)
Definition upper_alnum : ascii -> bool := either Py.is_upper Py.is_digit.

Fixpoint cat (rs : list regex) : regex :=
  match rs with
  | [] => Lit EmptyString
  | [r] => r
  | r :: rs' => Cat r (cat rs')
  end.

Fixpoint alt (rs : list regex) : regex :=
  match rs with
  | [] => Cls (fun _ => false)
  | [r] => r
  | r :: rs' => Alt r (alt rs')
  end.

Definition orelse {A} (x y : option A) : option A :=
  match x with Some a => Some a | None => y end.

(** the greedy loop: take one more character first, give it back when
    the rest of the pattern fails *)
Fixpoint star {A} (p : ascii -> bool) (s : string) (k : string -> option A) : option A :=
  match s with
  | String c s' => if p c then orelse (star p s' k) (k s) else k s
  | EmptyString => k s
  end.

(** [run r s g k]: match [r] at the head of [s]; [g] is the text captured
    so far and [k] the rest of the pattern. *)
Fixpoint run {A} (r : regex) (s : string) (g : option string)
         (k : string -> option string -> option A) : option A :=
  match r with
  | Lit l =>
      match Py.drop_prefix l s with
      | Some rest => k rest g
      | None => None
      end
  | Cls p =>
      match s with
      | String c s' => if p c then k s' g else None
      | EmptyString => None
      end
  | Star p => star p s (fun rest => k rest g)
  | Plus p =>
      match s with
      | String c s' => if p c then star p s' (fun rest => k rest g) else None
      | EmptyString => None
      end
  | Opt p =>
      match s with
      | String c s' => if p c then orelse (k s' g) (k s g) else k s g
      | EmptyString => k s g
      end
  | Alt r1 r2 => orelse (run r1 s g k) (run r2 s g k)
  | Cat r1 r2 => run r1 s g (fun rest g' => run r2 rest g' k)
  | Group r' =>
      run r' s g
          (fun rest _ => k rest (Some (Py.take (String.length s - String.length rest) s)))
  end.

(** A match object, reduced to what the program reads of it: [group(1)]. *)
Definition match_obj : Type := option string.

(** [re.match(r, s)]: anchored at the start, any remainder *)
Definition re_match (r : regex) (s : string) : option match_obj :=
  run r s None (fun _ g => Some g).

(** [re.fullmatch(r, s)] *)
Definition re_fullmatch (r : regex) (s : string) : option match_obj :=
  run r s None (fun rest g => match rest with EmptyString => Some g | _ => None end).

(** [re.search(r, s)]: the leftmost start position that matches *)
Fixpoint re_search (r : regex) (s : string) : option match_obj :=
  orelse (re_match r s)
         match s with
         | EmptyString => None
         | String _ s' => re_search r s'
         end.

(** The language of a pattern, for stating what a match means. *)
Fixpoint all_in (p : ascii -> bool) (w : string) : Prop :=
  match w with
  | EmptyString => True
  | String c w' => p c = true /\ all_in p w'
  end.

Fixpoint lang (r : regex) (w : string) : Prop :=
  match r with
  | Lit l => w = l
  | Cls p => exists c, w = String c EmptyString /\ p c = true
  | Star p => all_in p w
  | Plus p => w <> EmptyString /\ all_in p w
  | Opt p => w = EmptyString \/ exists c, w = String c EmptyString /\ p c = true
  | Alt r1 r2 => lang r1 w \/ lang r2 w
  | Cat r1 r2 => exists w1 w2, w = w1 +:+ w2 /\ lang r1 w1 /\ lang r2 w2
  | Group r' => lang r' w
  end.

End Re.

(** ** Classifiers, knowledge base and escalation policy (pure functions) *)

(** A keyword table of one domain, in insertion order (a Python [dict]
    iterates in insertion order, and the order decides which entry wins). *)
Definition kb_table : Type := list (string * string).

(** The table used when [domain_questions.json] is absent. *)
Definition default_knowledge_bases : gmap string kb_table :=
  list_to_map
    [ ("general",
       [ ("refund status",
          "Refunds typically take 5-7 business days to process. Please provide your order number to check the status.") ]);
      ("technical",
       [ ("internet not working",
          "Please try restarting your router and modem. If the issue persists, check the service status page for your area.");
         ("installation help",
          "For installation assistance, please refer to your product manual or visit our online guides.") ]);
      ("finance",
       [ ("billing inquiry",
          "For billing inquiries, please provide your account number. You can also check your last bill online.") ]);
      ("travel",
       [ ("change plan",
          "You can change your service plan through your online account portal or by speaking with a sales representative.");
         ("flight status",
          "You can check your flight status on the airline's website or app using your booking reference.") ]) ].

Definition no_article : string :=
  "No specific knowledge base article found for this query.".

(** the [for keyword, info in knowledge_base.items()] loop *)
Fixpoint kb_scan (table : kb_table) (query_lower : string) : string :=
  match table with
  | [] => no_article
  | (keyword, info) :: rest =>
      if Py.contains keyword query_lower then info else kb_scan rest query_lower
  end.

Definition get_knowledge_base_info
    (domain_knowledge_bases : gmap string kb_table) (query domain : string) : string :=
  let knowledge_base := default [] (domain_knowledge_bases !! domain) in
  kb_scan knowledge_base (Py.lower query).

Definition analyze_sentiment (text : string) : string :=
  let text_lower := Py.lower text in
  if Py.any_in ["not working"; "frustrated"; "annoyed"; "unhappy"; "bad"; "terrible"] text_lower
  then "frustrated"
  else if Py.any_in ["thank you"; "resolved"; "great"; "happy"; "good"; "excellent"] text_lower
  then "satisfied"
  else "neutral".

Section Patterns.
Import Re.

Let ws : ascii -> bool := Py.is_space.
Let hash : ascii -> bool := one "#"%char.

(** [hi+], [hello+], [hey+], [good morning], [good afternoon], [good evening] *)
Definition greeting_patterns : list regex :=
  [ Cat (Lit "h") (Plus (one "i"%char));
    Cat (Lit "hell") (Plus (one "o"%char));
    Cat (Lit "he") (Plus (one "y"%char));
    Lit "good morning";
    Lit "good afternoon";
    Lit "good evening" ].

(** [(?:my\s+order\s+number\s+is|order\s+number\s+is|order\s+id\s+is|shopid\s+is|id\s+is)\s*[\#]?([a-zA-Z0-9]+)] *)
Definition shopid_pattern_1 : regex :=
  cat [ alt [ cat [Lit "my"; Plus ws; Lit "order"; Plus ws; Lit "number"; Plus ws; Lit "is"];
              cat [Lit "order"; Plus ws; Lit "number"; Plus ws; Lit "is"];
              cat [Lit "order"; Plus ws; Lit "id"; Plus ws; Lit "is"];
              cat [Lit "shopid"; Plus ws; Lit "is"];
              cat [Lit "id"; Plus ws; Lit "is"] ];
        Star ws; Opt hash; Group (Plus alnum) ].

(** [(?:shopid|orderid|tracking|ref|id)[\s:]*[\#]?([a-zA-Z0-9]+)] *)
Definition shopid_pattern_2 : regex :=
  cat [ alt [Lit "shopid"; Lit "orderid"; Lit "tracking"; Lit "ref"; Lit "id"];
        Star (either ws (one ":"%char)); Opt hash; Group (Plus alnum) ].

(** [([a-zA-Z0-9]+)\s+(?:order|shopid|tracking|ref|id)] *)
Definition shopid_pattern_3 : regex :=
  cat [ Group (Plus alnum); Plus ws;
        alt [Lit "order"; Lit "shopid"; Lit "tracking"; Lit "ref"; Lit "id"] ].

Definition shopid_patterns : list regex :=
  [shopid_pattern_1; shopid_pattern_2; shopid_pattern_3].

(** [^[A-Z0-9]+$] *)
Definition shopid_shape : regex := Plus upper_alnum.

End Patterns.

(** the [for pattern in shopid_patterns] loop: the first pattern that is
    found somewhere in the text yields its group 1 *)
Fixpoint find_shopid (patterns : list Re.regex) (query_lower : string) : option string :=
  match patterns with
  | [] => None
  | pattern :: rest =>
      match Re.re_search pattern query_lower with
      | Some shopid_match => Some (default EmptyString shopid_match)
      | None => find_shopid rest query_lower
      end
  end.

Definition is_greeting (query_lower : string) : bool :=
  existsb (fun pattern => bool_decide (is_Some (Re.re_match pattern query_lower)))
          greeting_patterns.

(** the [if/elif] keyword cascade taken when no shop id was found *)
Definition keyword_intent (query_lower : string) : string :=
  if Py.any_in ["internet"; "wifi"; "connection"; "network"; "technical issue"; "troubleshoot"; "device"] query_lower
  then "technical_support"
  else if Py.any_in ["bill"; "invoice"; "payment"; "charge"; "account balance"; "billing issue"; "cost"; "fee"] query_lower
  then "billing_inquiry"
  else if Py.contains "refund" query_lower
  then "refund_request"
  else if Py.any_in ["installation"; "setup"; "install"; "new service"; "activate"] query_lower
  then "installation_support"
  else if Py.any_in ["change plan"; "upgrade"; "downgrade"; "new plan"; "service package"; "contract"] query_lower
  then "plan_management"
  else if Py.any_in ["order status"; "track order"; "where is my order"; "delivery"; "shipping"; "item arrived"] query_lower
  then "order_status"
  else if Py.any_in ["loan"; "mortgage"; "investment"; "credit card"; "bank account"; "financial advice"; "money"] query_lower
  then "finance_query"
  else if Py.any_in ["booking"; "flight"; "hotel"; "reservation"; "vacation"; "tour"; "travel plan"; "destination"; "trip"] query_lower
  then "travel_hospitality_query"
  else "general_inquiry".

Definition determine_intent_and_urgency (query : string)
  : string * string * gmap string string :=
  let urgency := "low" in
  let entities : gmap string string := ∅ in
  let query_lower := Py.strip (Py.lower query) in
  if is_greeting query_lower then ("greeting", urgency, entities)
  else
    match find_shopid shopid_patterns query_lower with
    | Some extracted_id => ("order_status", urgency, <["shopid" := extracted_id]> entities)
    | None => (keyword_intent query_lower, urgency, entities)
    end.

Definition escalating_intents : list string :=
  ["technical_support"; "billing_inquiry"; "finance_query"; "travel_hospitality_query"; "order_status"].

(** [x in xs] on a list of strings *)
Definition str_in (x : string) (xs : list string) : bool :=
  existsb (String.eqb x) xs.

Definition manage_case_escalation
    (current_turn : Z) (intent urgency sentiment : string) (escalated_in_session : bool) : bool :=
  if escalated_in_session then true
  else if String.eqb urgency "high" && String.eqb sentiment "frustrated" then true
  else if (3 <? current_turn)%Z && String.eqb sentiment "frustrated" then true
  else if str_in intent escalating_intents && (2 <? current_turn)%Z then true
  else false.


(** ** Documents, requests and responses *)

(** One entry of a conversation: a [ChatMessage], and after [model_dump]
    a dict with the same three keys. *)
Record ChatMessage : Type := {
  role : string;
  content : string;
  timestamp : string
}.

Module CustomerProfile.
(** A document of the [customers] collection, stored under [_id]. *)
Record t : Type := {
  customer_id : string;
  previous_interactions : list string;
  purchase_history : list string;
  preference_settings : gmap string string;
  sentiment_history : list string;
  active_case_id : option string
}.

(** [{"$set": {"active_case_id": v}}] *)
Definition set_active_case_id (v : string) (p : t) : t :=
  {| customer_id := customer_id p;
     previous_interactions := previous_interactions p;
     purchase_history := purchase_history p;
     preference_settings := preference_settings p;
     sentiment_history := sentiment_history p;
     active_case_id := Some v |}.

(** [{"$push": {"previous_interactions": s}, "$unset": {"active_case_id": ..}}] *)
Definition push_interaction (s : string) (p : t) : t :=
  {| customer_id := customer_id p;
     previous_interactions := previous_interactions p ++ [s];
     purchase_history := purchase_history p;
     preference_settings := preference_settings p;
     sentiment_history := sentiment_history p;
     active_case_id := None |}.
End CustomerProfile.

Module Case.
(** A document of the [cases] collection, stored under [_id]. *)
Record t : Type := {
  session_id : string;
  customer_id : string;
  status : string;
  created_at : string;
  last_updated : string;
  initial_query : string;
  conversation_history : list ChatMessage;
  escalated : bool;
  summary : option string;
  domain : string
}.

(** [current_case_data["escalated"] = v] *)
Definition set_escalated (v : bool) (c : t) : t :=
  {| session_id := session_id c; customer_id := customer_id c;
     status := status c; created_at := created_at c;
     last_updated := last_updated c; initial_query := initial_query c;
     conversation_history := conversation_history c; escalated := v;
     summary := summary c; domain := domain c |}.

(** [current_case_data["status"] = v] *)
Definition set_status (v : string) (c : t) : t :=
  {| session_id := session_id c; customer_id := customer_id c;
     status := v; created_at := created_at c;
     last_updated := last_updated c; initial_query := initial_query c;
     conversation_history := conversation_history c; escalated := escalated c;
     summary := summary c; domain := domain c |}.

(** the [$set] of the chat turn: history, last_updated, status, escalated *)
Definition set_turn (h : list ChatMessage) (upd st : string) (esc : bool) (c : t) : t :=
  {| session_id := session_id c; customer_id := customer_id c;
     status := st; created_at := created_at c;
     last_updated := upd; initial_query := initial_query c;
     conversation_history := h; escalated := esc;
     summary := summary c; domain := domain c |}.

(** the [$set] of the resolution: status and summary *)
Definition set_resolved (s : string) (c : t) : t :=
  {| session_id := session_id c; customer_id := customer_id c;
     status := "resolved"; created_at := created_at c;
     last_updated := last_updated c; initial_query := initial_query c;
     conversation_history := conversation_history c; escalated := escalated c;
     summary := Some s; domain := domain c |}.
End Case.

Module Order.
(** A document of the [orders] collection; the three fields read with
    [order.get] may be absent. *)
Record t : Type := {
  shopid : string;
  product_name : option string;
  payment_status : option string;
  delivery_date : option string
}.
End Order.

Module ChatRequest.
Record t : Type := {
  user_query : string;
  session_id : string;
  customer_profile : CustomerProfile.t;
  conversation_history : list ChatMessage;
  shop_id_for_order_lookup : option string;
  domain : string
}.
End ChatRequest.

Module ChatResponse.
Record t : Type := {
  bot_response : string;
  case_status : string;
  case_id : option string;
  faq_suggestion : option string;
  sentiment_detected : option string
}.
End ChatResponse.

(** A message of the LLM chat: [{"role": r, "parts": [text]}]. *)
Record GeminiMessage : Type := {
  gemini_role : string;
  parts : list string
}.

(** The module-level collection handles; [None] when MongoDB could not be
    reached at start-up.  [orders] is searched by its [shopid] field, the
    other two by [_id]. *)
Record Db : Type := {
  orders_collection : option (list Order.t);
  cases_collection : option (gmap string Case.t);
  customers_collection : option (gmap string CustomerProfile.t)
}.

Definition with_collections
    (db : Db) (cases : gmap string Case.t) (customers : gmap string CustomerProfile.t) : Db :=
  {| orders_collection := orders_collection db;
     cases_collection := Some cases;
     customers_collection := Some customers |}.

(** no handle: MongoDB was not reached *)
Definition disconnected : Db :=
  {| orders_collection := None;
     cases_collection := None;
     customers_collection := None |}.

(** The MongoDB set-up at module load.  [uri] is the value of
    [MONGODB_URI]; [connect] stands for creating the client and the ping:
    [None] when either raises, the collections of database "chatbot"
    otherwise.  On each of the three paths the handles are assigned
    together. *)
Definition mongo_setup (uri : option string)
    (connect : string ->
               option (list Order.t * gmap string Case.t * gmap string CustomerProfile.t))
  : Db :=
  match uri with
  | None => disconnected
  | Some MONGO_URI =>
      if negb (Py.truthy MONGO_URI) then disconnected
      else
        match connect MONGO_URI with
        | Some (orders, cases, customers) =>
            {| orders_collection := Some orders;
               cases_collection := Some cases;
               customers_collection := Some customers |}
        | None => disconnected
        end
  end.

(** The collaborators of one request. *)
Record Env : Type := {
  (** [datetime.now().isoformat()] at its call sites, in program order *)
  now_created_at : string;
  now_created_last_updated : string;
  now_user_turn : string;
  now_bot_turn : string;
  now_last_updated : string;
  now_resolved : string;
  (** [send_message_async(text)] on a chat started with a history;
      [None] when the call raises *)
  send_message_async : list GeminiMessage -> string -> option string;
  (** [generate_content_async(prompt)]; [None] when the call raises *)
  generate_content_async : string -> option string;
  (** [datetime.strptime(s, "%Y-%m-%d").date()] as a day number;
      [None] for [ValueError] *)
  strptime : string -> option Z;
  (** [d.strftime('%B %d, %Y')] *)
  strftime : Z -> string;
  (** [datetime.today().date()] *)
  today : Z
}.

Inductive exn : Type :=
| HTTPException (status_code : nat) (detail : string)
| DuplicateKeyError (id : string)
| KeyError (key : string).

Inductive outcome (A : Type) : Type :=
| Return (a : A)
| Raise (e : exn).
Arguments Return {A} a.
Arguments Raise {A} e.

(** [str(n)] for an integer *)
Definition str_of_Z (n : Z) : string := NilZero.string_of_int (Z.to_int n).

Definition nl : string := String (ascii_of_nat 10) EmptyString.
Definition dquote : ascii := ascii_of_nat 34.

(** ** Order lookup *)

Definition lookup_unavailable : string :=
  "I'm so sorry, but the order lookup service is temporarily unavailable. Please try again in a little while!".

Definition lookup_no_id : string :=
  "It looks like a Shop ID wasn't included in your message. To check your order, please provide your Shop ID (e.g., 'What's the status of order SHOPID123?').".

Definition lookup_malformed (shopid_clean : string) : string :=
  "I couldn't find an order with that ID: '" +:+ shopid_clean +:+
  "'. Could you double-check it for me? Shop IDs usually contain letters and numbers only.".

Definition lookup_not_found (shopid_clean : string) : string :=
  "I'm sorry, but I couldn't find an order with the ID '" +:+ shopid_clean +:+
  "'. Please double-check the ID and try again, or contact our support team for more help!".

(** [orders_collection.find_one({"shopid": key})] *)
Definition find_order (orders : list Order.t) (key : string) : option Order.t :=
  List.find (fun o => String.eqb (Order.shopid o) key) orders.

Definition delivery_text (env : Env) (order : Order.t) : string :=
  match Order.delivery_date order with
  | None => "Not Available"
  | Some delivery_str =>
      if Py.truthy delivery_str then
        match strptime env delivery_str with
        | Some delivery_date =>
            let days_left := (delivery_date - today env)%Z in
            if (0 <? days_left)%Z then
              strftime env delivery_date +:+ " (expected in " +:+ str_of_Z days_left +:+ " days)"
            else if (days_left =? 0)%Z then
              strftime env delivery_date +:+ " (expected today!)"
            else
              strftime env delivery_date +:+ " (was " +:+ str_of_Z (Z.abs days_left) +:+
              " days ago, possibly delivered or completed)"
        | None =>
            "'" +:+ delivery_str +:+
            "' (Invalid date format stored. Please contact support to correct this.)"
        end
      else "Not Available"
  end.

Definition get_order_details_by_id
    (env : Env) (orders_collection : option (list Order.t)) (shopid : option string) : string :=
  match orders_collection with
  | None => lookup_unavailable
  | Some orders =>
      match shopid with
      | None => lookup_no_id
      | Some shopid =>
          if negb (Py.truthy shopid) then lookup_no_id
          else
            let shopid_clean := Py.upper (Py.strip shopid) in
            match Re.re_fullmatch shopid_shape shopid_clean with
            | None => lookup_malformed shopid_clean
            | Some _ =>
                match find_order orders shopid_clean with
                | None => lookup_not_found shopid_clean
                | Some order =>
                    let product := default "Unknown Product" (Order.product_name order) in
                    let payment := default "Unknown" (Order.payment_status order) in
                    let delivery_info := delivery_text env order in
                    "Order found:" +:+ nl +:+
                    "Product: " +:+ product +:+ nl +:+
                    "Payment Status: " +:+ payment +:+ nl +:+
                    "Estimated Delivery: " +:+ delivery_info
                end
            end
      end
  end.

(** ** The chat endpoint *)

(** the [domain_map] of [chat_endpoint] *)
Definition domain_map : gmap string (list string) :=
  list_to_map
    [ ("general", ["general_inquiry"; "greeting"]);
      ("technical", ["technical_support"; "installation_support"; "greeting"]);
      ("finance", ["finance_query"; "billing_inquiry"; "greeting"]);
      ("travel", ["travel_hospitality_query"; "greeting"; "order_status"]) ].

(** The domain restriction of [chat_endpoint]: [false] is the branch that
    returns the refusal. *)
Definition domain_allows (intent domain : string) : bool :=
  if negb (str_in intent (default [] (domain_map !! domain))) then
    if String.eqb intent "order_status" && String.eqb domain "general" then true
    else if String.eqb intent "general_inquiry" && negb (String.eqb domain "general") then true
    else false
  else true.

Definition refusal (domain : string) : ChatResponse.t :=
  {| ChatResponse.bot_response :=
       "I'm sorry, but I can only help with **" +:+ Py.capitalize domain +:+
       "**-related queries here. To ask about something else, please return to the homepage and select a different chat domain!";
     ChatResponse.case_status := "closed";
     ChatResponse.case_id := None;
     ChatResponse.faq_suggestion := None;
     ChatResponse.sentiment_detected := Some "unanswered" |}.

Definition domain_prompts : gmap string string :=
  list_to_map
    [ ("general",
       "You are a friendly customer support assistant. Your primary task is to answer general queries. You should also answer questions about order status.");
      ("technical",
       "You are a technical support agent. Your task is to help users with technical issues.");
      ("finance",
       "You are a finance support agent. Your task is to answer financial queries.");
      ("travel",
       "You are a travel assistant. Your task is to answer travel and hospitality queries.") ].

(** [for q, a in table.items(): domain_prompts[domain] += ...]; the
    subscript raises [KeyError] when [domain] has no persona line. *)
Fixpoint extend_domain_prompt
    (domain : string) (table : kb_table) (prompts : gmap string string)
  : outcome (gmap string string) :=
  match table with
  | [] => Return prompts
  | (q, a) :: rest =>
      match prompts !! domain with
      | None => Raise (KeyError domain)
      | Some p =>
          extend_domain_prompt domain rest
            (<[domain := p +:+ nl +:+ "Q: " +:+ q +:+ nl +:+ "A: " +:+ a]> prompts)
      end
  end.

Definition base_system_instruction (domain : string) (prompts : gmap string string) : string :=
  "You are a friendly, empathetic, and professional customer support assistant. " +:+
  "Your expertise is strictly limited to **" +:+ domain +:+ "**-related customer support queries. " +:+
  default EmptyString (prompts !! domain) +:+ nl +:+
  "If a user asks something outside this domain, gently explain your scope and offer to assist with relevant topics. " +:+
  "Maintain a conversational and approachable tone, like a helpful human agent. " +:+
  "Be concise and actionable in your advice.".

Definition gemini_of_history (msg : ChatMessage) : GeminiMessage :=
  {| gemini_role := if String.eqb (role msg) "bot" then "model" else "user";
     parts := [content msg] |}.

(** [repr] of the entities dict (its values are alphanumeric tokens) *)
Definition repr_entities (entities : gmap string string) : string :=
  "{" +:+
  Py.join ", " (List.map (fun kv => "'" +:+ fst kv +:+ "': '" +:+ snd kv +:+ "'")
                         (map_to_list entities)) +:+
  "}".

Definition handoff_notice : string :=
  nl +:+ nl +:+
  "**Just a heads-up**: Based on our conversation, I think it might be best if a human agent steps in. I'm escalating this for you, and someone will review our chat and get in touch shortly!".

Definition apology : string :=
  "Oh dear, I seem to be having a little trouble at the moment. Please bear with me and try again in a bit, or feel free to reach out to our human support directly if it's urgent!".

Definition unavailable_503 : exn :=
  HTTPException 503
    "MongoDB collections for cases and customers are not initialized. Check server logs.".

(** What a turn knows when it reaches the LLM call. *)
Record Turn : Type := {
  turn_cases : gmap string Case.t;
  turn_customers : gmap string CustomerProfile.t;
  case_id : string;
  current_case_data : Case.t;
  intent : string;
  urgency : string;
  user_sentiment : string;
  case_history : list ChatMessage;
  current_turn : Z;
  gemini_history : list GeminiMessage;     (* [gemini_messages[:-1]] *)
  final_instruction : string               (* [gemini_messages[-1]['parts'][0]] *)
}.

Inductive prepared : Type :=
| Done (db : Db) (r : outcome ChatResponse.t)   (* the handler has returned or raised *)
| Ready (t : Turn).                             (* the LLM call is next *)

Section Chat.

(** the table loaded from [domain_questions.json] at start-up *)
Variable domain_knowledge_bases : gmap string kb_table.
Variable env : Env.

(** Load or create the customer profile. *)
Definition load_or_create_profile
    (customers : gmap string CustomerProfile.t) (request : ChatRequest.t)
  : gmap string CustomerProfile.t * CustomerProfile.t :=
  let customer_id := CustomerProfile.customer_id (ChatRequest.customer_profile request) in
  match customers !! customer_id with
  | Some customer_profile_from_db => (customers, customer_profile_from_db)
  | None =>
      let new_profile_data := ChatRequest.customer_profile request in
      (<[customer_id := new_profile_data]> customers, new_profile_data)
  end.

(** [cases_collection.find_one({"_id": case_id, "customer_id": customer_id})] *)
Definition find_case (cases : gmap string Case.t) (case_id customer_id : string)
  : option Case.t :=
  match cases !! case_id with
  | Some c => if String.eqb (Case.customer_id c) customer_id then Some c else None
  | None => None
  end.

Definition new_case (request : ChatRequest.t) : Case.t :=
  {| Case.session_id := ChatRequest.session_id request;
     Case.customer_id := CustomerProfile.customer_id (ChatRequest.customer_profile request);
     Case.status := "open";
     Case.created_at := now_created_at env;
     Case.last_updated := now_created_last_updated env;
     Case.initial_query := ChatRequest.user_query request;
     Case.conversation_history := [];
     Case.escalated := false;
     Case.summary := None;
     Case.domain := ChatRequest.domain request |}.

(** Find or create the case; [insert_one] raises on an [_id] that is
    taken (a case of that session filed under another customer). *)
Definition find_or_create_case
    (cases : gmap string Case.t) (customers : gmap string CustomerProfile.t)
    (request : ChatRequest.t)
  : gmap string Case.t * gmap string CustomerProfile.t * outcome Case.t :=
  let case_id := ChatRequest.session_id request in
  let customer_id := CustomerProfile.customer_id (ChatRequest.customer_profile request) in
  match find_case cases case_id customer_id with
  | Some current_case_data => (cases, customers, Return current_case_data)
  | None =>
      let current_case_data := new_case request in
      match cases !! case_id with
      | Some _ => (cases, customers, Raise (DuplicateKeyError case_id))
      | None =>
          (<[case_id := current_case_data]> cases,
           alter (CustomerProfile.set_active_case_id case_id) customer_id customers,
           Return current_case_data)
      end
  end.

Definition final_llm_instruction
    (orders : option (list Order.t)) (request : ChatRequest.t)
    (customer_profile : CustomerProfile.t)
    (intent urgency user_sentiment : string) (extracted_entities : gmap string string)
    (current_turn : Z) : string :=
  let user_query := ChatRequest.user_query request in
  let long_term_memory_summary :=
    match CustomerProfile.previous_interactions customer_profile with
    | [] => "N/A"
    | previous => "Past interactions summary:" +:+ nl +:+ Py.join nl previous
    end in
  if String.eqb intent "greeting" && (current_turn =? 1)%Z then
    "The user has just started the conversation or said hello. Provide a very brief, friendly greeting and ask how you can help them today. Do NOT identify yourself as a virtual assistant or AI. Respond concisely."
  else if String.eqb intent "order_status" then
    let shopid_for_lookup :=
      match extracted_entities !! "shopid" with
      | Some s => if Py.truthy s then Some s else ChatRequest.shop_id_for_order_lookup request
      | None => ChatRequest.shop_id_for_order_lookup request
      end in
    let order_details_tool_output := get_order_details_by_id env orders shopid_for_lookup in
    "The customer asked for order status. You've performed a lookup and the tool returned the following information:" +:+
    nl +:+ nl +:+ order_details_tool_output +:+ nl +:+ nl +:+
    "Your task is to summarize this information clearly and concisely for the user, focusing on the product, payment, and delivery status. " +:+
    "If the tool indicates 'No order found' or an error, politely explain this and ask for a correct ID. " +:+
    "Maintain a warm and natural tone. Conclude by offering further assistance."
  else if negb (String.eqb (get_knowledge_base_info domain_knowledge_bases user_query
                                                    (ChatRequest.domain request))
                           no_article) then
    let knowledge_info :=
      get_knowledge_base_info domain_knowledge_bases user_query (ChatRequest.domain request) in
    "The user asked about '" +:+ user_query +:+
    "'. You found relevant information in your knowledge base: '" +:+ knowledge_info +:+ "'. " +:+
    "Present this information in a friendly, helpful, and human-like way. " +:+
    "End by asking if that was what they were looking for or if they need more help. Be concise."
  else
    "Customer Query: " +:+ user_query +:+ nl +:+
    "Customer ID: " +:+ CustomerProfile.customer_id customer_profile +:+ nl +:+
    "Long-term memory: " +:+ long_term_memory_summary +:+ nl +:+
    "Customer's current sentiment: " +:+ user_sentiment +:+ nl +:+
    "Detected intent: " +:+ intent +:+ ". Urgency: " +:+ urgency +:+ "." +:+ nl +:+
    "Extracted entities: " +:+ repr_entities extracted_entities +:+ nl.

(** [chat_endpoint] up to the LLM call. *)
Definition chat_prepare (db : Db) (request : ChatRequest.t) : prepared :=
  match cases_collection db, customers_collection db with
  | Some cases, Some customers =>
      let user_query := ChatRequest.user_query request in
      let domain := ChatRequest.domain request in
      let '(customers1, customer_profile) := load_or_create_profile customers request in
      let case_id := ChatRequest.session_id request in
      match find_or_create_case cases customers1 request with
      | (cases2, customers2, Raise e) => Done (with_collections db cases2 customers2) (Raise e)
      | (cases2, customers2, Return current_case_data) =>
          let db2 := with_collections db cases2 customers2 in
          let '(intent, urgency, extracted_entities) := determine_intent_and_urgency user_query in
          let user_sentiment := analyze_sentiment user_query in
          let case_history := ChatRequest.conversation_history request in
          let current_turn := (Z.of_nat (length case_history) / 2 + 1)%Z in
          if negb (domain_allows intent domain) then Done db2 (Return (refusal domain))
          else
            match extend_domain_prompt domain
                    (default [] (domain_knowledge_bases !! domain)) domain_prompts with
            | Raise e => Done db2 (Raise e)
            | Return prompts =>
                Ready
                  {| turn_cases := cases2;
                     turn_customers := customers2;
                     case_id := case_id;
                     current_case_data := current_case_data;
                     intent := intent;
                     urgency := urgency;
                     user_sentiment := user_sentiment;
                     case_history := case_history;
                     current_turn := current_turn;
                     gemini_history :=
                       [ {| gemini_role := "user";
                            parts := [base_system_instruction domain prompts] |};
                         {| gemini_role := "model";
                            parts := ["Understood. I am ready to assist customers within these topics with a helpful and friendly tone."] |} ]
                       ++ List.map gemini_of_history case_history;
                     final_instruction :=
                       final_llm_instruction (orders_collection db) request customer_profile
                         intent urgency user_sentiment extracted_entities current_turn |}
            end
      end
  | _, _ => Done db (Raise unavailable_503)
  end.

(** [chat_endpoint] from the LLM call on; [reply] is [None] when the
    call raised. *)
Definition chat_complete
    (db : Db) (request : ChatRequest.t) (t : Turn) (reply : option string)
  : Db * outcome ChatResponse.t :=
  let user_query := ChatRequest.user_query request in
  let '(bot_response_text, case_data) :=
    match reply with
    | Some text => (text, current_case_data t)
    | None => (apology, Case.set_escalated true (current_case_data t))
    end in
  let should_escalate :=
    manage_case_escalation (current_turn t) (intent t) (urgency t) (user_sentiment t)
                           (Case.escalated case_data) in
  let '(bot_response_text, case_data) :=
    if should_escalate && negb (Case.escalated case_data) then
      (bot_response_text +:+ handoff_notice,
       Case.set_status "escalated_to_human" (Case.set_escalated true case_data))
    else (bot_response_text, case_data) in
  let case_status := Case.status case_data in
  let case_history :=
    case_history t
    ++ [ {| role := "user"; content := user_query; timestamp := now_user_turn env |} ]
    ++ [ {| role := "bot"; content := bot_response_text; timestamp := now_bot_turn env |} ] in
  let cases' :=
    alter (Case.set_turn case_history (now_last_updated env) case_status
                         (Case.escalated case_data))
          (case_id t) (turn_cases t) in
  (with_collections db cases' (turn_customers t),
   Return
     {| ChatResponse.bot_response := bot_response_text;
        ChatResponse.case_status := case_status;
        ChatResponse.case_id := Some (case_id t);
        ChatResponse.faq_suggestion :=
          Some (get_knowledge_base_info domain_knowledge_bases user_query
                                        (ChatRequest.domain request));
        ChatResponse.sentiment_detected := Some (user_sentiment t) |}).

Definition chat_endpoint (db : Db) (request : ChatRequest.t) : Db * outcome ChatResponse.t :=
  match chat_prepare db request with
  | Done db' r => (db', r)
  | Ready t =>
      chat_complete db request t
        (send_message_async env (gemini_history t) (final_instruction t))
  end.

(** ** The resolution endpoint *)

Definition summary_prompt (history_string : string) : string :=
  "Provide a concise, 5-10 word title for this customer support chat conversation. " +:+
  "Focus on the main issue. The conversation is as follows: " +:+ history_string.

Definition resolve_case_endpoint (db : Db) (case_id : string) : Db * outcome string :=
  match cases_collection db, customers_collection db with
  | Some cases, Some customers =>
      match cases !! case_id with
      | None => (db, Raise (HTTPException 404 "Case not found."))
      | Some case =>
          if str_in (Case.status case) ["resolved"; "closed"] then
            (db, Return ("Case " +:+ case_id +:+ " is already resolved."))
          else
            let history_string :=
              Py.join " " (List.map content (Case.conversation_history case)) in
            let summary_text :=
              match generate_content_async env (summary_prompt history_string) with
              | Some text => Py.remove_char dquote (Py.strip text)
              | None =>
                  "Case " +:+ case_id +:+ " was resolved on " +:+ now_resolved env +:+
                  ". The primary issue was not automatically summarized."
              end in
            let customers' :=
              alter (CustomerProfile.push_interaction summary_text)
                    (Case.customer_id case) customers in
            let cases' := alter (Case.set_resolved summary_text) case_id cases in
            (with_collections db cases' customers',
             Return ("Case " +:+ case_id +:+
                     " resolved and summarized in customer's long-term memory."))
      end
  | _, _ =>
      (db, Raise (HTTPException 503
                    "MongoDB collections for cases and customers are not initialized."))
  end.

End Chat.

(** ** The remaining endpoints *)

Module HistorySummaryRequest.
Record t : Type := {
  session_id : string;
  conversation_history : list ChatMessage
}.
End HistorySummaryRequest.

Module HistorySummaryResponse.
Record t : Type := {
  session_id : string;
  summary : string
}.
End HistorySummaryResponse.

(** [summarize_case_endpoint]: a title for a submitted history; the
    store is not involved. *)
Definition summarize_case_endpoint (env : Env) (request : HistorySummaryRequest.t)
  : outcome HistorySummaryResponse.t :=
  let history_string :=
    Py.join " " (List.map content (HistorySummaryRequest.conversation_history request)) in
  let summary_text :=
    match generate_content_async env (summary_prompt history_string) with
    | Some text => Py.remove_char dquote (Py.strip text)
    | None => "Untitled Chat"
    end in
  Return {| HistorySummaryResponse.session_id := HistorySummaryRequest.session_id request;
            HistorySummaryResponse.summary := summary_text |}.

(** [get_conversation_history]: the messages of one session of one customer. *)
Definition get_conversation_history (db : Db) (customer_id session_id : string)
  : outcome (list ChatMessage) :=
  match cases_collection db with
  | None => Raise (HTTPException 503 "MongoDB cases collection is not initialized.")
  | Some cases =>
      match find_case cases session_id customer_id with
      | None =>
          Raise (HTTPException 404
                   ("Conversation not found for session ID: " +:+ session_id))
      | Some case_data => Return (Case.conversation_history case_data)
      end
  end.

(** *** Registration and login *)

Module UserInDB.
(** A document of the [users] collection. *)
Record t : Type := {
  name : string;
  email : string;
  hashed_password : string;
  customer_id : string
}.
End UserInDB.

Module UserRegister.
Record t : Type := {
  name : string;
  email : string;
  password : string
}.
End UserRegister.

Module LoginRequest.
Record t : Type := {
  email : string;
  password : string
}.
End LoginRequest.

Module Token.
Record t : Type := {
  access_token : string;
  token_type : string
}.
End Token.

(** The collaborators of the two endpoints: the password context, the
    token encoder and the identifier source. *)
Record AuthEnv : Type := {
  (** [pwd_context.hash(password)] *)
  get_password_hash : string -> string;
  (** [pwd_context.verify(plain_password, hashed_password)] *)
  verify_password : string -> string -> bool;
  (** [jwt.encode({"sub": email}, SECRET_KEY, algorithm=ALGORITHM)] *)
  create_access_token : string -> string;
  (** [str(uuid.uuid4())] *)
  uuid4 : string
}.

(** [users_collection.find_one({"email": email})]: the first document, in
    the order of insertion, filed under the address *)
Definition find_user (users : list UserInDB.t) (email : string) : option UserInDB.t :=
  List.find (fun u => String.eqb (UserInDB.email u) email) users.

(** [register]: the store after the call and the customer id handed out *)
Definition register (aenv : AuthEnv) (users_collection : option (list UserInDB.t))
    (user : UserRegister.t) : option (list UserInDB.t) * outcome string :=
  match users_collection with
  | None =>
      (users_collection,
       Raise (HTTPException 503 "User registration service is currently unavailable."))
  | Some users =>
      match find_user users (UserRegister.email user) with
      | Some _ => (users_collection, Raise (HTTPException 409 "Email already registered"))
      | None =>
          let customer_id := uuid4 aenv in
          let hashed_password := get_password_hash aenv (UserRegister.password user) in
          let user_in_db :=
            {| UserInDB.name := UserRegister.name user;
               UserInDB.email := UserRegister.email user;
               UserInDB.hashed_password := hashed_password;
               UserInDB.customer_id := customer_id |} in
          (Some (users ++ [user_in_db]), Return customer_id)
      end
  end.

(** [login_for_access_token] *)
Definition login_for_access_token (aenv : AuthEnv)
    (users_collection : option (list UserInDB.t)) (request : LoginRequest.t)
  : outcome Token.t :=
  match users_collection with
  | None => Raise (HTTPException 503 "User login service is currently unavailable.")
  | Some users =>
      match find_user users (LoginRequest.email request) with
      | None => Raise (HTTPException 401 "Incorrect email or password")
      | Some user =>
          if verify_password aenv (LoginRequest.password request)
                             (UserInDB.hashed_password user)
          then Return {| Token.access_token := create_access_token aenv (UserInDB.email user);
                         Token.token_type := "bearer" |}
          else Raise (HTTPException 401 "Incorrect email or password")
      end
  end.

(** * Vocabulary of the statements *)

(** [k] occurs in [s]: some text before it and some text after it *)
Definition occurs (k s : string) : Prop := exists a b, s = a +:+ k +:+ b.

(** a continuation whose success does not depend on the captured text *)
Definition blind {A} (k : string -> option string -> option A) : Prop :=
  forall rest g1 g2, is_Some (k rest g1) <-> is_Some (k rest g2).

(** the bot text, the status and the flag a completed turn settles on *)
Definition settled (t : Turn) (reply : option string) : string * string * bool :=
  let c := current_case_data t in
  match reply with
  | None => (apology, Case.status c, true)
  | Some text =>
      if manage_case_escalation (current_turn t) (intent t) (urgency t) (user_sentiment t)
                                (Case.escalated c) && negb (Case.escalated c)
      then (text +:+ handoff_notice, "escalated_to_human", true)
      else (text, Case.status c, Case.escalated c)
  end.

Definition turn_pair (env : Env) (user_query bot_text : string) : list ChatMessage :=
  [ {| role := "user"; content := user_query; timestamp := now_user_turn env |};
    {| role := "bot"; content := bot_text; timestamp := now_bot_turn env |} ].

(** the case stored under an id, if any *)
Definition stored_case (db : Db) (id : string) : option Case.t :=
  cases_collection db ≫= (fun cases => cases !! id).

(** the profile stored under an id, if any *)
Definition stored_profile (db : Db) (id : string) : option CustomerProfile.t :=
  customers_collection db ≫= (fun customers => customers !! id).

(** The case a request works on: the stored case of that session and
    customer, or the fresh one the handler creates. *)
Definition prior_case (env : Env) (db : Db) (request : ChatRequest.t) : Case.t :=
  default (new_case env request)
    (cases_collection db ≫= fun cases =>
       find_case cases (ChatRequest.session_id request)
         (CustomerProfile.customer_id (ChatRequest.customer_profile request))).

(** The LLM call of a chat request: [None] when the handler returns or
    raises before it, [Some r] when the call is made, [r] being the text
    or [None] for a call that raises. *)
Definition llm_call (kb : gmap string kb_table) (env : Env) (db : Db)
    (request : ChatRequest.t) : option (option string) :=
  match chat_prepare kb env db request with
  | Ready t => Some (send_message_async env (gemini_history t) (final_instruction t))
  | Done _ _ => None
  end.

(** the classified intent of a request *)
Definition intent_of (request : ChatRequest.t) : string :=
  (determine_intent_and_urgency (ChatRequest.user_query request)).1.1.

(** the turn number the handler derives from the submitted history *)
Definition turn_of (request : ChatRequest.t) : Z :=
  (Z.of_nat (length (ChatRequest.conversation_history request)) / 2 + 1)%Z.

(** containment that ignores letter case on both sides *)
Definition occurs_ignoring_case (k u : string) : Prop :=
  occurs (Py.lower k) (Py.lower u).

(** [answer] is what a first-match lookup over [table] gives for the
    keyword test [holds]: the answer of the first entry, in table order,
    whose keyword passes, or the sentinel when no keyword passes. *)
Definition kb_first_match (holds : string -> Prop) (table : kb_table) (answer : string)
  : Prop :=
  (exists pre k post,
      table = pre ++ (k, answer) :: post /\ holds k /\
      forall k' v', In (k', v') pre -> ~ holds k')
  \/ ((forall k' v', In (k', v') table -> ~ holds k') /\ answer = no_article).

(** The lookup as a case-insensitive first match. *)
Definition kb_lookup_ignores_case (kb : gmap string kb_table) (query domain : string)
  : Prop :=
  kb_first_match (fun k => occurs_ignoring_case k query)
                 (default [] (kb !! domain))
                 (get_knowledge_base_info kb query domain).

(** some character of [s] is outside the class [p] *)
Definition has_char_outside (p : ascii -> bool) (s : string) : Prop :=
  exists a c b, s = a +:+ String c b /\ p c = false.

(** The three handles are all present or all missing, as the set-up at
    module load leaves them. *)
Definition handles_together (db : Db) : bool :=
  match orders_collection db, cases_collection db, customers_collection db with
  | Some _, Some _, Some _ => true
  | None, None, None => true
  | _, _, _ => false
  end.

(** the history stored for a case, if the case is stored *)
Definition stored_history (db : Db) (id : string) : option (list ChatMessage) :=
  Case.conversation_history <$> stored_case db id.

(** The handler gets as far as the domain restriction: both collection
    handles are present and load-or-create raised nothing. *)
Definition reaches_guard (env : Env) (db : Db) (request : ChatRequest.t) : bool :=
  match cases_collection db, customers_collection db with
  | Some cases, Some customers =>
      match find_or_create_case env cases
              (load_or_create_profile customers request).1 request with
      | (_, _, Return _) => true
      | (_, _, Raise _) => false
      end
  | _, _ => false
  end.

(** the domain restriction is reached and refuses the classified intent *)
Definition guard_denies (env : Env) (db : Db) (request : ChatRequest.t) : bool :=
  reaches_guard env db request &&
  negb (domain_allows (intent_of request) (ChatRequest.domain request)).

(** A denied turn answers with the refusal and leaves the store as it was. *)
Definition denied_turn_leaves_store (kb : gmap string kb_table) (env : Env) (db : Db)
    (request : ChatRequest.t) : Prop :=
  guard_denies env db request = true ->
  chat_endpoint kb env db request = (db, Return (refusal (ChatRequest.domain request))).

(** [status in ["resolved", "closed"]] *)
Definition terminal (c : Case.t) : bool :=
  str_in (Case.status c) ["resolved"; "closed"].

(** A chat request for a resolved or closed case leaves its history alone. *)
Definition terminal_case_keeps_history (kb : gmap string kb_table) (env : Env) (db : Db)
    (request : ChatRequest.t) : Prop :=
  forall c,
    stored_case db (ChatRequest.session_id request) = Some c ->
    terminal c = true ->
    stored_history (chat_endpoint kb env db request).1 (ChatRequest.session_id request)
    = Some (Case.conversation_history c).


(** the four domains that have a persona line and a set of permitted intents *)
Definition known_domains : list string := ["general"; "technical"; "finance"; "travel"].

(** the invariant the data model states for a case *)
Definition escalation_invariant (c : Case.t) : Prop :=
  Case.escalated c = true ->
  Case.status c = "escalated_to_human" \/ Case.status c = "resolved".

(** ** Sample data *)

Definition sample_env (reply : option string) : Env :=
  {| now_created_at := "2025-03-01T09:00:00";
     now_created_last_updated := "2025-03-01T09:00:00";
     now_user_turn := "2025-03-01T09:00:02";
     now_bot_turn := "2025-03-01T09:00:02";
     now_last_updated := "2025-03-01T09:00:02";
     now_resolved := "2025-03-01T09:30:00";
     send_message_async := fun _ _ => reply;
     generate_content_async := fun _ => Some "Opening hours question";
     strptime := fun _ => None;
     strftime := fun _ => "March 01, 2025";
     today := 0%Z |}.

Definition sample_profile (customer_id : string) : CustomerProfile.t :=
  {| CustomerProfile.customer_id := customer_id;
     CustomerProfile.previous_interactions := [];
     CustomerProfile.purchase_history := [];
     CustomerProfile.preference_settings := ∅;
     CustomerProfile.sentiment_history := [];
     CustomerProfile.active_case_id := None |}.

Definition sample_request (query domain : string) (history : list ChatMessage)
  : ChatRequest.t :=
  {| ChatRequest.user_query := query;
     ChatRequest.session_id := "s1";
     ChatRequest.customer_profile := sample_profile "c1";
     ChatRequest.conversation_history := history;
     ChatRequest.shop_id_for_order_lookup := None;
     ChatRequest.domain := domain |}.

Definition sample_history : list ChatMessage :=
  [ {| role := "user"; content := "when do you open"; timestamp := "2025-02-27T08:00:00" |};
    {| role := "bot"; content := "We open at nine."; timestamp := "2025-02-27T08:00:01" |} ].

(** a store with no document *)
Definition empty_db : Db :=
  {| orders_collection := Some [];
     cases_collection := Some ∅;
     customers_collection := Some ∅ |}.

(** a store holding customer [c1] and the case [s1] with one earlier turn *)
Definition sample_db (status : string) (escalated : bool) : Db :=
  {| orders_collection := Some [];
     cases_collection :=
       Some {[ "s1" :=
                 {| Case.session_id := "s1";
                    Case.customer_id := "c1";
                    Case.status := status;
                    Case.created_at := "2025-02-27T08:00:00";
                    Case.last_updated := "2025-02-27T08:00:01";
                    Case.initial_query := "when do you open";
                    Case.conversation_history := sample_history;
                    Case.escalated := escalated;
                    Case.summary := None;
                    Case.domain := "general" |} ]};
     customers_collection :=
       Some {[ "c1" := CustomerProfile.set_active_case_id "s1" (sample_profile "c1") ]} |}.

(** a knowledge base with a table for a fifth domain *)
Definition pets_knowledge_bases : gmap string kb_table :=
  <[ "pets" := [("vaccination", "Vaccinations are due once a year.")] ]>
    default_knowledge_bases.

(** ** Vocabulary of the further properties *)

(** [matches r w g g']: the pattern [r] matches exactly the text [w],
    and a match that starts with the captured text [g] ends with [g']. *)
Fixpoint matches (r : Re.regex) (w : string) (g g' : option string) : Prop :=
  match r with
  | Re.Alt r1 r2 => matches r1 w g g' \/ matches r2 w g g'
  | Re.Cat r1 r2 =>
      exists w1 w2 gm, w = w1 +:+ w2 /\ matches r1 w1 g gm /\ matches r2 w2 gm g'
  | Re.Group r' => (exists gi, matches r' w g gi) /\ g' = Some w
  | _ => Re.lang r w /\ g' = g
  end.

(** a pattern without a capturing group *)
Fixpoint group_free (r : Re.regex) : bool :=
  match r with
  | Re.Alt r1 r2 | Re.Cat r1 r2 => group_free r1 && group_free r2
  | Re.Group _ => false
  | _ => true
  end.

(** a letter [a-z] or a digit *)
Definition lower_alnum (c : ascii) : bool := Py.is_lower c || Py.is_digit c.

(** the six texts a greeting has to start with *)
Definition greeting_prefixes : list string :=
  ["hi"; "hello"; "hey"; "good morning"; "good afternoon"; "good evening"].

Definition frustration_words : list string :=
  ["not working"; "frustrated"; "annoyed"; "unhappy"; "bad"; "terrible"].

Definition satisfaction_words : list string :=
  ["thank you"; "resolved"; "great"; "happy"; "good"; "excellent"].

(** the summary of an order that was found *)
Definition order_summary (env : Env) (order : Order.t) : string :=
  "Order found:" +:+ nl +:+
  "Product: " +:+ default "Unknown Product" (Order.product_name order) +:+ nl +:+
  "Payment Status: " +:+ default "Unknown" (Order.payment_status order) +:+ nl +:+
  "Estimated Delivery: " +:+ delivery_text env order.

(** One request to the store: a chat turn or a resolution, with the
    collaborators it meets. *)
Inductive operation : Type :=
| ChatOp (env : Env) (request : ChatRequest.t)
| ResolveOp (env : Env) (case_id : string).

(** the store after a request, and after a sequence of requests *)
Definition serve (kb : gmap string kb_table) (db : Db) (o : operation) : Db :=
  match o with
  | ChatOp env request => (chat_endpoint kb env db request).1
  | ResolveOp env case_id => (resolve_case_endpoint env db case_id).1
  end.

Definition serve_all (kb : gmap string kb_table) (db : Db) (ops : list operation) : Db :=
  fold_left (serve kb) ops db.

(** the three statuses the handlers write *)
Definition storable_status (c : Case.t) : Prop :=
  Case.status c = "open" \/ Case.status c = "escalated_to_human" \/
  Case.status c = "resolved".

(** the fields of a case that are set when it is created *)
Definition same_origin (c c' : Case.t) : Prop :=
  Case.session_id c' = Case.session_id c /\
  Case.customer_id c' = Case.customer_id c /\
  Case.created_at c' = Case.created_at c /\
  Case.initial_query c' = Case.initial_query c /\
  Case.domain c' = Case.domain c.

(** a password context under which [verify] accepts what [hash] produced *)
Definition sample_auth : AuthEnv :=
  {| get_password_hash := fun p => "$2b$" +:+ p;
     verify_password := fun p h => String.eqb ("$2b$" +:+ p) h;
     create_access_token := fun sub => "jwt:" +:+ sub;
     uuid4 := "7e0c5a9e-3f1b-4c55-9d0a-2b1f6a3c9e11" |}.

(** no character of [s] is the double quote *)
Definition quote_free (s : string) : Prop :=
  Re.all_in (fun c => negb (Ascii.eqb c dquote)) s.

(** [orders] without the documents filed under [shopid] *)
Definition without_order (shopid : string) (orders : list Order.t) : list Order.t :=
  List.filter (fun o => negb (String.eqb (Order.shopid o) shopid)) orders.

(** The messages of the LLM call of a chat request: the history the chat
    is started with and the final instruction; [None] when the handler
    ends before the call. *)
Definition llm_messages (kb : gmap string kb_table) (env : Env) (db : Db)
    (request : ChatRequest.t) : option (list GeminiMessage * string) :=
  match chat_prepare kb env db request with
  | Ready t => Some (gemini_history t, final_instruction t)
  | Done _ _ => None
  end.

(** the text one knowledge-base entry adds to the persona line *)
Definition kb_entry_text (entry : string * string) : string :=
  nl +:+ "Q: " +:+ entry.1 +:+ nl +:+ "A: " +:+ entry.2.

(** the texts of all entries, in table order *)
Fixpoint kb_entries_text (table : kb_table) : string :=
  match table with
  | [] => EmptyString
  | entry :: rest => kb_entry_text entry +:+ kb_entries_text rest
  end.

(** * Properties *)

#[local] Arguments String.append !_ _ : simpl nomatch.

(** ** Strings *)

Section StringFacts.

Lemma append_nil_r (s : string) : s +:+ EmptyString = s.
Proof. induction s as [|c s IH]; simpl; [reflexivity | now rewrite IH]. Qed.

Lemma append_assoc (a b c : string) : (a +:+ b) +:+ c = a +:+ b +:+ c.
Proof. induction a as [|x a IH]; simpl; [reflexivity | now rewrite IH]. Qed.

Lemma drop_prefix_spec (p s r : string) :
  Py.drop_prefix p s = Some r <-> s = p +:+ r.
Proof.
  revert s. induction p as [|a p IH]; intros s; simpl.
  - split; [intros [= ->]; reflexivity | intros ->; reflexivity].
  - destruct s as [|b s]; [split; discriminate|].
    destruct (Ascii.eqb_spec a b) as [->|Hne].
    + rewrite IH. split; [intros ->; reflexivity | intros [= ->]; reflexivity].
    + split; [discriminate | intros [= <- _]; contradiction].
Qed.

Lemma startswith_spec (p s : string) :
  Py.startswith p s = true <-> exists r, s = p +:+ r.
Proof.
  unfold Py.startswith. destruct (Py.drop_prefix p s) as [r|] eqn:E.
  - apply drop_prefix_spec in E. split; [eauto | reflexivity].
  - split; [discriminate|]. intros [r Hr]. apply drop_prefix_spec in Hr. congruence.
Qed.


Lemma contains_spec (k s : string) : Py.contains k s = true <-> occurs k s.
Proof.
  unfold occurs. induction s as [|c s IH]; simpl.
  - rewrite orb_false_r, startswith_spec. split.
    + intros [r Hr]. exists EmptyString, r. exact Hr.
    + intros [a [b H]]. destruct a; [eauto | discriminate].
  - rewrite orb_true_iff, startswith_spec, IH. split.
    + intros [[r Hr] | [a [b H]]].
      * exists EmptyString, r. exact Hr.
      * exists (String c a), b. simpl. now rewrite H.
    + intros [[|x a] [b H]].
      * left. eauto.
      * right. simpl in H. injection H as _ H. eauto.
Qed.

Lemma any_in_spec (ws : list string) (s : string) :
  Py.any_in ws s = true <-> exists w, In w ws /\ occurs w s.
Proof.
  unfold Py.any_in. rewrite existsb_exists.
  split; intros [w [Hin H]]; exists w; (split; [exact Hin|]); now apply contains_spec.
Qed.

Lemma str_in_spec (x : string) (xs : list string) : str_in x xs = true <-> In x xs.
Proof.
  unfold str_in. rewrite existsb_exists. split.
  - intros [y [Hin H]]. apply String.eqb_eq in H. now subst.
  - intros Hin. exists x. split; [exact Hin | apply String.eqb_refl].
Qed.

End StringFacts.

(** ** The matcher finds what the pattern describes *)

Section MatcherFacts.
Import Re.

Lemma is_Some_orelse {A} (x y : option A) :
  is_Some (orelse x y) <-> is_Some x \/ is_Some y.
Proof.
  destruct x as [a|]; simpl.
  - split; [intros _; left; eauto | intros _; eauto].
  - split; [intros H; now right | intros [H|H]; [destruct H; discriminate | exact H]].
Qed.

Lemma star_spec {A} (p : ascii -> bool) (s : string) (k : string -> option A) :
  is_Some (star p s k) <->
  exists w rest, s = w +:+ rest /\ all_in p w /\ is_Some (k rest).
Proof.
  induction s as [|c s IH]; simpl.
  - split.
    + intros H. exists EmptyString, EmptyString. simpl. auto.
    + intros (w & rest & E & _ & H). destruct w; [|discriminate].
      simpl in E. now subst.
  - destruct (p c) eqn:Hc.
    + rewrite is_Some_orelse, IH. split.
      * intros [(w & rest & -> & Hw & H) | H].
        -- exists (String c w), rest. simpl. auto.
        -- exists EmptyString, (String c s). simpl. auto.
      * intros ([|x w] & rest & E & Hw & H); simpl in E.
        -- right. now subst.
        -- injection E as <- ->. destruct Hw as [_ Hw]. left. eauto.
    + split.
      * intros H. exists EmptyString, (String c s). simpl. auto.
      * intros ([|x w] & rest & E & Hw & H); simpl in E.
        -- now subst.
        -- injection E as <- ->. destruct Hw as [Hx _]. congruence.
Qed.


Lemma run_spec (r : regex) :
  forall A (s : string) (g : option string) (k : string -> option string -> option A),
    blind k ->
    (is_Some (run r s g k) <->
     exists w rest, s = w +:+ rest /\ lang r w /\ is_Some (k rest g)).
Proof.
  induction r as [l | p | p | p | p | r1 IH1 r2 IH2 | r1 IH1 r2 IH2 | r IH];
    intros A s g k Hk; simpl.
  - (* Lit *)
    destruct (Py.drop_prefix l s) as [rest|] eqn:E.
    + apply drop_prefix_spec in E. split.
      * intros H. exists l, rest. auto.
      * intros (w & rest' & E' & -> & H). rewrite E in E'.
        apply (inj (String.append l)) in E'. now subst.
    + split; [intros [? ?]; discriminate|].
      intros (w & rest & E' & -> & _). apply drop_prefix_spec in E'. congruence.
  - (* Cls *)
    destruct s as [|c s].
    + split; [intros [? ?]; discriminate|].
      intros (w & rest & E & (c & -> & _) & _). discriminate.
    + destruct (p c) eqn:Hc.
      * split.
        -- intros H. exists (String c EmptyString), s. simpl. eauto.
        -- intros (w & rest & E & (c' & -> & _) & H). simpl in E.
           injection E as _ ->. exact H.
      * split; [intros [? ?]; discriminate|].
        intros (w & rest & E & (c' & -> & Hc') & H). simpl in E.
        injection E as -> _. congruence.
  - (* Star *)
    apply star_spec.
  - (* Plus *)
    destruct s as [|c s].
    + split; [intros [? ?]; discriminate|].
      intros ([|x w] & rest & E & [Hne _] & _); [contradiction | discriminate].
    + destruct (p c) eqn:Hc.
      * rewrite star_spec. split.
        -- intros (w & rest & -> & Hw & H). exists (String c w), rest.
           simpl. repeat split; auto; discriminate.
        -- intros ([|x w] & rest & E & [Hne Hw] & H); [contradiction|].
           simpl in E. injection E as <- ->. destruct Hw as [_ Hw]. eauto.
      * split; [intros [? ?]; discriminate|].
        intros ([|x w] & rest & E & [Hne Hw] & H); [contradiction|].
        simpl in E. injection E as <- ->. destruct Hw as [Hx _]. congruence.
  - (* Opt *)
    assert (Hnil : is_Some (k s g) ->
                   exists w rest, s = w +:+ rest /\
                     (w = EmptyString \/ exists c, w = String c EmptyString /\ p c = true) /\
                     is_Some (k rest g)).
    { intros H. exists EmptyString, s. simpl. auto. }
    destruct s as [|c s].
    + split; [exact Hnil|].
      intros (w & rest & E & _ & H). destruct w; [|discriminate]. simpl in E. now subst.
    + destruct (p c) eqn:Hc.
      * rewrite is_Some_orelse. split.
        -- intros [H|H]; [|now apply Hnil].
           exists (String c EmptyString), s. simpl. eauto 6.
        -- intros (w & rest & E & [-> | (c' & -> & _)] & H); simpl in E.
           ++ right. now subst.
           ++ injection E as _ ->. now left.
      * split; [exact Hnil|].
        intros (w & rest & E & [-> | (c' & -> & Hc')] & H); simpl in E.
        -- now subst.
        -- injection E as -> _. congruence.
  - (* Alt *)
    rewrite is_Some_orelse, (IH1 _ s g k Hk), (IH2 _ s g k Hk). split.
    + intros [(w & rest & E & Hw & H) | (w & rest & E & Hw & H)];
        exists w, rest; auto.
    + intros (w & rest & E & [Hw|Hw] & H); [left | right]; eauto.
  - (* Cat *)
    assert (Hk2 : blind (fun rest g' => run r2 rest g' k)).
    { intros rest g1 g2. rewrite (IH2 _ rest g1 k Hk), (IH2 _ rest g2 k Hk).
      split; intros (w & rest' & E & Hw & H); exists w, rest';
        (repeat split; auto); eapply Hk; exact H. }
    rewrite (IH1 _ s g _ Hk2). split.
    + intros (w1 & rest1 & -> & Hw1 & H). apply (IH2 _ rest1 g k Hk) in H.
      destruct H as (w2 & rest & -> & Hw2 & H).
      exists (w1 +:+ w2), rest. rewrite append_assoc. eauto 8.
    + intros (w & rest & -> & (w1 & w2 & -> & Hw1 & Hw2) & H).
      exists w1, (w2 +:+ rest). rewrite append_assoc. repeat split; auto.
      apply (IH2 _ _ g k Hk). eauto.
  - (* Group *)
    rewrite IH.
    + split; intros (w & rest & E & Hw & H); exists w, rest;
        (repeat split; auto); eapply Hk; exact H.
    + intros rest g1 g2. reflexivity.
Qed.

(** [re.match] succeeds exactly when a prefix of the text is in the
    language of the pattern. *)
Lemma re_match_spec (r : regex) (s : string) :
  is_Some (re_match r s) <-> exists w rest, s = w +:+ rest /\ lang r w.
Proof.
  unfold re_match. rewrite run_spec.
  - split; intros (w & rest & E & Hw); exists w, rest; [tauto | eauto].
  - intros rest g1 g2. split; eauto.
Qed.

End MatcherFacts.

(** ** The classifier on sample utterances *)

Example classify_order : determine_intent_and_urgency "My order number is #AB12 please"
                         = ("order_status", "low", {["shopid" := "ab12"]}).
Proof. vm_compute. reflexivity. Qed.
Example classify_order3 : determine_intent_and_urgency "where is the 77x order"
                         = ("order_status", "low", {["shopid" := "77x"]}).
Proof. vm_compute. reflexivity. Qed.
Example classify_hi : determine_intent_and_urgency "  History of my order id 55"
                         = ("greeting", "low", ∅).
Proof. vm_compute. reflexivity. Qed.
Example classify_wifi : determine_intent_and_urgency "The WIFI is down"
                         = ("technical_support", "low", ∅).
Proof. vm_compute. reflexivity. Qed.

(** ** The greeting check comes first *)

Lemma is_greeting_spec (query_lower : string) :
  is_greeting query_lower = true <->
  exists pattern w rest,
    In pattern greeting_patterns /\ query_lower = w +:+ rest /\ Re.lang pattern w.
Proof.
  unfold is_greeting. rewrite existsb_exists. split.
  - intros (pattern & Hin & H). apply bool_decide_eq_true in H.
    apply re_match_spec in H. destruct H as (w & rest & E & Hw). eauto 6.
  - intros (pattern & w & rest & Hin & E & Hw). exists pattern. split; [exact Hin|].
    apply bool_decide_eq_true, re_match_spec. eauto.
Qed.

(** C8. Whenever the lowercased, trimmed utterance starts with a text of
    one of the greeting patterns, the classifier answers
    [("greeting", "low", {})], whatever follows in the utterance: the
    shop-id patterns are not tried and no shop id is extracted. *)
Theorem greeting_has_priority (query : string) :
  (exists pattern w rest,
      In pattern greeting_patterns /\
      Py.strip (Py.lower query) = w +:+ rest /\
      Re.lang pattern w) ->
  determine_intent_and_urgency query = ("greeting", "low", ∅).
Proof.
  intros H. apply is_greeting_spec in H.
  unfold determine_intent_and_urgency. now rewrite H.
Qed.

(** The utterance below carries a shop id that the second shop-id pattern
    would extract, and is classified as a greeting all the same. *)
Lemma greeting_has_priority_witness :
  determine_intent_and_urgency "Hi, my order id is 55" = ("greeting", "low", ∅) /\
  find_shopid shopid_patterns (Py.strip (Py.lower "Hi, my order id is 55")) = Some "55".
Proof.
  split; [|vm_compute; reflexivity].
  apply (greeting_has_priority "Hi, my order id is 55").
  exists (Re.Cat (Re.Lit "h") (Re.Plus (Re.one "i"%char))), "hi", ", my order id is 55".
  split; [left; reflexivity|].
  split; [vm_compute; reflexivity|].
  exists "h", "i". repeat split; try reflexivity. discriminate.
Defined.

(** ** Escalation policy *)

Lemma policy_characterised (t : Z) (i u s : string) (e : bool) :
  manage_case_escalation t i u s e = true <->
  e = true \/
  (u = "high" /\ s = "frustrated") \/
  ((t > 3)%Z /\ s = "frustrated") \/
  (In i escalating_intents /\ (t > 2)%Z).
Proof.
  unfold manage_case_escalation.
  rewrite <- str_in_spec, <- !String.eqb_eq, !Z.gt_lt_iff, <- !Z.ltb_lt.
  destruct e, (String.eqb u "high"), (String.eqb s "frustrated"),
    (3 <? t)%Z, (str_in i escalating_intents), (2 <? t)%Z; simpl;
    intuition congruence.
Qed.

(** ** What a turn that reaches the LLM call has established *)

Section ChatFacts.

Variable domain_knowledge_bases : gmap string kb_table.
Variable env : Env.

#[local] Abbreviation chat_prepare := (chat_prepare domain_knowledge_bases env).
#[local] Abbreviation chat_endpoint := (chat_endpoint domain_knowledge_bases env).
#[local] Abbreviation chat_complete := (chat_complete domain_knowledge_bases env).

Lemma find_or_create_case_stored cases customers request cases' customers' c :
  find_or_create_case env cases customers request = (cases', customers', Return c) ->
  cases' !! ChatRequest.session_id request = Some c.
Proof.
  unfold find_or_create_case, find_case.
  destruct (cases !! ChatRequest.session_id request) as [c0|] eqn:E.
  - destruct (String.eqb _ _); [|discriminate].
    intros [= <- _ <-]. exact E.
  - intros [= <- _ <-]. apply lookup_insert_eq.
Qed.

(** earlier cases are never touched by the load-or-create steps *)
Lemma find_or_create_case_keeps cases customers request cases' customers' r k c :
  find_or_create_case env cases customers request = (cases', customers', r) ->
  cases !! k = Some c -> cases' !! k = Some c.
Proof.
  unfold find_or_create_case. intros H Hk.
  destruct (find_case _ _ _); [injection H as <- _ _; exact Hk|].
  destruct (cases !! ChatRequest.session_id request) eqn:E;
    injection H as <- _ _; [exact Hk|].
  rewrite lookup_insert_ne; [exact Hk | congruence].
Qed.

Lemma chat_prepare_ready db request t :
  chat_prepare db request = Ready t ->
  exists cases customers,
    cases_collection db = Some cases /\
    customers_collection db = Some customers /\
    find_or_create_case env cases (fst (load_or_create_profile customers request)) request
      = (turn_cases t, turn_customers t, Return (current_case_data t)) /\
    case_id t = ChatRequest.session_id request /\
    case_history t = ChatRequest.conversation_history request /\
    current_turn t
      = (Z.of_nat (length (ChatRequest.conversation_history request)) / 2 + 1)%Z /\
    (intent t, urgency t) = fst (determine_intent_and_urgency (ChatRequest.user_query request)) /\
    user_sentiment t = analyze_sentiment (ChatRequest.user_query request) /\
    domain_allows (intent t) (ChatRequest.domain request) = true.
Proof.
  unfold chat_prepare.
  destruct (cases_collection db) as [cases|]; [|discriminate].
  destruct (customers_collection db) as [customers|]; [|discriminate].
  destruct (load_or_create_profile customers request) as [customers1 profile] eqn:Ep.
  destruct (find_or_create_case env cases customers1 request) as [[cases2 customers2] [c|e]] eqn:Ec;
    [|discriminate].
  destruct (determine_intent_and_urgency _) as [[i u] ents] eqn:Ei.
  destruct (domain_allows i _) eqn:Ha; simpl; [|discriminate].
  destruct (extend_domain_prompt _ _ _); [|discriminate].
  intros [= <-]. exists cases, customers. simpl. rewrite Ep. repeat split; auto.
Qed.

Lemma chat_prepare_stored db request t :
  chat_prepare db request = Ready t ->
  turn_cases t !! ChatRequest.session_id request = Some (current_case_data t).
Proof.
  intros H. apply chat_prepare_ready in H.
  destruct H as (cases & customers & _ & _ & Hc & _).
  eapply find_or_create_case_stored, Hc.
Qed.


Lemma chat_complete_spec db request t reply :
  let '(bot_text, st, esc) := settled t reply in
  chat_complete db request t reply =
    (with_collections db
       (alter (Case.set_turn
                 (case_history t ++ turn_pair env (ChatRequest.user_query request) bot_text)
                 (now_last_updated env) st esc)
              (case_id t) (turn_cases t))
       (turn_customers t),
     Return
       {| ChatResponse.bot_response := bot_text;
          ChatResponse.case_status := st;
          ChatResponse.case_id := Some (case_id t);
          ChatResponse.faq_suggestion :=
            Some (get_knowledge_base_info domain_knowledge_bases
                    (ChatRequest.user_query request) (ChatRequest.domain request));
          ChatResponse.sentiment_detected := Some (user_sentiment t) |}).
Proof.
  unfold settled, chat_complete, turn_pair. destruct reply as [text|]; simpl.
  - destruct (manage_case_escalation _ _ _ _ _ && negb _); reflexivity.
  - reflexivity.
Qed.

End ChatFacts.

Section TurnFacts.

Variable kb : gmap string kb_table.
Variable env : Env.

Lemma find_or_create_case_prior db cases customers request cases' customers' c :
  cases_collection db = Some cases ->
  find_or_create_case env cases customers request = (cases', customers', Return c) ->
  c = prior_case env db request.
Proof.
  intros Hdb. unfold prior_case. rewrite Hdb. simpl.
  unfold find_or_create_case.
  destruct (find_case cases _ _) as [c0|]; simpl.
  - now intros [= _ _ <-].
  - destruct (cases !! _); [discriminate|]. now intros [= _ _ <-].
Qed.

(** A request whose LLM call is made: the handler runs to its end, works
    on [prior_case], and the case is in the store when the turn is saved. *)
Lemma llm_call_made db request r :
  llm_call kb env db request = Some r ->
  exists t,
    chat_endpoint kb env db request = chat_complete kb env db request t r /\
    current_case_data t = prior_case env db request /\
    turn_cases t !! ChatRequest.session_id request = Some (prior_case env db request) /\
    case_id t = ChatRequest.session_id request /\
    case_history t = ChatRequest.conversation_history request /\
    current_turn t = turn_of request /\
    intent t = intent_of request /\
    urgency t = (determine_intent_and_urgency (ChatRequest.user_query request)).1.2 /\
    user_sentiment t = analyze_sentiment (ChatRequest.user_query request) /\
    domain_allows (intent_of request) (ChatRequest.domain request) = true.
Proof.
  unfold llm_call, chat_endpoint.
  destruct (chat_prepare kb env db request) as [|t] eqn:E; [discriminate|].
  intros [= <-]. exists t. split; [reflexivity|].
  pose proof (chat_prepare_stored _ _ _ _ _ E) as Hst.
  apply chat_prepare_ready in E.
  destruct E as (cases & customers & Hc & _ & Hf & Hid & Hh & Ht & Hi & Hs & Ha).
  pose proof (find_or_create_case_prior _ _ _ _ _ _ _ Hc Hf) as Hp.
  unfold intent_of, turn_of. rewrite <- Hi. simpl.
  rewrite <- Hp. repeat split; auto.
Qed.

(** the case stored after a turn that reached the LLM call *)
Lemma llm_call_saved db request r :
  llm_call kb env db request = Some r ->
  exists t,
    current_case_data t = prior_case env db request /\
    current_turn t = turn_of request /\
    intent t = intent_of request /\
    urgency t = (determine_intent_and_urgency (ChatRequest.user_query request)).1.2 /\
    user_sentiment t = analyze_sentiment (ChatRequest.user_query request) /\
    let '(bot_text, st, esc) := settled t r in
    stored_case (chat_endpoint kb env db request).1 (ChatRequest.session_id request)
      = Some (Case.set_turn
                (ChatRequest.conversation_history request
                 ++ turn_pair env (ChatRequest.user_query request) bot_text)
                (now_last_updated env) st esc (prior_case env db request)) /\
    exists resp,
      (chat_endpoint kb env db request).2 = Return resp /\
      ChatResponse.bot_response resp = bot_text /\
      ChatResponse.case_status resp = st /\
      ChatResponse.case_id resp = Some (ChatRequest.session_id request).
Proof.
  intros H. apply llm_call_made in H.
  destruct H as (t & -> & Hc & Hst & Hid & Hh & Ht & Hi & Hu & Hs & _).
  exists t. repeat (split; [assumption|]).
  pose proof (chat_complete_spec kb env db request t r) as Hsp.
  destruct (settled t r) as [[bot_text st] esc]. rewrite Hsp. simpl.
  unfold stored_case. simpl. rewrite Hid, Hh, lookup_alter_eq, Hst. simpl.
  split; [reflexivity|]. eexists. split; [reflexivity|]. simpl. auto.
Qed.

End TurnFacts.

(** C6. The escalation policy answers [true] exactly when the flag passed
    in is already [true], or urgency is "high" with a frustrated user, or
    the turn is past 3 with a frustrated user, or the intent is one of the
    five escalating intents and the turn is past 2.  The handler calls it
    with the turn [length history / 2 + 1] of the submitted history, the
    classified intent and urgency, the sentiment of the query and the flag
    of the case it works on, and when the LLM answers the flag it stores is
    the answer of the policy. *)
Theorem escalation_policy_spec :
  (forall (t : Z) (i u s : string) (e : bool),
      manage_case_escalation t i u s e = true <->
      e = true \/
      (u = "high" /\ s = "frustrated") \/
      ((t > 3)%Z /\ s = "frustrated") \/
      (In i escalating_intents /\ (t > 2)%Z)) /\
  (forall kb env db request text,
      llm_call kb env db request = Some (Some text) ->
      Case.escalated <$>
        stored_case (chat_endpoint kb env db request).1 (ChatRequest.session_id request)
      = Some (manage_case_escalation
                (Z.of_nat (length (ChatRequest.conversation_history request)) / 2 + 1)
                (determine_intent_and_urgency (ChatRequest.user_query request)).1.1
                (determine_intent_and_urgency (ChatRequest.user_query request)).1.2
                (analyze_sentiment (ChatRequest.user_query request))
                (Case.escalated (prior_case env db request)))).
Proof.
  split; [exact policy_characterised|].
  intros kb env db request text H.
  apply llm_call_saved in H. destruct H as (t & Hc & Ht & Hi & Hu & Hs & H).
  unfold settled in H. rewrite Hc, Ht, Hi, Hu, Hs in H.
  unfold turn_of, intent_of in H.
  destruct (manage_case_escalation _ _ _ _ _) eqn:Hm;
    destruct (Case.escalated (prior_case env db request)) eqn:He; simpl in H;
    destruct H as [-> _]; simpl; try reflexivity.
  (* the policy cannot answer [false] on a flag that is already set *)
  unfold manage_case_escalation in Hm. discriminate.
Qed.

(** Third turn of a technical conversation: the policy escalates. *)
Lemma escalation_policy_spec_witness :
  Case.escalated <$>
    stored_case
      (chat_endpoint default_knowledge_bases (sample_env (Some "Try the router."))
         (sample_db "open" false)
         (sample_request "my wifi is down again" "technical"
            (sample_history ++ sample_history))).1 "s1"
  = Some true.
Proof.
  apply (proj2 escalation_policy_spec default_knowledge_bases
           (sample_env (Some "Try the router.")) (sample_db "open" false)
           (sample_request "my wifi is down again" "technical"
              (sample_history ++ sample_history))
           "Try the router.").
  vm_compute. reflexivity.
Defined.

(** C5. When the LLM call of a chat turn raises, the handler still
    returns a response; its text is the fixed apology, the stored case has
    its [escalated] flag set whatever the policy would have said, and the
    stored history is the submitted history followed by the user message
    and the apology. *)
Theorem llm_failure_recovers kb env db request :
  llm_call kb env db request = Some None ->
  exists db' resp c',
    chat_endpoint kb env db request = (db', Return resp) /\
    ChatResponse.bot_response resp = apology /\
    stored_case db' (ChatRequest.session_id request) = Some c' /\
    Case.escalated c' = true /\
    Case.conversation_history c'
      = ChatRequest.conversation_history request
        ++ [ {| role := "user"; content := ChatRequest.user_query request;
                timestamp := now_user_turn env |};
             {| role := "bot"; content := apology; timestamp := now_bot_turn env |} ].
Proof.
  intros H. apply llm_call_saved in H. destruct H as (t & _ & _ & _ & _ & _ & H).
  simpl in H. destruct H as (Hst & resp & Hr & Hb & _).
  destruct (chat_endpoint kb env db request) as [db' r]. simpl in *. subst r.
  exists db', resp. eexists. split; [reflexivity|]. split; [exact Hb|].
  split; [exact Hst|]. split; reflexivity.
Qed.

(** First turn of a neutral general inquiry: the policy alone would not
    escalate, the failed call does. *)
Lemma llm_failure_recovers_witness :
  manage_case_escalation 1 "general_inquiry" "low" "neutral" false = false /\
  exists db' resp c',
    chat_endpoint default_knowledge_bases (sample_env None) empty_db
      (sample_request "what are your opening hours" "general" []) = (db', Return resp) /\
    ChatResponse.bot_response resp = apology /\
    stored_case db' "s1" = Some c' /\
    Case.escalated c' = true /\
    Case.conversation_history c'
      = [ {| role := "user"; content := "what are your opening hours";
             timestamp := "2025-03-01T09:00:02" |};
          {| role := "bot"; content := apology; timestamp := "2025-03-01T09:00:02" |} ].
Proof.
  split; [reflexivity|].
  apply (llm_failure_recovers default_knowledge_bases (sample_env None) empty_db
           (sample_request "what are your opening hours" "general" [])).
  vm_compute. reflexivity.
Defined.

(** C2 (the code departs from it). A first chat turn whose LLM call raises
    stores the case with [escalated = true] and [status = "open"]: the
    flag is set without the status moving to [escalated_to_human], which
    the policy branch of the same handler does set. *)
Theorem llm_failure_escalates_without_status :
  (fun c => (Case.escalated c, Case.status c)) <$>
    stored_case
      (chat_endpoint default_knowledge_bases (sample_env None) empty_db
         (sample_request "what are your opening hours" "general" [])).1 "s1"
  = Some (true, "open").
Proof. vm_compute. reflexivity. Qed.

(** ** Knowledge-base lookup *)

Lemma kb_scan_first_match (table : kb_table) (query_lower : string) :
  kb_first_match (fun k => occurs k query_lower) table (kb_scan table query_lower).
Proof.
  induction table as [|[k v] table IH]; simpl.
  - right. split; [intros k' v' []|reflexivity].
  - destruct (Py.contains k query_lower) eqn:Hk.
    + left. exists [], k, table. split; [reflexivity|].
      split; [now apply contains_spec | intros k' v' []].
    + assert (Hno : ~ occurs k query_lower)
        by (rewrite <- contains_spec; congruence).
      destruct IH as [(pre & k0 & post & E & Hk0 & Hpre) | [Hall E]].
      * left. exists ((k, v) :: pre), k0, post. split; [simpl; f_equal; exact E|].
        split; [exact Hk0|]. intros k' v' [[= <- <-]|Hin]; [exact Hno | eauto].
      * right. split; [|exact E].
        intros k' v' [[= <- <-]|Hin]; [exact Hno | eauto].
Qed.

Lemma kb_first_match_ext (P Q : string -> Prop) (table : kb_table) (answer : string) :
  (forall k v, In (k, v) table -> (P k <-> Q k)) ->
  kb_first_match P table answer -> kb_first_match Q table answer.
Proof.
  intros Heq [(pre & k & post & -> & Hk & Hpre) | [Hall ->]].
  - left. exists pre, k, post. split; [reflexivity|]. split.
    + apply (Heq k answer); [|exact Hk]. apply in_or_app. right. now left.
    + intros k' v' Hin HQ. apply (Hpre k' v' Hin), (Heq k' v'); [|exact HQ].
      apply in_or_app. now left.
  - right. split; [|reflexivity].
    intros k' v' Hin HQ. apply (Hall k' v' Hin), (Heq k' v' Hin), HQ.
Qed.

(** C7 as stated fails: the keyword is compared as it is written in the
    table, so a keyword with a capital letter is never found, although it
    occurs in the utterance when letter case is ignored. *)
Lemma kb_lookup_ignores_case_counterexample :
  ~ kb_lookup_ignores_case {[ "general" := [("Refund", "Refunds take a week.")] ]}
      "refund please" "general".
Proof.
  unfold kb_lookup_ignores_case.
  change (default [] _) with [("Refund", "Refunds take a week.")].
  change (get_knowledge_base_info _ _ _) with no_article.
  intros [(pre & k & post & E & _) | [Hall _]].
  - destruct pre as [|e [|e' pre]]; simpl in E; discriminate.
  - apply (Hall "Refund" "Refunds take a week."); [now left|].
    exists EmptyString, " please". reflexivity.
Qed.

(** C7 (amended). The lookup returns the answer of the first entry, in
    table order, whose keyword occurs verbatim in the lowercased utterance,
    and the sentinel when no keyword does; for a table whose keywords are
    written in lower case this is the first entry whose keyword occurs in
    the utterance when letter case is ignored. *)
Theorem kb_lookup_first_match (kb : gmap string kb_table) (query domain : string) :
  kb_first_match (fun k => occurs k (Py.lower query))
                 (default [] (kb !! domain))
                 (get_knowledge_base_info kb query domain)
  /\ ((forall k v, In (k, v) (default [] (kb !! domain)) -> Py.lower k = k) ->
      kb_lookup_ignores_case kb query domain).
Proof.
  assert (H : kb_first_match (fun k => occurs k (Py.lower query))
                (default [] (kb !! domain)) (get_knowledge_base_info kb query domain))
    by apply kb_scan_first_match.
  split; [exact H|].
  intros Hlow. unfold kb_lookup_ignores_case.
  eapply kb_first_match_ext; [|exact H].
  intros k v Hin. unfold occurs_ignoring_case. now rewrite (Hlow k v Hin).
Qed.

(** The example of the specification, with capitals in the utterance. *)
Lemma kb_lookup_first_match_witness :
  kb_lookup_ignores_case default_knowledge_bases "I have a Refund Status question" "general"
  /\ get_knowledge_base_info default_knowledge_bases "I have a Refund Status question" "general"
     = "Refunds typically take 5-7 business days to process. Please provide your order number to check the status.".
Proof.
  split; [|vm_compute; reflexivity].
  apply (proj2 (kb_lookup_first_match default_knowledge_bases
                  "I have a Refund Status question" "general")).
  intros k v Hin. vm_compute in Hin.
  destruct Hin as [[= <- <-]|[]]. reflexivity.
Defined.

(** ** Order lookup *)

(** [re.fullmatch] succeeds exactly on the texts of the pattern's language. *)
Lemma re_fullmatch_spec (r : Re.regex) (s : string) :
  is_Some (Re.re_fullmatch r s) <-> Re.lang r s.
Proof.
  unfold Re.re_fullmatch. rewrite run_spec.
  - split.
    + intros (w & [|c rest] & -> & Hw & H); [|destruct H; discriminate].
      now rewrite append_nil_r.
    + intros H. exists s, EmptyString. rewrite append_nil_r. eauto.
  - intros [|c rest] g1 g2; split; intros H; eauto; destruct H; discriminate.
Qed.

Lemma all_in_inside (p : ascii -> bool) (s : string) :
  Re.all_in p s -> ~ has_char_outside p s.
Proof.
  intros Hall (a & c & b & -> & Hc). revert Hall.
  induction a as [|x a IH]; simpl; intros [Hx Hall]; [congruence | auto].
Qed.

Lemma outside_nonempty (p : ascii -> bool) (s : string) :
  has_char_outside p (Py.upper (Py.strip s)) -> Py.truthy s = true.
Proof.
  intros (a & c & b & E & _). destruct s; [|reflexivity].
  destruct a; discriminate.
Qed.

(** The handles are set together at module load, whatever the URI and
    the outcome of the connection. *)
Lemma mongo_setup_handles_together uri connect :
  handles_together (mongo_setup uri connect) = true.
Proof.
  unfold mongo_setup. destruct uri as [u|]; [|reflexivity].
  destruct (negb (Py.truthy u)); [reflexivity|].
  now destruct (connect u) as [[[orders cases] customers]|].
Qed.

(** A chat request that is not turned away with status 503 runs with all
    three handles present, the order store handle included. *)
Lemma served_chat_has_orders kb env db request :
  handles_together db = true ->
  chat_endpoint kb env db request <> (db, Raise unavailable_503) ->
  is_Some (orders_collection db).
Proof.
  unfold handles_together, chat_endpoint, chat_prepare.
  destruct (orders_collection db); [eauto|].
  destruct (cases_collection db); [discriminate|].
  destruct (customers_collection db); [discriminate|].
  intros _ H. now destruct H.
Qed.

(** the adapter with a well-formed call but the handle missing, the state
    in which the chat handler answers 503 before it gets to the adapter *)
Lemma lookup_without_handle env shopid :
  get_order_details_by_id env None shopid = lookup_unavailable.
Proof. reflexivity. Qed.

(** C9. Every supplied shop id that, trimmed and uppercased, has a
    character outside [[A-Z0-9]] gets the "couldn't find" malformed-id
    message, and the order store is not queried: the answer is the same
    for every content of the store.  This is the answer on every call the
    chat handler makes: the handles are set together at module load, and
    the handler calls the adapter only when it has not turned the request
    away with status 503 for a missing handle. *)
Theorem malformed_id_rejected_before_lookup (env : Env) (shopid : string) :
  has_char_outside Re.upper_alnum (Py.upper (Py.strip shopid)) ->
  (forall orders : list Order.t,
      get_order_details_by_id env (Some orders) (Some shopid)
      = lookup_malformed (Py.upper (Py.strip shopid))) /\
  (forall kb env' db request,
      handles_together db = true ->
      chat_endpoint kb env' db request <> (db, Raise unavailable_503) ->
      get_order_details_by_id env (orders_collection db) (Some shopid)
      = lookup_malformed (Py.upper (Py.strip shopid))).
Proof.
  intros Hbad.
  assert (Hset : forall orders : list Order.t,
             get_order_details_by_id env (Some orders) (Some shopid)
             = lookup_malformed (Py.upper (Py.strip shopid))).
  { intros orders. unfold get_order_details_by_id.
    rewrite (outside_nonempty _ _ Hbad). simpl.
    destruct (Re.re_fullmatch shopid_shape _) as [m|] eqn:E; [|reflexivity].
    exfalso.
    assert (Hm : is_Some (Re.re_fullmatch shopid_shape (Py.upper (Py.strip shopid))))
      by (rewrite E; eauto).
    apply re_fullmatch_spec in Hm. destruct Hm as [_ Hall].
    exact (all_in_inside _ _ Hall Hbad). }
  split; [exact Hset|].
  intros kb env' db request Hh Hserved.
  destruct (served_chat_has_orders kb env' db request Hh Hserved) as [orders ->].
  apply Hset.
Qed.

(** The store below even holds an order filed under the malformed id;
    the second part is a chat request on a connected, empty store. *)
Lemma malformed_id_rejected_before_lookup_witness :
  get_order_details_by_id (sample_env None)
    (Some [ {| Order.shopid := "SHOP-123!"; Order.product_name := Some "Kettle";
               Order.payment_status := Some "Paid"; Order.delivery_date := None |} ])
    (Some " shop-123! ")
  = "I couldn't find an order with that ID: 'SHOP-123!'. Could you double-check it for me? Shop IDs usually contain letters and numbers only." /\
  get_order_details_by_id (sample_env None) (orders_collection empty_db) (Some " shop-123! ")
  = "I couldn't find an order with that ID: 'SHOP-123!'. Could you double-check it for me? Shop IDs usually contain letters and numbers only.".
Proof.
  destruct (malformed_id_rejected_before_lookup (sample_env None) " shop-123! "
              ltac:(exists "SHOP", "-"%char, "123!"; split; vm_compute; reflexivity))
    as [Hset Hserved].
  split; [apply Hset|].
  apply (Hserved default_knowledge_bases (sample_env None) empty_db
           (sample_request "where is my order" "general" []) eq_refl).
  intros H. apply (f_equal snd) in H. vm_compute in H. discriminate.
Defined.

(** ** Turns that stop before the LLM call *)

Section EarlyExit.

Variable kb : gmap string kb_table.
Variable env : Env.

(** whatever way the handler leaves before the LLM call, the cases that
    were stored are still stored, unchanged *)
Lemma chat_prepare_done_keeps db request db' r id c :
  chat_prepare kb env db request = Done db' r ->
  stored_case db id = Some c -> stored_case db' id = Some c.
Proof.
  unfold chat_prepare, stored_case.
  destruct (cases_collection db) as [cases|] eqn:Hc; [|discriminate].
  destruct (customers_collection db) as [customers|].
  2:{ intros [= <- _]. now rewrite Hc. }
  destruct (load_or_create_profile customers request) as [customers1 profile].
  destruct (find_or_create_case env cases customers1 request)
    as [[cases2 customers2] [c2|e]] eqn:Ef; simpl; intros H Hid.
  - pose proof (find_or_create_case_keeps _ _ _ _ _ _ _ _ _ Ef Hid) as Hk.
    destruct (determine_intent_and_urgency _) as [[i u] ents].
    destruct (negb (domain_allows i _)); [injection H as <- _; exact Hk|].
    destruct (extend_domain_prompt _ _ _); [discriminate|].
    injection H as <- _; exact Hk.
  - injection H as <- _. simpl.
    exact (find_or_create_case_keeps _ _ _ _ _ _ _ _ _ Ef Hid).
Qed.

Lemma guard_denies_refuses db request :
  guard_denies env db request = true ->
  exists cases customers cases' customers' c,
    cases_collection db = Some cases /\
    customers_collection db = Some customers /\
    find_or_create_case env cases (load_or_create_profile customers request).1 request
      = (cases', customers', Return c) /\
    chat_endpoint kb env db request
      = (with_collections db cases' customers', Return (refusal (ChatRequest.domain request))).
Proof.
  unfold guard_denies, reaches_guard, chat_endpoint, chat_prepare, intent_of.
  intros H. apply andb_true_iff in H. destruct H as [Hr Hd].
  destruct (cases_collection db) as [cases|]; [|discriminate].
  destruct (customers_collection db) as [customers|]; [|discriminate].
  destruct (load_or_create_profile customers request) as [customers1 profile] eqn:Ep.
  simpl in Hr.
  destruct (find_or_create_case env cases customers1 request)
    as [[cases2 customers2] [c2|e]] eqn:Ef; [|discriminate].
  destruct (determine_intent_and_urgency _) as [[i u] ents]. simpl in Hd.
  rewrite Hd. exists cases, customers, cases2, customers2, c2. rewrite Ep. auto.
Qed.

End EarlyExit.

(** C1 as stated fails on a first contact: profile and case are created
    before the domain restriction is looked at, so a denied turn of a new
    customer leaves both behind. *)
Lemma denied_turn_leaves_store_counterexample :
  ~ denied_turn_leaves_store default_knowledge_bases (sample_env None) empty_db
      (sample_request "my wifi is broken" "finance" []).
Proof.
  intros H. specialize (H eq_refl).
  apply (f_equal (fun r : Db * outcome ChatResponse.t =>
                    Case.status <$> stored_case r.1 "s1")) in H.
  vm_compute in H. discriminate.
Qed.

(** ** What load-or-create does to the store *)

Section LoadOrCreate.

Variable env : Env.

Lemma load_or_create_profile_lookup customers request :
  let cid := CustomerProfile.customer_id (ChatRequest.customer_profile request) in
  (load_or_create_profile customers request).1 !! cid
  = Some (default (ChatRequest.customer_profile request) (customers !! cid)).
Proof.
  unfold load_or_create_profile. simpl.
  destruct (customers !! _) as [p|] eqn:E; simpl; [exact E | apply lookup_insert_eq].
Qed.

Lemma load_or_create_profile_others customers request id :
  id <> CustomerProfile.customer_id (ChatRequest.customer_profile request) ->
  (load_or_create_profile customers request).1 !! id = customers !! id.
Proof.
  intros Hne. unfold load_or_create_profile.
  destruct (customers !! CustomerProfile.customer_id _); simpl; [reflexivity|].
  now rewrite lookup_insert_ne.
Qed.

Lemma load_or_create_profile_present customers request p :
  customers !! CustomerProfile.customer_id (ChatRequest.customer_profile request) = Some p ->
  (load_or_create_profile customers request).1 = customers.
Proof. unfold load_or_create_profile. now intros ->. Qed.

(** the two ways [find_or_create_case] returns a case *)
Lemma find_or_create_case_returns cases customers request cases' customers' c :
  find_or_create_case env cases customers request = (cases', customers', Return c) ->
  let sid := ChatRequest.session_id request in
  let cid := CustomerProfile.customer_id (ChatRequest.customer_profile request) in
  (cases !! sid = Some c /\ cases' = cases /\ customers' = customers)
  \/ (cases !! sid = None /\ c = new_case env request /\
      cases' = <[sid := c]> cases /\
      customers' = alter (CustomerProfile.set_active_case_id sid) cid customers).
Proof.
  unfold find_or_create_case, find_case. simpl.
  destruct (cases !! ChatRequest.session_id request) as [c0|] eqn:E.
  - destruct (String.eqb _ _); [|discriminate].
    intros [= <- <- <-]. left. auto.
  - intros [= <- <- <-]. right. auto.
Qed.

End LoadOrCreate.

(** C1 (amended). A chat request that reaches the domain restriction and
    is denied gets the fixed refusal (status "closed", no case id, no FAQ
    suggestion, sentiment "unanswered").  The turn changes and removes no
    stored case and touches no profile of another customer; what it may
    leave behind is the work of the load-or-create steps that run before
    the restriction: the profile supplied with the request when the
    customer had none, and, when the session had no case, a fresh case
    stored under the session id (status "open", empty history, not
    escalated) with the profile's [active_case_id] pointing to it.  When
    profile and case were both stored already, the store is unchanged. *)
Theorem denied_turn_only_loads_or_creates kb env db request :
  guard_denies env db request = true ->
  let sid := ChatRequest.session_id request in
  let cid := CustomerProfile.customer_id (ChatRequest.customer_profile request) in
  exists db',
    chat_endpoint kb env db request
      = (db',
         Return {| ChatResponse.bot_response :=
                     ChatResponse.bot_response (refusal (ChatRequest.domain request));
                   ChatResponse.case_status := "closed";
                   ChatResponse.case_id := None;
                   ChatResponse.faq_suggestion := None;
                   ChatResponse.sentiment_detected := Some "unanswered" |}) /\
    (forall id c, stored_case db id = Some c -> stored_case db' id = Some c) /\
    (forall id c', stored_case db' id = Some c' ->
       stored_case db id = Some c' \/
       (id = sid /\ stored_case db sid = None /\ c' = new_case env request)) /\
    (stored_case db sid = None ->
       stored_case db' sid = Some (new_case env request) /\
       Case.status (new_case env request) = "open" /\
       Case.conversation_history (new_case env request) = [] /\
       Case.escalated (new_case env request) = false) /\
    (forall id, id <> cid -> stored_profile db' id = stored_profile db id) /\
    stored_profile db' cid
      = Some (let p := default (ChatRequest.customer_profile request) (stored_profile db cid) in
              match stored_case db sid with
              | Some _ => p
              | None => CustomerProfile.set_active_case_id sid p
              end) /\
    (is_Some (stored_profile db cid) -> is_Some (stored_case db sid) -> db' = db).
Proof.
  intros H sid cid. apply (guard_denies_refuses kb) in H.
  destruct H as (cases & customers & cases' & customers' & c & Hc & Hcu & Hf & Hend).
  exists (with_collections db cases' customers'). split; [exact Hend|].
  unfold stored_case, stored_profile. rewrite Hc, Hcu. simpl.
  pose proof (load_or_create_profile_lookup customers request) as Hp.
  pose proof (load_or_create_profile_others customers request) as Ho.
  simpl in Hp. fold cid in Hp, Ho.
  apply find_or_create_case_returns in Hf. fold sid cid in Hf.
  destruct Hf as [(Hs & -> & ->) | (Hs & -> & -> & ->)]; rewrite Hs.
  - repeat split; auto; try discriminate.
    intros [p Hpp] _. rewrite (load_or_create_profile_present _ _ _ Hpp).
    destruct db; simpl in *. unfold with_collections. simpl. congruence.
  - split; [|split; [|split; [|split; [|split]]]].
    + intros id c Hid. rewrite lookup_insert_ne; [exact Hid | congruence].
    + intros id c'. destruct (decide (sid = id)) as [<-|Hne].
      * rewrite lookup_insert_eq. intros [= <-]. right. auto.
      * rewrite lookup_insert_ne by exact Hne. auto.
    + intros _. rewrite lookup_insert_eq. repeat split; reflexivity.
    + intros id Hne. rewrite lookup_alter_ne by congruence. now apply Ho.
    + rewrite lookup_alter_eq, Hp. reflexivity.
    + intros _ [c0 Hc0]. discriminate.
Qed.

(** A returning customer in an existing session: nothing is written.  A
    first contact: the fresh case is stored under the session id. *)
Lemma denied_turn_only_loads_or_creates_witness :
  (exists db',
      chat_endpoint default_knowledge_bases (sample_env None) (sample_db "open" false)
        (sample_request "my wifi is broken" "finance" sample_history)
      = (db', Return (refusal "finance")) /\
      db' = sample_db "open" false) /\
  (exists db',
      chat_endpoint default_knowledge_bases (sample_env None) empty_db
        (sample_request "my wifi is broken" "finance" [])
      = (db', Return (refusal "finance")) /\
      stored_case db' "s1"
      = Some (new_case (sample_env None) (sample_request "my wifi is broken" "finance" []))).
Proof.
  split.
  - destruct (denied_turn_only_loads_or_creates default_knowledge_bases (sample_env None)
                (sample_db "open" false)
                (sample_request "my wifi is broken" "finance" sample_history) eq_refl)
      as (db' & Hend & _ & _ & _ & _ & _ & Hsame).
    exists db'. split; [exact Hend|].
    apply Hsame; vm_compute; eauto.
  - destruct (denied_turn_only_loads_or_creates default_knowledge_bases (sample_env None)
                empty_db (sample_request "my wifi is broken" "finance" []) eq_refl)
      as (db' & Hend & _ & _ & Hnew & _).
    exists db'. split; [exact Hend|].
    apply Hnew. vm_compute. reflexivity.
Defined.

(** ** Resolved and closed cases *)

(** C3 as stated fails: the chat handler never reads the status of the
    case, and a turn on a resolved case is stored like any other. *)
Lemma terminal_case_keeps_history_counterexample :
  ~ terminal_case_keeps_history default_knowledge_bases
      (sample_env (Some "We open at nine.")) (sample_db "resolved" false)
      (sample_request "what are your opening hours" "general" sample_history).
Proof.
  intros H.
  specialize (H _ eq_refl eq_refl).
  vm_compute in H. discriminate.
Qed.

(** The same through the endpoints alone: a first turn, the resolution,
    and a second turn that is stored on the resolved case. *)
Example resolved_case_takes_a_turn :
  let env := sample_env (Some "We open at nine.") in
  let db1 := (chat_endpoint default_knowledge_bases env empty_db
                (sample_request "when do you open" "general" [])).1 in
  let db2 := (resolve_case_endpoint env db1 "s1").1 in
  let db3 := (chat_endpoint default_knowledge_bases env db2
                (sample_request "and on sundays" "general"
                   (default [] (stored_history db2 "s1")))).1 in
  (Case.status <$> stored_case db2 "s1", length <$> stored_history db2 "s1",
   Case.status <$> stored_case db3 "s1", length <$> stored_history db3 "s1")
  = (Some "resolved", Some 2, Some "resolved", Some 4).
Proof. vm_compute. reflexivity. Qed.

(** C3 (amended). For a stored case whose status is "resolved" or
    "closed": the resolution operation leaves the store as it is; a chat
    request for it that ends before the LLM call (refused by the domain
    restriction, or raising) leaves the case as it is; a chat request that
    reaches the LLM call is processed as for any other case, and the stored
    history becomes the submitted history followed by the new user entry
    and bot entry. *)
Theorem terminal_case_still_takes_turns kb env db request c :
  stored_case db (ChatRequest.session_id request) = Some c ->
  terminal c = true ->
  (resolve_case_endpoint env db (ChatRequest.session_id request)).1 = db /\
  (llm_call kb env db request = None ->
   stored_case (chat_endpoint kb env db request).1 (ChatRequest.session_id request)
   = Some c) /\
  (forall r, llm_call kb env db request = Some r ->
     exists bot_text,
       stored_history (chat_endpoint kb env db request).1 (ChatRequest.session_id request)
       = Some (ChatRequest.conversation_history request
               ++ turn_pair env (ChatRequest.user_query request) bot_text)).
Proof.
  intros Hst Hterm. split; [|split].
  - unfold resolve_case_endpoint. unfold stored_case in Hst.
    destruct (cases_collection db) as [cases|]; [|discriminate]. simpl in Hst.
    destruct (customers_collection db); [|reflexivity].
    rewrite Hst. unfold terminal in Hterm. now rewrite Hterm.
  - unfold llm_call, chat_endpoint.
    destruct (chat_prepare kb env db request) as [db' r|t] eqn:E; [|discriminate].
    intros _. simpl. eapply chat_prepare_done_keeps; eassumption.
  - intros r Hr. apply llm_call_saved in Hr.
    destruct Hr as (t & _ & _ & _ & _ & _ & Hr).
    destruct (settled t r) as [[bot_text st] esc]. destruct Hr as [Hr _].
    exists bot_text. unfold stored_history. now rewrite Hr.
Qed.

(** A resolved case, a refused turn. *)
Lemma terminal_case_still_takes_turns_witness :
  (resolve_case_endpoint (sample_env None) (sample_db "resolved" false) "s1").1
  = sample_db "resolved" false /\
  stored_history
    (chat_endpoint default_knowledge_bases (sample_env None) (sample_db "resolved" false)
       (sample_request "my wifi is broken" "finance" sample_history)).1 "s1"
  = Some sample_history.
Proof.
  destruct (terminal_case_still_takes_turns default_knowledge_bases (sample_env None)
              (sample_db "resolved" false)
              (sample_request "my wifi is broken" "finance" sample_history)
              _ eq_refl eq_refl) as (Hres & Hdone & _).
  split; [exact Hres|].
  assert (Hcall : llm_call default_knowledge_bases (sample_env None)
                    (sample_db "resolved" false)
                    (sample_request "my wifi is broken" "finance" sample_history) = None)
    by (vm_compute; reflexivity).
  exact (f_equal (fmap Case.conversation_history) (Hdone Hcall)).
Defined.

(** ** The stored history *)




(** ** Escalated cases and their status *)

(** a turn the LLM answers keeps the invariant of the case it works on *)
Lemma answered_turn_keeps_invariant kb env db request text c' :
  llm_call kb env db request = Some (Some text) ->
  escalation_invariant (prior_case env db request) ->
  stored_case (chat_endpoint kb env db request).1 (ChatRequest.session_id request) = Some c' ->
  escalation_invariant c'.
Proof.
  intros H Hinv Hst. apply llm_call_saved in H.
  destruct H as (t & Hc & _ & _ & _ & _ & H). unfold settled in H. rewrite Hc in H.
  destruct (manage_case_escalation _ _ _ _ _ && negb _);
    destruct H as [H _]; rewrite H in Hst; injection Hst as <-;
    unfold escalation_invariant; simpl; auto.
Qed.

(** a turn whose LLM call raises sets the flag and keeps the status *)
Lemma failed_turn_keeps_status kb env db request :
  llm_call kb env db request = Some None ->
  (fun c => (Case.escalated c, Case.status c)) <$>
    stored_case (chat_endpoint kb env db request).1 (ChatRequest.session_id request)
  = Some (true, Case.status (prior_case env db request)).
Proof.
  intros H. apply llm_call_saved in H.
  destruct H as (t & Hc & _ & _ & _ & _ & H). simpl in H.
  destruct H as [-> _]. simpl. now rewrite Hc.
Qed.

(** resolving a case that is not resolved yet sets its status, so the
    invariant holds afterwards *)
Lemma resolution_sets_resolved env db id c :
  stored_case db id = Some c ->
  terminal c = false ->
  is_Some (customers_collection db) ->
  Case.status <$> stored_case (resolve_case_endpoint env db id).1 id = Some "resolved".
Proof.
  unfold resolve_case_endpoint, stored_case, terminal.
  destruct (cases_collection db) as [cases|]; [|discriminate]. simpl.
  intros Hst Ht [customers ->]. rewrite Hst, Ht. simpl.
  now rewrite lookup_alter_eq, Hst.
Qed.

(** ** Domains outside the four *)

Lemma domain_map_unknown (domain : string) :
  ~ In domain known_domains -> domain_map !! domain = None.
Proof.
  intros H. unfold domain_map. simpl.
  rewrite !lookup_insert_ne, lookup_empty; [reflexivity|..];
    intros <-; apply H; simpl; tauto.
Qed.

(** the permitted set of such a domain is empty: the restriction lets
    [general_inquiry] through and nothing else *)
Lemma unknown_domain_allows (intent domain : string) :
  ~ In domain known_domains ->
  domain_allows intent domain = String.eqb intent "general_inquiry".
Proof.
  intros H. unfold domain_allows. rewrite (domain_map_unknown _ H). simpl.
  assert (Hg : String.eqb domain "general" = false).
  { apply String.eqb_neq. intros ->. apply H. simpl. tauto. }
  rewrite Hg, andb_false_r. simpl. rewrite andb_true_r.
  now destruct (String.eqb intent "general_inquiry").
Qed.

(** every other intent, greetings included, is refused there *)
Lemma unknown_domain_refuses kb env db request :
  ~ In (ChatRequest.domain request) known_domains ->
  reaches_guard env db request = true ->
  intent_of request <> "general_inquiry" ->
  (chat_endpoint kb env db request).2 = Return (refusal (ChatRequest.domain request)).
Proof.
  intros Hd Hr Hi.
  assert (Hg : guard_denies env db request = true).
  { unfold guard_denies. rewrite Hr, (unknown_domain_allows _ _ Hd). simpl.
    apply negb_true_iff, String.eqb_neq, Hi. }
  apply (guard_denies_refuses kb) in Hg.
  destruct Hg as (? & ? & ? & ? & ? & _ & _ & _ & ->). reflexivity.
Qed.

(** a general inquiry there reaches the LLM call when the knowledge base
    has no entry for the domain *)
Lemma unknown_domain_general_inquiry kb env db request :
  ~ In (ChatRequest.domain request) known_domains ->
  reaches_guard env db request = true ->
  intent_of request = "general_inquiry" ->
  default [] (kb !! ChatRequest.domain request) = [] ->
  is_Some (llm_call kb env db request).
Proof.
  intros Hd Hr Hi Hkb. unfold llm_call, chat_prepare.
  unfold reaches_guard in Hr. unfold intent_of in Hi.
  destruct (cases_collection db) as [cases|]; [|discriminate].
  destruct (customers_collection db) as [customers|]; [|discriminate].
  destruct (load_or_create_profile customers request) as [customers1 profile].
  simpl in Hr.
  destruct (find_or_create_case env cases customers1 request)
    as [[cases2 customers2] [c2|e]]; [|discriminate].
  destruct (determine_intent_and_urgency _) as [[i u] ents]. simpl in Hi. subst i.
  rewrite (unknown_domain_allows _ _ Hd). simpl. rewrite Hkb. simpl. eauto.
Qed.

(** C10 (the code departs from it). In a domain outside the four for
    which the knowledge base holds a table, a general inquiry passes the
    domain restriction and the handler then raises [KeyError] while it
    appends the table to a persona line that does not exist: the LLM call
    is never made. *)
Theorem unknown_domain_with_table_raises (env : Env) :
  let request := sample_request "what are your opening hours" "pets" [] in
  ~ In "pets" known_domains /\
  intent_of request = "general_inquiry" /\
  domain_allows (intent_of request) "pets" = true /\
  (chat_endpoint pets_knowledge_bases env empty_db request).2 = Raise (KeyError "pets") /\
  llm_call pets_knowledge_bases env empty_db request = None.
Proof.
  simpl. split; [|vm_compute; auto].
  intros H. simpl in H. repeat destruct H as [H|H]; try discriminate. exact H.
Qed.

(** * Further properties of the pipeline *)

(** ** Characters and case *)

Ltac by_chars c :=
  destruct c as [[] [] [] [] [] [] [] []]; vm_compute;
  try reflexivity; try discriminate; intuition congruence.

Lemma lower_upper_char (c : ascii) : Py.lower_char (Py.upper_char c) = Py.lower_char c.
Proof. by_chars c. Qed.

Lemma lower_char_not_upper (c : ascii) : Py.is_upper (Py.lower_char c) = false.
Proof. by_chars c. Qed.

Lemma alnum_not_space (c : ascii) : Re.alnum c = true -> Py.is_space c = false.
Proof. by_chars c. Qed.

Lemma alnum_upper_char (c : ascii) :
  Re.alnum c = true -> Re.upper_alnum (Py.upper_char c) = true.
Proof. by_chars c. Qed.

Lemma alnum_cases (c : ascii) :
  Re.alnum c = true -> Py.is_upper c = false -> lower_alnum c = true.
Proof. by_chars c. Qed.

Lemma upper_alnum_not_lower (c : ascii) :
  Re.upper_alnum c = true -> Py.is_lower c = false.
Proof. by_chars c. Qed.

Lemma lower_upper (s : string) : Py.lower (Py.upper s) = Py.lower s.
Proof.
  induction s as [|c s IH]; [reflexivity|].
  unfold Py.lower, Py.upper in *. simpl. now rewrite lower_upper_char, IH.
Qed.

Lemma all_in_app (p : ascii -> bool) (a b : string) :
  Re.all_in p (a +:+ b) <-> Re.all_in p a /\ Re.all_in p b.
Proof. induction a as [|c a IH]; simpl; [tauto | rewrite IH; tauto]. Qed.

Lemma all_in_impl (p q : ascii -> bool) (s : string) :
  (forall c, p c = true -> q c = true) -> Re.all_in p s -> Re.all_in q s.
Proof. intros H. induction s as [|c s IH]; simpl; [auto | intros [Hc Hs]; auto]. Qed.

Lemma all_in_lower (s : string) : Re.all_in (fun c => negb (Py.is_upper c)) (Py.lower s).
Proof.
  induction s as [|c s IH]; simpl; [exact I|].
  split; [now rewrite lower_char_not_upper | exact IH].
Qed.

Lemma lstrip_suffix (s : string) : exists a, s = a +:+ Py.lstrip s.
Proof.
  induction s as [|c s [a IH]]; simpl; [now exists EmptyString|].
  destruct (Py.is_space c); [|now exists EmptyString].
  exists (String c a). simpl. now rewrite <- IH.
Qed.

Lemma rstrip_prefix (s : string) : exists b, s = Py.rstrip s +:+ b.
Proof.
  induction s as [|c s [b IH]]; simpl; [now exists EmptyString|].
  destruct (Py.rstrip s) as [|x r] eqn:E.
  - destruct (Py.is_space c).
    + exists (String c s). reflexivity.
    + exists b. simpl. simpl in IH. now rewrite <- IH.
  - exists b. simpl. now rewrite IH at 1.
Qed.

(** what [strip] keeps is a block of the text *)
Lemma strip_occurs (s : string) : occurs (Py.strip s) s.
Proof.
  destruct (lstrip_suffix s) as [a Ha]. destruct (rstrip_prefix (Py.lstrip s)) as [b Hb].
  exists a, b. unfold Py.strip. now rewrite <- Hb.
Qed.

Lemma rstrip_no_space (s : string) :
  Re.all_in (fun c => negb (Py.is_space c)) s -> Py.rstrip s = s.
Proof.
  induction s as [|c s IH]; simpl; [reflexivity|].
  intros [Hc Hs]. rewrite (IH Hs). apply negb_true_iff in Hc. rewrite Hc.
  now destruct s.
Qed.

Lemma strip_no_space (s : string) :
  Re.all_in (fun c => negb (Py.is_space c)) s -> Py.strip s = s.
Proof.
  intros H. unfold Py.strip.
  assert (Hl : Py.lstrip s = s).
  { destruct s as [|c s]; [reflexivity|]. simpl. destruct H as [Hc _].
    apply negb_true_iff in Hc. now rewrite Hc. }
  rewrite Hl. now apply rstrip_no_space.
Qed.

Lemma all_in_upper (p q : ascii -> bool) (s : string) :
  (forall c, p c = true -> q (Py.upper_char c) = true) ->
  Re.all_in p s -> Re.all_in q (Py.upper s).
Proof.
  intros H. induction s as [|c s IH]; simpl; [auto|]. intros [Hc Hs]. split; auto.
Qed.

(** ** What a successful match has matched and captured *)

Section CaptureFacts.
Import Re.

Lemma orelse_Some {A} (x y : option A) (a : A) :
  orelse x y = Some a -> x = Some a \/ y = Some a.
Proof. destruct x; simpl; auto. Qed.

Lemma length_append (a b : string) :
  String.length (a +:+ b) = String.length a + String.length b.
Proof. induction a as [|c a IH]; simpl; [reflexivity | now rewrite IH]. Qed.

Lemma take_append (w rest : string) :
  Py.take (String.length (w +:+ rest) - String.length rest) (w +:+ rest) = w.
Proof.
  rewrite length_append.
  replace (String.length w + String.length rest - String.length rest)
    with (String.length w) by lia.
  induction w as [|c w IH]; simpl; [now destruct rest | now rewrite IH].
Qed.

Lemma star_sound {A} (p : ascii -> bool) (s : string) (k : string -> option A) (a : A) :
  star p s k = Some a ->
  exists w rest, s = w +:+ rest /\ all_in p w /\ k rest = Some a.
Proof.
  induction s as [|c s IH]; simpl.
  - intros H. exists EmptyString, EmptyString. simpl. auto.
  - destruct (p c) eqn:Hc.
    + intros H. apply orelse_Some in H. destruct H as [H|H].
      * destruct (IH H) as (w & rest & -> & Hw & Hk).
        exists (String c w), rest. simpl. auto.
      * exists EmptyString, (String c s). simpl. auto.
    + intros H. exists EmptyString, (String c s). simpl. auto.
Qed.

Lemma run_matches (r : regex) :
  forall A (s : string) (g : option string) (k : string -> option string -> option A) (a : A),
    run r s g k = Some a ->
    exists w rest g', s = w +:+ rest /\ matches r w g g' /\ k rest g' = Some a.
Proof.
  induction r as [l | p | p | p | p | r1 IH1 r2 IH2 | r1 IH1 r2 IH2 | r IH];
    intros A s g k a; simpl.
  - destruct (Py.drop_prefix l s) as [rest|] eqn:E; [|discriminate].
    apply drop_prefix_spec in E. intros H. exists l, rest, g. auto.
  - destruct s as [|c s]; [discriminate|]. destruct (p c) eqn:Hc; [|discriminate].
    intros H. exists (String c EmptyString), s, g. simpl. eauto 6.
  - intros H. apply star_sound in H. destruct H as (w & rest & -> & Hw & H).
    exists w, rest, g. auto.
  - destruct s as [|c s]; [discriminate|]. destruct (p c) eqn:Hc; [|discriminate].
    intros H. apply star_sound in H. destruct H as (w & rest & -> & Hw & H).
    exists (String c w), rest, g. simpl. repeat split; auto; discriminate.
  - intros H.
    assert (Hnil : k s g = Some a ->
                   exists w rest g', s = w +:+ rest /\
                     ((w = EmptyString \/ exists c, w = String c EmptyString /\ p c = true)
                      /\ g' = g) /\ k rest g' = Some a).
    { intros Hk. exists EmptyString, s, g. simpl. auto. }
    destruct s as [|c s]; [auto|]. destruct (p c) eqn:Hc; [|auto].
    apply orelse_Some in H. destruct H as [H|H]; [|auto].
    exists (String c EmptyString), s, g. simpl. eauto 8.
  - intros H. apply orelse_Some in H.
    destruct H as [H|H]; [apply IH1 in H | apply IH2 in H];
      destruct H as (w & rest & g' & E & Hm & Hk); exists w, rest, g'; auto.
  - intros H. apply IH1 in H. destruct H as (w1 & rest1 & gm & -> & Hm1 & H).
    apply IH2 in H. destruct H as (w2 & rest & g' & -> & Hm2 & Hk).
    exists (w1 +:+ w2), rest, g'. rewrite append_assoc. eauto 10.
  - intros H. apply IH in H. destruct H as (w & rest & gi & -> & Hm & Hk).
    rewrite take_append in Hk. exists w, rest, (Some w). eauto 6.
Qed.

(** [re.search] returns the capture of a match of some block of the text *)
Lemma re_search_matches (r : regex) (s : string) (m : match_obj) :
  re_search r s = Some m ->
  exists w, occurs w s /\ matches r w None m.
Proof.
  induction s as [|c s IH]; simpl; intros H; apply orelse_Some in H.
  - destruct H as [H|H]; [|discriminate]. unfold re_match in H.
    apply run_matches in H. destruct H as (w & rest & g' & E & Hm & [= <-]).
    exists w. split; [exists EmptyString, rest; exact E | exact Hm].
  - destruct H as [H|H].
    + unfold re_match in H.
      apply run_matches in H. destruct H as (w & rest & g' & E & Hm & [= <-]).
      exists w. split; [exists EmptyString, rest; exact E | exact Hm].
    + destruct (IH H) as (w & (a & b & E) & Hm). exists w.
      split; [exists (String c a), b; simpl; now rewrite E | exact Hm].
Qed.

(** a pattern without a group leaves the capture alone *)
Lemma matches_group_free (r : regex) (w : string) (g g' : option string) :
  group_free r = true -> matches r w g g' -> g' = g.
Proof.
  revert w g g'. induction r as [l | p | p | p | p | r1 IH1 r2 IH2 | r1 IH1 r2 IH2 | r IH];
    intros w g g' Hf; simpl in *; try (now intros [_ ->]); try discriminate.
  - apply andb_true_iff in Hf. destruct Hf as [H1 H2]. intros [H|H]; eauto.
  - apply andb_true_iff in Hf. destruct Hf as [H1 H2].
    intros (w1 & w2 & gm & _ & Hm1 & Hm2).
    apply IH1 in Hm1; [|exact H1]. apply IH2 in Hm2; [|exact H2]. congruence.
Qed.

End CaptureFacts.

(** ** The classifiers *)

Lemma occurs_trans (a b c : string) : occurs a b -> occurs b c -> occurs a c.
Proof.
  intros (x & y & ->) (u & v & ->). exists (u +:+ x), (y +:+ v).
  now rewrite !append_assoc.
Qed.

Lemma occurs_all_in (p : ascii -> bool) (w s : string) :
  occurs w s -> Re.all_in p s -> Re.all_in p w.
Proof.
  intros (a & b & ->) H. apply all_in_app in H. destruct H as [_ H].
  apply all_in_app in H. tauto.
Qed.

Lemma all_in_both (p q r : ascii -> bool) (s : string) :
  (forall c, p c = true -> q c = true -> r c = true) ->
  Re.all_in p s -> Re.all_in q s -> Re.all_in r s.
Proof.
  intros H. induction s as [|c s IH]; simpl; [auto|].
  intros [Hp Hps] [Hq Hqs]. auto.
Qed.

(** the tail of a sequence matches a block of what the sequence matches *)
Lemma matches_cat_tail (r1 r2 : Re.regex) (w : string) (g m : option string) :
  matches (Re.Cat r1 r2) w g m ->
  exists w2 gm, occurs w2 w /\ matches r2 w2 gm m.
Proof.
  intros (w1 & w2 & gm & -> & _ & H). exists w2, gm.
  split; [|exact H]. exists w1, EmptyString. now rewrite append_nil_r.
Qed.

Lemma matches_group_plus (p : ascii -> bool) (w : string) (g m : option string) :
  matches (Re.Group (Re.Plus p)) w g m ->
  m = Some w /\ w <> EmptyString /\ Re.all_in p w.
Proof. intros [[gi [[Hne Hall] _]] ->]. auto. Qed.

Lemma shopid_pattern_captures (pattern : Re.regex) (w : string) (m : Re.match_obj) :
  In pattern shopid_patterns ->
  matches pattern w None m ->
  exists id, m = Some id /\ occurs id w /\ id <> EmptyString /\ Re.all_in Re.alnum id.
Proof.
  intros [<-|[<-|[<-|[]]]] H.
  - unfold shopid_pattern_1 in H. cbn [Re.cat] in H.
    apply matches_cat_tail in H. destruct H as (w2 & g2 & O2 & H).
    apply matches_cat_tail in H. destruct H as (w3 & g3 & O3 & H).
    apply matches_cat_tail in H. destruct H as (w4 & g4 & O4 & H).
    apply matches_group_plus in H. destruct H as (-> & Hne & Hall).
    exists w4. repeat split; auto. eauto using occurs_trans.
  - unfold shopid_pattern_2 in H. cbn [Re.cat] in H.
    apply matches_cat_tail in H. destruct H as (w2 & g2 & O2 & H).
    apply matches_cat_tail in H. destruct H as (w3 & g3 & O3 & H).
    apply matches_cat_tail in H. destruct H as (w4 & g4 & O4 & H).
    apply matches_group_plus in H. destruct H as (-> & Hne & Hall).
    exists w4. repeat split; auto. eauto using occurs_trans.
  - unfold shopid_pattern_3 in H. cbn [Re.cat] in H.
    destruct H as (w1 & w2 & gm & -> & H1 & H2).
    apply matches_group_plus in H1. destruct H1 as (-> & Hne & Hall).
    apply matches_group_free in H2; [|reflexivity]. subst m.
    exists w1. repeat split; auto. exists EmptyString, w2. reflexivity.
Qed.

Lemma find_shopid_found (patterns : list Re.regex) (s id : string) :
  find_shopid patterns s = Some id ->
  exists pattern m, In pattern patterns /\ Re.re_search pattern s = Some m /\
                    id = default EmptyString m.
Proof.
  induction patterns as [|pattern rest IH]; simpl; [discriminate|].
  destruct (Re.re_search pattern s) as [m|] eqn:E.
  - intros [= <-]. exists pattern, m. auto.
  - intros H. destruct (IH H) as (p' & m & Hin & Hs & Hid). exists p', m. auto.
Qed.

(** a shop id of the classifier is a non-empty run of letters and digits
    found in the text by one of the three patterns *)
Lemma classifier_shopid_alnum (query id : string) :
  (determine_intent_and_urgency query).2 !! "shopid" = Some id ->
  (determine_intent_and_urgency query).1.1 = "order_status" /\
  (determine_intent_and_urgency query).2 = {[ "shopid" := id ]} /\
  id <> EmptyString /\
  Re.all_in Re.alnum id /\
  occurs id (Py.strip (Py.lower query)).
Proof.
  unfold determine_intent_and_urgency.
  destruct (is_greeting _); [cbn [fst snd]; rewrite lookup_empty; discriminate|].
  destruct (find_shopid shopid_patterns _) as [x|] eqn:E; cbn [fst snd];
    [|rewrite lookup_empty; discriminate].
  rewrite lookup_insert_eq. intros [= ->]. split; [reflexivity|].
  split; [apply insert_empty|].
  apply find_shopid_found in E. destruct E as (pattern & m & Hin & Hs & ->).
  apply re_search_matches in Hs. destruct Hs as (w & Hw & Hm).
  destruct (shopid_pattern_captures _ _ _ Hin Hm) as (id & -> & Hid & Hne & Hall).
  simpl. eauto using occurs_trans.
Qed.

(** X3. A shop id the classifier extracts is a non-empty run of
    lowercase letters and digits taken from the lowercased, trimmed
    utterance; it comes with intent "order_status" and is the only entity. *)
Theorem extracted_shopid_shape (query id : string) :
  (determine_intent_and_urgency query).2 !! "shopid" = Some id ->
  (determine_intent_and_urgency query).1.1 = "order_status" /\
  (determine_intent_and_urgency query).2 = {[ "shopid" := id ]} /\
  id <> EmptyString /\
  Re.all_in lower_alnum id /\
  occurs id (Py.strip (Py.lower query)).
Proof.
  intros H. destruct (classifier_shopid_alnum query id H) as (Hi & He & Hne & Hall & Hocc).
  repeat (split; [assumption|]). split; [|exact Hocc].
  apply (all_in_both Re.alnum (fun c => negb (Py.is_upper c))); [| exact Hall |].
  - intros c Ha Hu. apply alnum_cases; [exact Ha | now apply negb_true_iff].
  - eapply occurs_all_in; [|apply (all_in_lower query)].
    eapply occurs_trans; [exact Hocc | apply strip_occurs].
Qed.

Lemma extracted_shopid_shape_witness :
  (determine_intent_and_urgency "My order number is #AB12 please").1.1 = "order_status" /\
  (determine_intent_and_urgency "My order number is #AB12 please").2 = {[ "shopid" := "ab12" ]} /\
  "ab12" <> EmptyString /\
  Re.all_in lower_alnum "ab12" /\
  occurs "ab12" (Py.strip (Py.lower "My order number is #AB12 please")).
Proof.
  apply (extracted_shopid_shape "My order number is #AB12 please" "ab12").
  vm_compute. reflexivity.
Defined.

(** X4. A shop id the classifier extracts always has the shape the order
    lookup asks for: with the order store present the lookup goes to the
    store with the uppercased id and answers with the order summary or the
    not-found message, never with the malformed-id or the no-id message. *)
Theorem extracted_shopid_is_looked_up env orders (query id : string) :
  (determine_intent_and_urgency query).2 !! "shopid" = Some id ->
  get_order_details_by_id env (Some orders) (Some id)
  = match find_order orders (Py.upper id) with
    | Some order => order_summary env order
    | None => lookup_not_found (Py.upper id)
    end.
Proof.
  intros H. apply classifier_shopid_alnum in H.
  destruct H as (_ & _ & Hne & Halnum & _).
  assert (Hstrip : Py.strip id = id).
  { apply strip_no_space. eapply all_in_impl; [|exact Halnum].
    intros c Hc. now rewrite (alnum_not_space c Hc). }
  unfold get_order_details_by_id. rewrite Hstrip.
  destruct id as [|c id]; [contradiction|]. cbn [Py.truthy negb].
  assert (Hm : is_Some (Re.re_fullmatch shopid_shape (Py.upper (String c id)))).
  { apply re_fullmatch_spec. split; [discriminate|].
    eapply all_in_upper; [|exact Halnum]. exact alnum_upper_char. }
  destruct Hm as [m ->]. reflexivity.
Qed.

Lemma extracted_shopid_is_looked_up_witness :
  get_order_details_by_id (sample_env None)
    (Some [ {| Order.shopid := "AB12"; Order.product_name := Some "Kettle";
               Order.payment_status := None; Order.delivery_date := None |} ])
    (Some "ab12")
  = "Order found:" +:+ nl +:+ "Product: Kettle" +:+ nl +:+
    "Payment Status: Unknown" +:+ nl +:+ "Estimated Delivery: Not Available".
Proof.
  rewrite (extracted_shopid_is_looked_up (sample_env None) _
             "My order number is #AB12 please" "ab12");
    vm_compute; reflexivity.
Defined.

Lemma keyword_intent_not_greeting (s : string) : keyword_intent s <> "greeting".
Proof.
  unfold keyword_intent.
  repeat match goal with |- context [if ?b then _ else _] => destruct b end;
    discriminate.
Qed.

Lemma one_plus_head (x : ascii) (w : string) :
  w <> EmptyString -> Re.all_in (Re.one x) w -> exists w', w = String x w'.
Proof.
  destruct w as [|c w]; [contradiction|]. intros _ [Hc _].
  apply Ascii.eqb_eq in Hc. subst c. eauto.
Qed.

Lemma is_greeting_prefix (s : string) :
  is_greeting s = true <->
  exists p, In p greeting_prefixes /\ Py.startswith p s = true.
Proof.
  rewrite is_greeting_spec. split.
  - intros (pattern & w & rest & Hin & -> & Hw).
    destruct Hin as [<-|[<-|[<-|[<-|[<-|[<-|[]]]]]]]; simpl in Hw.
    + destruct Hw as (w1 & w2 & -> & -> & Hne & Hall).
      destruct (one_plus_head _ _ Hne Hall) as [w' ->].
      exists "hi". split; [simpl; tauto|]. apply startswith_spec.
      exists (w' +:+ rest). reflexivity.
    + destruct Hw as (w1 & w2 & -> & -> & Hne & Hall).
      destruct (one_plus_head _ _ Hne Hall) as [w' ->].
      exists "hello". split; [simpl; tauto|]. apply startswith_spec.
      exists (w' +:+ rest). reflexivity.
    + destruct Hw as (w1 & w2 & -> & -> & Hne & Hall).
      destruct (one_plus_head _ _ Hne Hall) as [w' ->].
      exists "hey". split; [simpl; tauto|]. apply startswith_spec.
      exists (w' +:+ rest). reflexivity.
    + subst w. exists "good morning". split; [simpl; tauto|].
      apply startswith_spec. eauto.
    + subst w. exists "good afternoon". split; [simpl; tauto|].
      apply startswith_spec. eauto.
    + subst w. exists "good evening". split; [simpl; tauto|].
      apply startswith_spec. eauto.
  - intros (p & Hin & Hp). apply startswith_spec in Hp. destruct Hp as [r ->].
    destruct Hin as [<-|[<-|[<-|[<-|[<-|[<-|[]]]]]]].
    + exists (Re.Cat (Re.Lit "h") (Re.Plus (Re.one "i"%char))), "hi", r.
      split; [simpl; tauto|]. split; [reflexivity|].
      exists "h", "i". repeat split; try reflexivity. discriminate.
    + exists (Re.Cat (Re.Lit "hell") (Re.Plus (Re.one "o"%char))), "hello", r.
      split; [simpl; tauto|]. split; [reflexivity|].
      exists "hell", "o". repeat split; try reflexivity. discriminate.
    + exists (Re.Cat (Re.Lit "he") (Re.Plus (Re.one "y"%char))), "hey", r.
      split; [simpl; tauto|]. split; [reflexivity|].
      exists "he", "y". repeat split; try reflexivity. discriminate.
    + exists (Re.Lit "good morning"), "good morning", r. simpl. tauto.
    + exists (Re.Lit "good afternoon"), "good afternoon", r. simpl. tauto.
    + exists (Re.Lit "good evening"), "good evening", r. simpl. tauto.
Qed.

(** X6. An utterance is classified as a greeting exactly when its
    lowercased, trimmed text starts with "hi", "hello", "hey",
    "good morning", "good afternoon" or "good evening": the patterns are
    anchored at the start only, so any text with such a beginning
    ("history of my order", "high bill") is a greeting. *)
Theorem greeting_iff_prefix (query : string) :
  (determine_intent_and_urgency query).1.1 = "greeting" <->
  exists p, In p greeting_prefixes /\
            Py.startswith p (Py.strip (Py.lower query)) = true.
Proof.
  rewrite <- is_greeting_prefix. unfold determine_intent_and_urgency.
  destruct (is_greeting _); [split; reflexivity|].
  destruct (find_shopid shopid_patterns _); cbn [fst snd].
  - split; discriminate.
  - split; [|discriminate]. intros H. now apply keyword_intent_not_greeting in H.
Qed.

(** X1. On an utterance of ASCII characters the three text classifiers
    do not depend on the letter case: the utterance in capitals gets the
    same intent, urgency and entities, the same sentiment and the same
    knowledge-base answer.  (Outside ASCII the case mappings of Python do
    not cancel: the capitals of a sharp s are "SS".) *)
Theorem classifiers_ignore_case (kb : gmap string kb_table) (query domain : string) :
  Py.is_ascii query = true ->
  determine_intent_and_urgency (Py.upper query) = determine_intent_and_urgency query /\
  analyze_sentiment (Py.upper query) = analyze_sentiment query /\
  get_knowledge_base_info kb (Py.upper query) domain
  = get_knowledge_base_info kb query domain.
Proof.
  intros _.
  unfold determine_intent_and_urgency, analyze_sentiment, get_knowledge_base_info.
  now rewrite lower_upper.
Qed.

Lemma classifiers_ignore_case_witness :
  determine_intent_and_urgency (Py.upper "my Wifi is not working")
  = determine_intent_and_urgency "my Wifi is not working" /\
  analyze_sentiment (Py.upper "my Wifi is not working")
  = analyze_sentiment "my Wifi is not working" /\
  get_knowledge_base_info default_knowledge_bases (Py.upper "my Wifi is not working")
    "technical"
  = get_knowledge_base_info default_knowledge_bases "my Wifi is not working" "technical".
Proof.
  exact (classifiers_ignore_case default_knowledge_bases "my Wifi is not working"
           "technical" eq_refl).
Defined.

(** X5. The sentiment is "frustrated" exactly when a frustration word
    occurs in the lowercased text, "satisfied" exactly when none does and
    a satisfaction word occurs, and "neutral" exactly when neither kind
    occurs: frustration wins when both occur. *)
Theorem sentiment_characterised (text : string) :
  let has words := exists w, In w words /\ occurs w (Py.lower text) in
  (analyze_sentiment text = "frustrated" <-> has frustration_words) /\
  (analyze_sentiment text = "satisfied" <->
     ~ has frustration_words /\ has satisfaction_words) /\
  (analyze_sentiment text = "neutral" <->
     ~ has frustration_words /\ ~ has satisfaction_words).
Proof.
  cbv zeta. rewrite <- !any_in_spec. unfold analyze_sentiment.
  fold frustration_words satisfaction_words.
  destruct (Py.any_in frustration_words _), (Py.any_in satisfaction_words _);
    repeat split; intros; try discriminate; try tauto;
    intuition (try discriminate; try congruence).
Qed.

(** ** The domain restriction *)

Lemma domain_map_known :
  domain_map !! "general" = Some ["general_inquiry"; "greeting"] /\
  domain_map !! "technical" = Some ["technical_support"; "installation_support"; "greeting"] /\
  domain_map !! "finance" = Some ["finance_query"; "billing_inquiry"; "greeting"] /\
  domain_map !! "travel" = Some ["travel_hospitality_query"; "greeting"; "order_status"].
Proof. repeat split; vm_compute; reflexivity. Qed.

Ltac string_cases i :=
  repeat match goal with
    | |- context [String.eqb i ?s] => destruct (String.eqb_spec i s); [subst i|]
    end.

(** X7. The decision table of the domain restriction: a general inquiry
    passes in every domain, known or not; a greeting passes in the four
    known domains; an order-status request passes in "general" and
    "travel"; each specialised intent passes in its own domain only; every
    other pair is refused. *)
Theorem domain_allows_table (intent domain : string) :
  domain_allows intent domain = true <->
  intent = "general_inquiry" \/
  (intent = "greeting" /\ In domain known_domains) \/
  (intent = "order_status" /\ (domain = "general" \/ domain = "travel")) \/
  (domain = "technical" /\ (intent = "technical_support" \/ intent = "installation_support")) \/
  (domain = "finance" /\ (intent = "finance_query" \/ intent = "billing_inquiry")) \/
  (domain = "travel" /\ intent = "travel_hospitality_query").
Proof.
  destruct domain_map_known as (Hg & Ht & Hf & Hv).
  destruct (decide (In domain known_domains)) as [Hin|Hout].
  - destruct Hin as [<-|[<-|[<-|[<-|[]]]]]; unfold domain_allows;
      rewrite ?Hg, ?Ht, ?Hf, ?Hv; simpl; string_cases intent; simpl;
      (split; [intros H; try discriminate H; tauto |]);
      intros H; try reflexivity;
      repeat match goal with
        | H : _ \/ _ |- _ => destruct H
        | H : _ /\ _ |- _ => destruct H
        end; try discriminate; try congruence; try contradiction.
  - rewrite (unknown_domain_allows _ _ Hout), String.eqb_eq. split; [tauto|].
    intros [H|[[_ H]|[[_ [H|H]]|[[H _]|[[H _]|[H _]]]]]]; try exact H;
      exfalso; apply Hout; try exact H; subst domain; simpl; tauto.
Qed.

(** [re.search] succeeds exactly when some block of the text is in the
    language of the pattern *)
Lemma re_search_spec (r : Re.regex) (s : string) :
  is_Some (Re.re_search r s) <-> exists a w b, s = a +:+ w +:+ b /\ Re.lang r w.
Proof.
  induction s as [|c s IH]; simpl; rewrite is_Some_orelse, re_match_spec.
  - split.
    + intros [(w & rest & E & Hw) | H]; [|destruct H; discriminate].
      exists EmptyString, w, rest. auto.
    + intros ([|x a] & w & b & E & Hw); [|discriminate]. left.
      exists w, b. auto.
  - rewrite IH. split.
    + intros [(w & rest & E & Hw) | (a & w & b & -> & Hw)].
      * exists EmptyString, w, rest. auto.
      * exists (String c a), w, b. auto.
    + intros ([|x a] & w & b & E & Hw); simpl in E.
      * left. exists w, b. auto.
      * injection E as <- ->. right. eauto.
Qed.

Lemma find_shopid_some (patterns : list Re.regex) (s : string) :
  (exists pattern, In pattern patterns /\ is_Some (Re.re_search pattern s)) ->
  is_Some (find_shopid patterns s).
Proof.
  induction patterns as [|p rest IH]; simpl; intros (pattern & Hin & H); [contradiction|].
  destruct (Re.re_search p s) eqn:E; [eauto|].
  apply IH. destruct Hin as [<-|Hin]; [rewrite E in H; destruct H; discriminate|eauto].
Qed.

Lemma keyword_intent_refund (s : string) :
  keyword_intent s = "refund_request" -> occurs "refund" s.
Proof.
  unfold keyword_intent. rewrite <- contains_spec.
  repeat match goal with
    | |- context [if ?b then _ else _] => destruct b eqn:?
    end; try discriminate; auto.
Qed.

(** X8. The intent "refund_request" is never produced: in a text that
    mentions "refund" the second shop-id pattern finds "ref" followed by
    "und", so such an utterance is a greeting or an order-status request
    with a shop id, and the refund branch of the keyword cascade is never
    the answer. *)
Theorem refund_request_never_classified (query : string) :
  (determine_intent_and_urgency query).1.1 <> "refund_request" /\
  (occurs "refund" (Py.strip (Py.lower query)) ->
   (determine_intent_and_urgency query).1.1 = "greeting" \/
   ((determine_intent_and_urgency query).1.1 = "order_status" /\
    is_Some ((determine_intent_and_urgency query).2 !! "shopid"))).
Proof.
  assert (Hfound : occurs "refund" (Py.strip (Py.lower query)) ->
                   is_Some (find_shopid shopid_patterns (Py.strip (Py.lower query)))).
  { intros (a & b & E). apply find_shopid_some. exists shopid_pattern_2.
    split; [simpl; tauto|]. apply re_search_spec. exists a, "refund", b.
    split; [exact E|]. unfold shopid_pattern_2. cbn [Re.cat Re.alt Re.lang].
    exists "ref", "und". split; [reflexivity|]. split; [tauto|].
    exists EmptyString, "und". split; [reflexivity|]. split; [exact I|].
    exists EmptyString, "und". split; [reflexivity|]. split; [tauto|].
    split; [discriminate | vm_compute; tauto]. }
  unfold determine_intent_and_urgency.
  destruct (is_greeting _); cbn [fst snd]; [split; [discriminate | auto]|].
  destruct (find_shopid shopid_patterns _) as [id|] eqn:E; cbn [fst snd].
  - split; [discriminate|]. intros _. right. split; [reflexivity|].
    rewrite lookup_insert_eq. eauto.
  - split.
    + intros H. apply keyword_intent_refund, Hfound in H. destruct H; discriminate.
    + intros H. apply Hfound in H. destruct H; discriminate.
Qed.

Lemma refund_request_never_classified_witness :
  (determine_intent_and_urgency "Refund please").1.1 = "greeting" \/
  ((determine_intent_and_urgency "Refund please").1.1 = "order_status" /\
   is_Some ((determine_intent_and_urgency "Refund please").2 !! "shopid")).
Proof.
  apply (proj2 (refund_request_never_classified "Refund please")).
  exists EmptyString, " please". vm_compute. reflexivity.
Defined.

Section DeniedFacts.

Variable kb : gmap string kb_table.
Variable env : Env.

Lemma guard_denies_no_call db request :
  guard_denies env db request = true -> llm_call kb env db request = None.
Proof.
  unfold guard_denies, reaches_guard, llm_call, chat_prepare, intent_of.
  intros H. apply andb_true_iff in H. destruct H as [Hr Hd].
  destruct (cases_collection db) as [cases|]; [|discriminate].
  destruct (customers_collection db) as [customers|]; [|discriminate].
  destruct (load_or_create_profile customers request) as [customers1 profile].
  simpl in Hr.
  destruct (find_or_create_case env cases customers1 request)
    as [[cases2 customers2] [c2|e]]; [|discriminate].
  destruct (determine_intent_and_urgency _) as [[i u] ents]. simpl in Hd.
  now rewrite Hd.
Qed.

End DeniedFacts.

(** X9. A request classified "plan_management" is refused in every
    domain, known or not: once load-or-create has passed, the handler
    answers with the refusal and the LLM is not called. *)
Theorem plan_management_refused_everywhere kb env db request :
  reaches_guard env db request = true ->
  intent_of request = "plan_management" ->
  (chat_endpoint kb env db request).2 = Return (refusal (ChatRequest.domain request)) /\
  llm_call kb env db request = None.
Proof.
  intros Hr Hi.
  assert (Hd : domain_allows (intent_of request) (ChatRequest.domain request) = false).
  { rewrite Hi. destruct (decide (In (ChatRequest.domain request) known_domains))
      as [Hin|Hout].
    - destruct Hin as [<-|[<-|[<-|[<-|[]]]]]; vm_compute; reflexivity.
    - now rewrite (unknown_domain_allows _ _ Hout). }
  assert (Hg : guard_denies env db request = true)
    by (unfold guard_denies; now rewrite Hr, Hd).
  split; [|now apply guard_denies_no_call].
  apply (guard_denies_refuses kb) in Hg.
  destruct Hg as (? & ? & ? & ? & ? & _ & _ & _ & ->). reflexivity.
Qed.

Lemma plan_management_refused_everywhere_witness :
  (chat_endpoint default_knowledge_bases (sample_env (Some "Sure."))
     (sample_db "open" false)
     (sample_request "please upgrade me" "general" sample_history)).2
  = Return (refusal "general").
Proof.
  apply (plan_management_refused_everywhere default_knowledge_bases
           (sample_env (Some "Sure.")) (sample_db "open" false)
           (sample_request "please upgrade me" "general" sample_history));
    vm_compute; reflexivity.
Defined.

(** ** What a chat request does to the store *)

Lemma urgency_always_low (query : string) :
  (determine_intent_and_urgency query).1.2 = "low".
Proof.
  unfold determine_intent_and_urgency.
  destruct (is_greeting _); [reflexivity|]. now destruct (find_shopid _ _).
Qed.

Section ChatEffect.

Variable kb : gmap string kb_table.
Variable env : Env.

(** Every way through the handler: the other cases are as they were, and
    the case of the session is as it was, or newly created, or the case
    the request works on with the four fields of the turn rewritten. *)
Lemma chat_endpoint_effect db request :
  let sid := ChatRequest.session_id request in
  let db' := (chat_endpoint kb env db request).1 in
  (forall id, id <> sid -> stored_case db' id = stored_case db id) /\
  (stored_case db' sid = stored_case db sid \/
   (stored_case db sid = None /\ stored_case db' sid = Some (new_case env request)) \/
   (exists h u st esc,
       stored_case db' sid = Some (Case.set_turn h u st esc (prior_case env db request)) /\
       (stored_case db sid = None \/ stored_case db sid = Some (prior_case env db request)) /\
       (esc = true \/ esc = Case.escalated (prior_case env db request)) /\
       (st = Case.status (prior_case env db request) \/ st = "escalated_to_human"))) /\
  orders_collection db' = orders_collection db.
Proof.
  intros sid db'. subst db'. unfold chat_endpoint.
  destruct (chat_prepare kb env db request) as [db1 r|t] eqn:E.
  - (* the handler left before the LLM call *)
    simpl. unfold chat_prepare in E. unfold stored_case.
    destruct (cases_collection db) as [cases|] eqn:Hc.
    2:{ injection E as <- _. rewrite Hc. auto. }
    destruct (customers_collection db) as [customers|].
    2:{ injection E as <- _. rewrite Hc. auto. }
    destruct (load_or_create_profile customers request) as [customers1 profile].
    destruct (find_or_create_case env cases customers1 request)
      as [[cases2 customers2] o] eqn:Ef.
    assert (Hdb1 : db1 = with_collections db cases2 customers2).
    { destruct o as [c2|e]; [|now injection E as <- _].
      destruct (determine_intent_and_urgency _) as [[i u] ents].
      destruct (negb _); [now injection E as <- _|].
      destruct (extend_domain_prompt _ _ _); [discriminate | now injection E as <- _]. }
    subst db1. simpl. clear E.
    unfold find_or_create_case in Ef. fold sid in Ef.
    destruct (find_case cases sid _) as [c0|]; [injection Ef as <- _ _; auto|].
    destruct (cases !! sid) eqn:Es; injection Ef as <- _ _; [auto|].
    split; [intros id Hne; now rewrite lookup_insert_ne|].
    split; [|reflexivity]. right. left. rewrite lookup_insert_eq. auto.
  - (* the turn is completed and saved *)
    pose proof (chat_prepare_ready _ _ _ _ _ E) as Hr.
    destruct Hr as (cases & customers & Hc & Hcu & Hf & Hid & _).
    pose proof (find_or_create_case_prior _ _ _ _ _ _ _ _ Hc Hf) as Hp.
    pose proof (chat_complete_spec kb env db request t
                  (send_message_async env (gemini_history t) (final_instruction t))) as Hsp.
    unfold settled in Hsp. rewrite Hp in Hsp.
    apply find_or_create_case_returns in Hf. fold sid in Hf, Hid.
    unfold stored_case. rewrite Hc. simpl.
    assert (Hother : forall id, id <> sid -> turn_cases t !! id = cases !! id).
    { intros id Hne. destruct Hf as [(_ & -> & _) | (_ & _ & -> & _)];
        [reflexivity | now rewrite lookup_insert_ne]. }
    assert (Hsid : turn_cases t !! sid = Some (prior_case env db request) /\
                   (cases !! sid = None \/ cases !! sid = Some (prior_case env db request))).
    { rewrite <- Hp. destruct Hf as [(Hs & -> & _) | (Hs & _ & -> & _)].
      - auto.
      - rewrite lookup_insert_eq. auto. }
    destruct Hsid as [Hst Hwas].
    destruct (send_message_async env _ _) as [text|];
      [destruct (manage_case_escalation _ _ _ _ _ && negb _)|];
      rewrite Hsp; simpl; rewrite Hid;
      (split; [intros id Hne; rewrite lookup_alter_ne by congruence; now apply Hother|]);
      (split; [|reflexivity]); right; right;
      rewrite lookup_alter_eq, Hst; simpl; eauto 12.
Qed.

End ChatEffect.

(** ** Turns the LLM answers *)

Section AnsweredTurns.

Variable kb : gmap string kb_table.
Variable env : Env.

(** the outcome of a saved turn, read off the request and the store *)
Lemma saved_turn db request r :
  llm_call kb env db request = Some r ->
  let prior := prior_case env db request in
  let fires :=
    manage_case_escalation (turn_of request) (intent_of request) "low"
      (analyze_sentiment (ChatRequest.user_query request)) (Case.escalated prior) in
  let '(bot_text, st, esc) :=
    match r with
    | None => (apology, Case.status prior, true)
    | Some text =>
        if fires && negb (Case.escalated prior)
        then (text +:+ handoff_notice, "escalated_to_human", true)
        else (text, Case.status prior, Case.escalated prior)
    end in
  stored_case (chat_endpoint kb env db request).1 (ChatRequest.session_id request)
  = Some (Case.set_turn
            (ChatRequest.conversation_history request
             ++ turn_pair env (ChatRequest.user_query request) bot_text)
            (now_last_updated env) st esc prior) /\
  (chat_endpoint kb env db request).2
  = Return {| ChatResponse.bot_response := bot_text;
              ChatResponse.case_status := st;
              ChatResponse.case_id := Some (ChatRequest.session_id request);
              ChatResponse.faq_suggestion :=
                Some (get_knowledge_base_info kb (ChatRequest.user_query request)
                        (ChatRequest.domain request));
              ChatResponse.sentiment_detected :=
                Some (analyze_sentiment (ChatRequest.user_query request)) |}.
Proof.
  intros H. apply llm_call_made in H.
  destruct H as (t & -> & Hc & Hst & Hid & Hh & Ht & Hi & Hu & Hs & _).
  pose proof (chat_complete_spec kb env db request t r) as Hsp.
  unfold settled in Hsp. rewrite Hc, Ht, Hi, Hu, Hs, urgency_always_low in Hsp.
  cbv zeta.
  destruct r as [text|];
    [destruct (manage_case_escalation _ _ _ _ _ && negb _)|];
    rewrite Hsp; unfold stored_case; simpl;
    rewrite Hid, Hh, lookup_alter_eq, Hst; auto.
Qed.

End AnsweredTurns.

(** X10. On a turn the LLM answers, the hand-off notice is appended to
    the reply, and the status becomes "escalated_to_human", exactly when
    the case was not escalated before and the policy fires; otherwise the
    reply is returned as the LLM gave it and status and flag stay as they
    were.  A case that is escalated already gets no second notice. *)
Theorem handoff_on_new_escalation kb env db request text :
  llm_call kb env db request = Some (Some text) ->
  let prior := prior_case env db request in
  let fires :=
    manage_case_escalation (turn_of request) (intent_of request) "low"
      (analyze_sentiment (ChatRequest.user_query request)) false in
  exists resp c',
    (chat_endpoint kb env db request).2 = Return resp /\
    stored_case (chat_endpoint kb env db request).1 (ChatRequest.session_id request)
    = Some c' /\
    if negb (Case.escalated prior) && fires
    then ChatResponse.bot_response resp = text +:+ handoff_notice /\
         Case.status c' = "escalated_to_human" /\ Case.escalated c' = true
    else ChatResponse.bot_response resp = text /\
         Case.status c' = Case.status prior /\
         Case.escalated c' = Case.escalated prior.
Proof.
  intros H. cbv zeta. pose proof (saved_turn kb env db request _ H) as Hs.
  cbv zeta in Hs. revert Hs.
  destruct (Case.escalated (prior_case env db request)) eqn:He; cbn [negb andb].
  - rewrite andb_false_r. intros [-> ->]. eexists. eexists.
    split; [reflexivity|]. split; [reflexivity|]. simpl. auto.
  - rewrite andb_true_r.
    destruct (manage_case_escalation _ _ _ _ false);
      intros [-> ->]; eexists; eexists;
      (split; [reflexivity|]); (split; [reflexivity|]); simpl; auto.
Qed.

Lemma handoff_on_new_escalation_witness :
  exists resp c',
    (chat_endpoint default_knowledge_bases (sample_env (Some "Try the router."))
       (sample_db "open" false)
       (sample_request "my wifi is down again" "technical"
          (sample_history ++ sample_history))).2 = Return resp /\
    stored_case
      (chat_endpoint default_knowledge_bases (sample_env (Some "Try the router."))
         (sample_db "open" false)
         (sample_request "my wifi is down again" "technical"
            (sample_history ++ sample_history))).1 "s1" = Some c' /\
    ChatResponse.bot_response resp = "Try the router." +:+ handoff_notice /\
    Case.status c' = "escalated_to_human" /\ Case.escalated c' = true.
Proof.
  apply (handoff_on_new_escalation default_knowledge_bases
           (sample_env (Some "Try the router.")) (sample_db "open" false)
           (sample_request "my wifi is down again" "technical"
              (sample_history ++ sample_history)) "Try the router.").
  vm_compute. reflexivity.
Defined.

(** X11. The response of a saved turn reports what was saved: its status
    is the stored status, its case id is the session id, its bot text is
    the content of the last stored history entry (role "bot"), the entry
    before it is the user's query, and sentiment and FAQ suggestion are
    recomputed from the query alone. *)
Theorem response_mirrors_store kb env db request r :
  llm_call kb env db request = Some r ->
  exists resp c' bot_ts user_ts,
    (chat_endpoint kb env db request).2 = Return resp /\
    stored_case (chat_endpoint kb env db request).1 (ChatRequest.session_id request)
    = Some c' /\
    ChatResponse.case_status resp = Case.status c' /\
    ChatResponse.case_id resp = Some (ChatRequest.session_id request) /\
    Case.conversation_history c'
    = ChatRequest.conversation_history request
      ++ [ {| role := "user"; content := ChatRequest.user_query request;
              timestamp := user_ts |};
           {| role := "bot"; content := ChatResponse.bot_response resp;
              timestamp := bot_ts |} ] /\
    ChatResponse.sentiment_detected resp
    = Some (analyze_sentiment (ChatRequest.user_query request)) /\
    ChatResponse.faq_suggestion resp
    = Some (get_knowledge_base_info kb (ChatRequest.user_query request)
              (ChatRequest.domain request)).
Proof.
  intros H. pose proof (saved_turn kb env db request _ H) as Hs. cbv zeta in Hs.
  destruct r as [text|];
    [destruct (manage_case_escalation _ _ _ _ _ && negb _)|];
    destruct Hs as [-> ->]; eexists; eexists;
    exists (now_bot_turn env), (now_user_turn env);
    (split; [reflexivity|]); (split; [reflexivity|]); simpl; auto 10.
Qed.

Lemma response_mirrors_store_witness :
  exists resp c' bot_ts user_ts,
    (chat_endpoint default_knowledge_bases (sample_env None) empty_db
       (sample_request "what are your opening hours" "general" [])).2 = Return resp /\
    stored_case
      (chat_endpoint default_knowledge_bases (sample_env None) empty_db
         (sample_request "what are your opening hours" "general" [])).1 "s1" = Some c' /\
    ChatResponse.case_status resp = Case.status c' /\
    ChatResponse.case_id resp = Some "s1" /\
    Case.conversation_history c'
    = [ {| role := "user"; content := "what are your opening hours"; timestamp := user_ts |};
        {| role := "bot"; content := ChatResponse.bot_response resp; timestamp := bot_ts |} ] /\
    ChatResponse.sentiment_detected resp = Some "neutral" /\
    ChatResponse.faq_suggestion resp = Some no_article.
Proof.
  apply (response_mirrors_store default_knowledge_bases (sample_env None) empty_db
           (sample_request "what are your opening hours" "general" []) None).
  vm_compute. reflexivity.
Defined.

(** X2. The classifier never reports an urgency other than "low", so
    before the third turn (fewer than four submitted history entries) a
    turn the LLM answers never escalates a case that is not escalated:
    the reply comes back unchanged and the stored status and flag stay. *)
Theorem no_escalation_before_third_turn kb env db request text :
  llm_call kb env db request = Some (Some text) ->
  length (ChatRequest.conversation_history request) < 4 ->
  Case.escalated (prior_case env db request) = false ->
  (determine_intent_and_urgency (ChatRequest.user_query request)).1.2 = "low" /\
  exists resp c',
    (chat_endpoint kb env db request).2 = Return resp /\
    stored_case (chat_endpoint kb env db request).1 (ChatRequest.session_id request)
    = Some c' /\
    ChatResponse.bot_response resp = text /\
    Case.escalated c' = false /\
    Case.status c' = Case.status (prior_case env db request).
Proof.
  intros H Hlen He. split; [apply urgency_always_low|].
  pose proof (saved_turn kb env db request _ H) as Hs. cbv zeta in Hs.
  assert (Hturn : (turn_of request <= 2)%Z).
  { unfold turn_of.
    assert (Z.of_nat (length (ChatRequest.conversation_history request)) / 2 < 2)%Z
      by (apply Z.div_lt_upper_bound; lia).
    lia. }
  assert (Hf : manage_case_escalation (turn_of request) (intent_of request) "low"
                 (analyze_sentiment (ChatRequest.user_query request))
                 (Case.escalated (prior_case env db request)) = false).
  { rewrite He. unfold manage_case_escalation.
    replace (3 <? turn_of request)%Z with false by (symmetry; apply Z.ltb_ge; lia).
    replace (2 <? turn_of request)%Z with false by (symmetry; apply Z.ltb_ge; lia).
    simpl. now rewrite andb_false_r. }
  rewrite Hf in Hs. simpl in Hs. destruct Hs as [-> ->].
  eexists. eexists. split; [reflexivity|]. split; [reflexivity|]. simpl. auto.
Qed.

Lemma no_escalation_before_third_turn_witness :
  exists resp c',
    (chat_endpoint default_knowledge_bases (sample_env (Some "Try the router."))
       (sample_db "open" false)
       (sample_request "my wifi is not working, terrible" "technical" sample_history)).2
    = Return resp /\
    stored_case
      (chat_endpoint default_knowledge_bases (sample_env (Some "Try the router."))
         (sample_db "open" false)
         (sample_request "my wifi is not working, terrible" "technical" sample_history)).1
      "s1" = Some c' /\
    ChatResponse.bot_response resp = "Try the router." /\
    Case.escalated c' = false /\
    Case.status c' = "open".
Proof.
  apply (proj2 (no_escalation_before_third_turn default_knowledge_bases
           (sample_env (Some "Try the router.")) (sample_db "open" false)
           (sample_request "my wifi is not working, terrible" "technical" sample_history)
           "Try the router." ltac:(vm_compute; reflexivity)
           ltac:(vm_compute; lia) ltac:(vm_compute; reflexivity))).
Defined.

(** ** What a resolution does to the store *)

Lemma resolve_effect env db id :
  let db' := (resolve_case_endpoint env db id).1 in
  db' = db \/
  exists c summary,
    stored_case db id = Some c /\ terminal c = false /\
    stored_case db' id = Some (Case.set_resolved summary c) /\
    (forall id', id' <> id -> stored_case db' id' = stored_case db id') /\
    stored_profile db' (Case.customer_id c)
    = CustomerProfile.push_interaction summary <$> stored_profile db (Case.customer_id c) /\
    (forall k, k <> Case.customer_id c -> stored_profile db' k = stored_profile db k) /\
    orders_collection db' = orders_collection db /\
    summary
    = match generate_content_async env
              (summary_prompt (Py.join " " (List.map content (Case.conversation_history c))))
      with
      | Some text => Py.remove_char dquote (Py.strip text)
      | None =>
          "Case " +:+ id +:+ " was resolved on " +:+ now_resolved env +:+
          ". The primary issue was not automatically summarized."
      end.
Proof.
  unfold resolve_case_endpoint, stored_case, stored_profile, terminal.
  destruct (cases_collection db) as [cases|] eqn:Hc; [|now left].
  destruct (customers_collection db) as [customers|] eqn:Hcu; [|now left].
  destruct (cases !! id) as [c|] eqn:E; [|now left].
  destruct (str_in _ _) eqn:Ht; [now left|].
  right. eexists c, _. simpl.
  split; [exact E|]. split; [exact Ht|].
  split; [now rewrite lookup_alter_eq, E|].
  split; [intros id' Hne; now rewrite lookup_alter_ne|].
  split; [now rewrite lookup_alter_eq|].
  split; [intros k Hne; now rewrite lookup_alter_ne|].
  split; reflexivity.
Qed.

(** ** Sequences of requests *)

Section Sequences.

Variable kb : gmap string kb_table.

(** one request: a stored case stays stored with the fields of its
    creation, an escalated case stays escalated, and the status stays or
    moves to "escalated_to_human" or "resolved" *)
Lemma serve_keeps db o id c :
  stored_case db id = Some c ->
  exists c', stored_case (serve kb db o) id = Some c' /\
             same_origin c c' /\
             (Case.escalated c = true -> Case.escalated c' = true) /\
             (Case.status c' = Case.status c \/
              Case.status c' = "escalated_to_human" \/ Case.status c' = "resolved").
Proof.
  intros Hst. destruct o as [env request | env rid]; simpl.
  - destruct (chat_endpoint_effect kb env db request) as (Hother & Hsid & _).
    destruct (decide (id = ChatRequest.session_id request)) as [->|Hne].
    + destruct Hsid as [Hs | [[Hn _] | (h & u & st & esc & Hs & Hwas & Hesc & Hstat)]].
      * exists c. rewrite Hs. unfold same_origin. auto 10.
      * congruence.
      * destruct Hwas as [Hn|Hp]; [congruence|].
        rewrite Hst in Hp. injection Hp as Hp. rewrite <- Hp in *.
        eexists. split; [exact Hs|]. unfold same_origin. simpl.
        split; [auto 10|]. split; [destruct Hesc; congruence|].
        destruct Hstat as [->| ->]; auto.
    + exists c. rewrite (Hother id Hne). unfold same_origin. auto 10.
  - destruct (resolve_effect env db rid)
      as [-> | (c0 & summary & Hc0 & _ & Hs & Hother & _)].
    + exists c. unfold same_origin. auto 10.
    + destruct (decide (id = rid)) as [->|Hne].
      * rewrite Hst in Hc0. injection Hc0 as <-.
        eexists. split; [exact Hs|]. unfold same_origin. simpl. auto 10.
      * exists c. rewrite (Hother id Hne). unfold same_origin. auto 10.
Qed.

(** one request: a case that appears is the fresh case of a chat
    request, or that case with its first turn saved *)
Lemma serve_creates db o id c' :
  stored_case db id = None ->
  stored_case (serve kb db o) id = Some c' ->
  Case.status c' = "open" \/ Case.status c' = "escalated_to_human".
Proof.
  intros Hn Hst. destruct o as [env request | env rid]; simpl in Hst.
  - destruct (chat_endpoint_effect kb env db request) as (Hother & Hsid & _).
    destruct (decide (id = ChatRequest.session_id request)) as [->|Hne].
    + destruct Hsid as [Hs | [[_ Hs] | (h & u & st & esc & Hs & Hwas & _ & Hstat)]].
      * congruence.
      * rewrite Hs in Hst. injection Hst as <-. now left.
      * rewrite Hs in Hst. injection Hst as <-. simpl.
        destruct Hstat as [->| ->]; [|now right].
        unfold prior_case. unfold stored_case in Hn.
        destruct (cases_collection db) as [cases|]; simpl in *; [|now left].
        unfold find_case. rewrite Hn. now left.
    + rewrite (Hother id Hne) in Hst. congruence.
  - destruct (resolve_effect env db rid)
      as [E | (c0 & summary & Hc0 & _ & Hs & Hother & _)].
    + rewrite E in Hst. congruence.
    + destruct (decide (id = rid)) as [->|Hne]; [congruence|].
      rewrite (Hother id Hne) in Hst. congruence.
Qed.

End Sequences.

Lemma serve_all_keeps kb db ops id c :
  stored_case db id = Some c ->
  exists c', stored_case (serve_all kb db ops) id = Some c' /\
             same_origin c c' /\
             (Case.escalated c = true -> Case.escalated c' = true).
Proof.
  revert db c. induction ops as [|o ops IH]; intros db c Hst; simpl.
  - exists c. unfold same_origin. auto 10.
  - destruct (serve_keeps kb db o id c Hst) as (c1 & H1 & Ho1 & He1 & _).
    destruct (IH _ _ H1) as (c' & H' & Ho' & He').
    exists c'. split; [exact H'|]. split; [|auto].
    unfold same_origin in *. intuition congruence.
Qed.

(** no request separates the handles that module load set together *)
Lemma serve_handles_together kb db o :
  handles_together db = true -> handles_together (serve kb db o) = true.
Proof.
  assert (Hw : forall cases customers,
             is_Some (orders_collection db) ->
             handles_together (with_collections db cases customers) = true).
  { intros cases customers [orders Ho]. unfold handles_together, with_collections.
    simpl. now rewrite Ho. }
  intros H. destruct o as [env request | env rid]; simpl.
  - unfold chat_endpoint, chat_prepare.
    destruct (cases_collection db) as [cases|] eqn:Hc; [|exact H].
    destruct (customers_collection db) as [customers|] eqn:Hcu; [|exact H].
    assert (Ho : is_Some (orders_collection db)).
    { unfold handles_together in H. rewrite Hc, Hcu in H.
      destruct (orders_collection db); [eauto | discriminate]. }
    destruct (load_or_create_profile customers request) as [customers1 profile].
    destruct (find_or_create_case env cases customers1 request)
      as [[cases2 customers2] [c2|e]]; [|now apply Hw].
    destruct (determine_intent_and_urgency _) as [[i u] ents].
    destruct (negb _); [now apply Hw|].
    destruct (extend_domain_prompt _ _ _); [|now apply Hw].
    match goal with
    | |- context [chat_complete ?kb ?env ?db ?request ?t ?r] =>
        pose proof (chat_complete_spec kb env db request t r) as Hsp;
        destruct (settled t r) as [[bot_text st] esc]; rewrite Hsp
    end.
    now apply Hw.
  - unfold resolve_case_endpoint.
    destruct (cases_collection db) as [cases|] eqn:Hc; [|exact H].
    destruct (customers_collection db) as [customers|] eqn:Hcu; [|exact H].
    destruct (cases !! rid) as [c|]; [|exact H].
    destruct (str_in _ _); [exact H|].
    apply Hw. unfold handles_together in H. rewrite Hc, Hcu in H.
    destruct (orders_collection db); [eauto | discriminate].
Qed.

(** the handles are together in every store the server works on: the one
    of module load and the one after any sequence of requests *)
Lemma handles_stay_together kb uri connect ops :
  handles_together (serve_all kb (mongo_setup uri connect) ops) = true.
Proof.
  unfold serve_all.
  generalize (mongo_setup_handles_together uri connect).
  generalize (mongo_setup uri connect) as db.
  induction ops as [|o ops IH]; intros db H; simpl; [exact H|].
  apply IH. now apply serve_handles_together.
Qed.

(** X12. Escalation is never taken back: a stored case whose flag is set
    is still stored with the flag set after any sequence of chat and
    resolution requests, whatever the requests carry and whatever the LLM
    does. *)
Theorem escalated_is_never_reset kb db ops id c :
  stored_case db id = Some c ->
  Case.escalated c = true ->
  exists c', stored_case (serve_all kb db ops) id = Some c' /\ Case.escalated c' = true.
Proof.
  intros Hst He. destruct (serve_all_keeps kb db ops id c Hst) as (c' & H' & _ & He').
  eauto.
Qed.

Lemma escalated_is_never_reset_witness :
  exists c',
    stored_case
      (serve_all default_knowledge_bases (sample_db "escalated_to_human" true)
         [ ChatOp (sample_env (Some "We open at nine."))
             (sample_request "thank you, great" "general" sample_history);
           ResolveOp (sample_env None) "s1";
           ChatOp (sample_env None) (sample_request "hello again" "general" []) ])
      "s1" = Some c' /\
    Case.escalated c' = true.
Proof.
  apply (escalated_is_never_reset default_knowledge_bases
           (sample_db "escalated_to_human" true) _ "s1" _ eq_refl eq_refl).
Defined.

(** X13. No request deletes a case or rewrites the fields set at its
    creation: after any sequence of chat and resolution requests a stored
    case is still stored under its id with the same session id, customer
    id, creation time, initial query and domain. *)
Theorem case_origin_is_kept kb db ops id c :
  stored_case db id = Some c ->
  exists c', stored_case (serve_all kb db ops) id = Some c' /\ same_origin c c'.
Proof.
  intros Hst. destruct (serve_all_keeps kb db ops id c Hst) as (c' & H' & Ho & _).
  eauto.
Qed.

Lemma case_origin_is_kept_witness :
  exists c',
    stored_case
      (serve_all default_knowledge_bases (sample_db "open" false)
         [ ChatOp (sample_env (Some "We open at nine."))
             (sample_request "and on sundays" "travel" []);
           ResolveOp (sample_env None) "s1" ])
      "s1" = Some c' /\
    Case.initial_query c' = "when do you open" /\ Case.domain c' = "general".
Proof.
  destruct (case_origin_is_kept default_knowledge_bases (sample_db "open" false)
              [ ChatOp (sample_env (Some "We open at nine."))
                  (sample_request "and on sundays" "travel" []);
                ResolveOp (sample_env None) "s1" ]
              "s1" _ eq_refl) as (c' & H & _ & _ & _ & Hq & Hd).
  exists c'. auto.
Defined.

(** X14. The status "closed" is never written: when every stored case
    has status "open", "escalated_to_human" or "resolved", so has every
    case stored after any sequence of chat and resolution requests (and in
    particular every case of a store that started empty). *)
Theorem stored_status_is_never_closed kb db ops :
  (forall id c, stored_case db id = Some c -> storable_status c) ->
  forall id c', stored_case (serve_all kb db ops) id = Some c' -> storable_status c'.
Proof.
  revert db. induction ops as [|o ops IH]; intros db Hall id c' Hst; simpl in Hst.
  - eauto.
  - refine (IH (serve kb db o) _ id c' Hst). clear IH Hst id c'.
    intros id c1 H1. destruct (stored_case db id) as [c|] eqn:E.
    + destruct (serve_keeps kb db o id c E) as (c2 & H2 & _ & _ & Hs).
      rewrite H1 in H2. injection H2 as <-. specialize (Hall id c E).
      unfold storable_status in *. destruct Hs as [->|[->| ->]]; auto.
    + pose proof (serve_creates kb db o id c1 E H1) as Hs.
      unfold storable_status. tauto.
Qed.

Lemma stored_status_is_never_closed_witness :
  exists c',
    stored_case
      (serve_all default_knowledge_bases empty_db
         [ ChatOp (sample_env None) (sample_request "my wifi is broken" "finance" []);
           ChatOp (sample_env None) (sample_request "what are your opening hours" "general" []);
           ResolveOp (sample_env None) "s1" ]) "s1" = Some c' /\
    storable_status c'.
Proof.
  destruct (stored_case
              (serve_all default_knowledge_bases empty_db
                 [ ChatOp (sample_env None) (sample_request "my wifi is broken" "finance" []);
                   ChatOp (sample_env None)
                     (sample_request "what are your opening hours" "general" []);
                   ResolveOp (sample_env None) "s1" ]) "s1") as [c'|] eqn:E;
    [|vm_compute in E; discriminate].
  exists c'. split; [reflexivity|].
  refine (stored_status_is_never_closed default_knowledge_bases empty_db _ _ "s1" c' E).
  intros id c H. unfold stored_case, empty_db in H. simpl in H.
  rewrite lookup_empty in H. discriminate.
Defined.

(** ** Sessions and customers *)

Section Sessions.

Variable kb : gmap string kb_table.

Lemma chat_prepare_done_db env db request db1 r cases customers cases2 customers2 o :
  chat_prepare kb env db request = Done db1 r ->
  cases_collection db = Some cases ->
  customers_collection db = Some customers ->
  find_or_create_case env cases (load_or_create_profile customers request).1 request
  = (cases2, customers2, o) ->
  db1 = with_collections db cases2 customers2.
Proof.
  unfold chat_prepare. intros E Hc Hcu Ef. rewrite Hc, Hcu in E. revert E.
  destruct (load_or_create_profile customers request) as [customers1 profile].
  simpl in Ef. rewrite Ef.
  destruct o as [c2|e]; [|now intros [= <- _]].
  destruct (determine_intent_and_urgency _) as [[i u] ents].
  destruct (negb _); [now intros [= <- _]|].
  destruct (extend_domain_prompt _ _ _); [discriminate | now intros [= <- _]].
Qed.

(** after a request that got past load-or-create, the case of the session
    is stored, filed under the customer of the request *)
Lemma reaches_guard_after env db request :
  reaches_guard env db request = true ->
  exists cases' customers' c,
    (chat_endpoint kb env db request).1 = with_collections db cases' customers' /\
    cases' !! ChatRequest.session_id request = Some c /\
    same_origin (prior_case env db request) c /\
    Case.customer_id (prior_case env db request)
    = CustomerProfile.customer_id (ChatRequest.customer_profile request).
Proof.
  unfold reaches_guard.
  destruct (cases_collection db) as [cases|] eqn:Hc; [|discriminate].
  destruct (customers_collection db) as [customers|] eqn:Hcu; [|discriminate].
  destruct (find_or_create_case env cases _ request) as [[cases2 customers2] [c2|e]] eqn:Ef;
    [|discriminate].
  intros _.
  pose proof (find_or_create_case_prior _ _ _ _ _ _ _ _ Hc Ef) as Hp.
  pose proof (find_or_create_case_stored _ _ _ _ _ _ _ Ef) as Hst.
  assert (Hcust : Case.customer_id c2
                  = CustomerProfile.customer_id (ChatRequest.customer_profile request)).
  { revert Ef. unfold find_or_create_case, find_case.
    destruct (cases !! ChatRequest.session_id request) as [c0|].
    - destruct (String.eqb_spec (Case.customer_id c0)
                  (CustomerProfile.customer_id (ChatRequest.customer_profile request)));
        [|discriminate]. now intros [= _ _ <-].
    - now intros [= _ _ <-]. }
  rewrite <- Hp. unfold chat_endpoint.
  destruct (chat_prepare kb env db request) as [db1 r|t] eqn:E.
  - exists cases2, customers2, c2. simpl.
    rewrite (chat_prepare_done_db _ _ _ _ _ _ _ _ _ _ E Hc Hcu Ef).
    unfold same_origin. auto 10.
  - pose proof (chat_prepare_ready _ _ _ _ _ E) as Hr.
    destruct Hr as (cases0 & customers0 & Hc0 & Hcu0 & Hf & Hid & _).
    rewrite Hc in Hc0. rewrite Hcu in Hcu0. injection Hc0 as <-. injection Hcu0 as <-.
    rewrite Ef in Hf. injection Hf as Hf1 Hf2 Hf3.
    pose proof (chat_complete_spec kb env db request t
                  (send_message_async env (gemini_history t) (final_instruction t))) as Hsp.
    destruct (settled t _) as [[bot_text st] esc]. rewrite Hsp. simpl.
    eexists _, _, _. split; [reflexivity|].
    rewrite Hid, lookup_alter_eq, <- Hf1, Hst. simpl.
    split; [reflexivity|]. unfold same_origin. simpl. auto 10.
Qed.

End Sessions.

(** X15. One case per session: once a chat request of a customer has got
    past load-or-create, the session's case is stored under that
    customer, and every later chat request of the same customer in the
    same session passes load-or-create and works on that stored case,
    which still has the creation time, initial query and domain of the
    first request's case; no second case is created. *)
Theorem session_case_is_reused kb env env2 db request request2 :
  reaches_guard env db request = true ->
  ChatRequest.session_id request2 = ChatRequest.session_id request ->
  CustomerProfile.customer_id (ChatRequest.customer_profile request2)
  = CustomerProfile.customer_id (ChatRequest.customer_profile request) ->
  let db1 := (chat_endpoint kb env db request).1 in
  exists c,
    stored_case db1 (ChatRequest.session_id request) = Some c /\
    same_origin (prior_case env db request) c /\
    reaches_guard env2 db1 request2 = true /\
    prior_case env2 db1 request2 = c.
Proof.
  intros Hr Hsid Hcid db1. subst db1.
  destruct (reaches_guard_after kb env db request Hr)
    as (cases' & customers' & c & -> & Hst & Ho & Hcust).
  exists c. unfold stored_case, reaches_guard, prior_case. simpl. rewrite Hsid, Hcid.
  assert (Hfind : find_case cases' (ChatRequest.session_id request)
                    (CustomerProfile.customer_id (ChatRequest.customer_profile request))
                  = Some c).
  { unfold find_case. rewrite Hst.
    destruct Ho as (_ & -> & _). rewrite Hcust. now rewrite String.eqb_refl. }
  split; [exact Hst|]. split; [exact Ho|].
  unfold find_or_create_case. rewrite Hsid, Hcid, Hfind. auto.
Qed.

Lemma session_case_is_reused_witness :
  exists c,
    stored_case
      (chat_endpoint default_knowledge_bases (sample_env (Some "We open at nine.")) empty_db
         (sample_request "when do you open" "general" [])).1 "s1" = Some c /\
    Case.initial_query c = "when do you open" /\
    prior_case (sample_env None)
      (chat_endpoint default_knowledge_bases (sample_env (Some "We open at nine.")) empty_db
         (sample_request "when do you open" "general" [])).1
      (sample_request "and on sundays" "travel" sample_history) = c.
Proof.
  destruct (session_case_is_reused default_knowledge_bases (sample_env (Some "We open at nine.")) (sample_env None)
              empty_db (sample_request "when do you open" "general" [])
              (sample_request "and on sundays" "travel" sample_history)
              eq_refl eq_refl eq_refl) as (c & Hst & (_ & _ & _ & Hq & _) & _ & Hp).
  exists c. split; [exact Hst|]. split; [|exact Hp].
  rewrite Hq. reflexivity.
Defined.

(** X16. A session id that is taken by a case of another customer cannot
    be used: the request raises a duplicate-key error when it tries to
    create its own case, the LLM is not called, and every stored case,
    the other customer's included, is as it was. *)
Theorem foreign_session_is_rejected kb env db request c :
  stored_case db (ChatRequest.session_id request) = Some c ->
  Case.customer_id c <> CustomerProfile.customer_id (ChatRequest.customer_profile request) ->
  is_Some (customers_collection db) ->
  (chat_endpoint kb env db request).2
  = Raise (DuplicateKeyError (ChatRequest.session_id request)) /\
  llm_call kb env db request = None /\
  forall id, stored_case (chat_endpoint kb env db request).1 id = stored_case db id.
Proof.
  unfold stored_case, llm_call, chat_endpoint, chat_prepare.
  destruct (cases_collection db) as [cases|]; [|discriminate]. simpl.
  intros Hst Hne [customers ->].
  destruct (load_or_create_profile customers request) as [customers1 profile].
  unfold find_or_create_case, find_case. rewrite Hst.
  apply String.eqb_neq in Hne. rewrite Hne. simpl. auto.
Qed.

Lemma foreign_session_is_rejected_witness :
  (chat_endpoint default_knowledge_bases (sample_env (Some "We open at nine.")) (sample_db "open" false)
     {| ChatRequest.user_query := "show me the conversation";
        ChatRequest.session_id := "s1";
        ChatRequest.customer_profile := sample_profile "c2";
        ChatRequest.conversation_history := [];
        ChatRequest.shop_id_for_order_lookup := None;
        ChatRequest.domain := "general" |}).2
  = Raise (DuplicateKeyError "s1").
Proof.
  refine (proj1 (foreign_session_is_rejected default_knowledge_bases (sample_env (Some "We open at nine."))
                  (sample_db "open" false) _ _ _ _ _)).
  - reflexivity.
  - vm_compute. discriminate.
  - vm_compute. eauto.
Defined.

(** ** The outcomes of a chat request *)

Lemma extend_domain_prompt_present (domain : string) (table : kb_table)
    (prompts : gmap string string) :
  is_Some (prompts !! domain) ->
  exists prompts', extend_domain_prompt domain table prompts = Return prompts'.
Proof.
  revert prompts. induction table as [|[q a] table IH]; intros prompts [p Hp]; simpl.
  - eauto.
  - rewrite Hp. apply IH. rewrite lookup_insert_eq. eauto.
Qed.

Lemma domain_prompts_known (domain : string) :
  In domain known_domains -> is_Some (domain_prompts !! domain).
Proof. intros [<-|[<-|[<-|[<-|[]]]]]; vm_compute; eauto. Qed.

(** prompt composition raises only for a domain without a persona line
    whose knowledge-base table is not empty *)
Lemma extend_domain_prompt_raises (domain : string) (table : kb_table) (e : exn) :
  extend_domain_prompt domain table domain_prompts = Raise e ->
  e = KeyError domain /\ table <> [] /\ ~ In domain known_domains.
Proof.
  intros H. assert (Hout : ~ In domain known_domains).
  { intros Hin. apply domain_prompts_known in Hin.
    destruct (extend_domain_prompt_present domain table _ Hin) as [p' Hp'].
    congruence. }
  destruct table as [|[q a] table]; [discriminate|]. simpl in H.
  destruct (domain_prompts !! domain) as [p|] eqn:Hp.
  - match type of H with
    | extend_domain_prompt _ _ ?P = _ =>
        destruct (extend_domain_prompt_present domain table P) as [p' Hp'];
          [rewrite lookup_insert_eq; eauto | congruence]
    end.
  - injection H as <-. auto.
Qed.

(** X17. A chat request ends in one of five ways, each under its own
    condition: the
    service-unavailable error when a collection handle is missing; the
    duplicate-key error when load-or-create fails; the refusal when the
    domain restriction denies the intent; [KeyError] when the intent is
    allowed and the domain, outside the four, has a knowledge-base table;
    or a response carrying the session id as case id, which is the case
    exactly when the LLM call is made.  A failing LLM call never surfaces
    as an error. *)
Theorem chat_outcomes kb env db request :
  let r := (chat_endpoint kb env db request).2 in
  let sid := ChatRequest.session_id request in
  let domain := ChatRequest.domain request in
  ((cases_collection db = None \/ customers_collection db = None) /\
   r = Raise unavailable_503) \/
  (is_Some (cases_collection db) /\ is_Some (customers_collection db) /\
   reaches_guard env db request = false /\ r = Raise (DuplicateKeyError sid)) \/
  (guard_denies env db request = true /\ r = Return (refusal domain)) \/
  (reaches_guard env db request = true /\
   domain_allows (intent_of request) domain = true /\
   ~ In domain known_domains /\ default [] (kb !! domain) <> [] /\
   llm_call kb env db request = None /\ r = Raise (KeyError domain)) \/
  (is_Some (llm_call kb env db request) /\
   exists resp, r = Return resp /\ ChatResponse.case_id resp = Some sid).
Proof.
  cbv zeta. unfold chat_endpoint, llm_call.
  destruct (chat_prepare kb env db request) as [db1 r|t] eqn:E.
  - simpl. unfold chat_prepare in E. unfold guard_denies, reaches_guard, intent_of.
    destruct (cases_collection db) as [cases|]; [|injection E as _ <-; auto].
    destruct (customers_collection db) as [customers|]; [|injection E as _ <-; auto].
    destruct (load_or_create_profile customers request) as [customers1 profile]. simpl.
    destruct (find_or_create_case env cases customers1 request)
      as [[cases2 customers2] [c2|e]] eqn:Ef.
    + destruct (determine_intent_and_urgency _) as [[i u] ents]. simpl.
      destruct (domain_allows i _) eqn:Ha; simpl in E.
      * destruct (extend_domain_prompt _ _ _) as [p|e] eqn:Ex; [discriminate|].
        injection E as _ <-. apply extend_domain_prompt_raises in Ex.
        destruct Ex as (-> & Hne & Hout). right. right. right. left. auto 10.
      * injection E as _ <-. right. right. left. auto.
    + injection E as _ <-. right. left.
      assert (e = DuplicateKeyError (ChatRequest.session_id request)).
      { revert Ef. unfold find_or_create_case.
        destruct (find_case _ _ _); [discriminate|].
        destruct (cases !! _); [now intros [= _ _ <-] | discriminate]. }
      subst e. eauto 10.
  - right. right. right. right. split; [eauto|].
    pose proof (chat_prepare_ready _ _ _ _ _ E) as Hr.
    destruct Hr as (_ & _ & _ & _ & _ & Hid & _).
    pose proof (chat_complete_spec kb env db request t
                  (send_message_async env (gemini_history t) (final_instruction t))) as Hsp.
    destruct (settled t _) as [[bot_text st] esc]. rewrite Hsp. simpl.
    eexists. split; [reflexivity|]. simpl. now rewrite Hid.
Qed.

(** ** Resolution and titles *)

Lemma remove_char_quote_free (s : string) : quote_free (Py.remove_char dquote s).
Proof.
  unfold quote_free. induction s as [|c s IH]; simpl; [exact I|].
  destruct (Ascii.eqb c dquote) eqn:E; simpl; [exact IH|]. now rewrite E.
Qed.

(** X18. Resolving is idempotent: a second resolution request for the
    same case, with any collaborators, leaves the store exactly as the
    first left it; it repeats the error of the first when that one failed
    and answers "already resolved" otherwise, without asking the LLM for a
    second title. *)
Theorem resolution_is_idempotent env env2 db id :
  let db1 := (resolve_case_endpoint env db id).1 in
  resolve_case_endpoint env2 db1 id
  = (db1,
     match (resolve_case_endpoint env db id).2 with
     | Return _ => Return ("Case " +:+ id +:+ " is already resolved.")
     | Raise e => Raise e
     end).
Proof.
  cbv zeta. unfold resolve_case_endpoint.
  destruct (cases_collection db) as [cases|] eqn:Hc; cbn [fst snd]; [|now rewrite Hc].
  destruct (customers_collection db) as [customers|] eqn:Hcu; cbn [fst snd];
    [|now rewrite Hc, Hcu].
  destruct (cases !! id) as [c|] eqn:E; cbn [fst snd]; [|now rewrite Hc, Hcu, E].
  destruct (str_in (Case.status c) ["resolved"; "closed"]) eqn:Ht; cbn [fst snd].
  - now rewrite Hc, Hcu, E, Ht.
  - cbn [with_collections cases_collection customers_collection].
    rewrite lookup_alter_eq, E. reflexivity.
Qed.

(** X19. Resolving a stored case that is not resolved yet sets its status
    to "resolved" and its summary to a title, and changes nothing else of
    the case (history, flag and last-updated time stay); the title is
    appended to the owner's [previous_interactions] and the owner's
    [active_case_id] is cleared, whichever case it pointed to; no other
    case and no other profile is touched.  A title the LLM gave holds no
    double quote; when the LLM call raises the title is the placeholder
    naming the case. *)
Theorem resolution_files_the_title env db id c :
  stored_case db id = Some c ->
  terminal c = false ->
  is_Some (customers_collection db) ->
  let db' := (resolve_case_endpoint env db id).1 in
  let reply :=
    generate_content_async env
      (summary_prompt (Py.join " " (List.map content (Case.conversation_history c)))) in
  exists title,
    stored_case db' id = Some (Case.set_resolved title c) /\
    (forall id', id' <> id -> stored_case db' id' = stored_case db id') /\
    stored_profile db' (Case.customer_id c)
    = (fun p =>
         {| CustomerProfile.customer_id := CustomerProfile.customer_id p;
            CustomerProfile.previous_interactions :=
              CustomerProfile.previous_interactions p ++ [title];
            CustomerProfile.purchase_history := CustomerProfile.purchase_history p;
            CustomerProfile.preference_settings := CustomerProfile.preference_settings p;
            CustomerProfile.sentiment_history := CustomerProfile.sentiment_history p;
            CustomerProfile.active_case_id := None |})
      <$> stored_profile db (Case.customer_id c) /\
    (forall k, k <> Case.customer_id c -> stored_profile db' k = stored_profile db k) /\
    match reply with
    | Some text => title = Py.remove_char dquote (Py.strip text) /\ quote_free title
    | None => title = "Case " +:+ id +:+ " was resolved on " +:+ now_resolved env +:+
                      ". The primary issue was not automatically summarized."
    end.
Proof.
  intros Hst Ht [customers Hcu]. cbv zeta.
  destruct (resolve_effect env db id)
    as [E | (c0 & title & Hc0 & _ & Hs & Hother & Hp & Hpo & _ & Htitle)].
  - exfalso. revert E. unfold resolve_case_endpoint, stored_case, terminal in *.
    destruct (cases_collection db) as [cases|] eqn:Hc; [|discriminate]. simpl in Hst.
    rewrite Hcu, Hst, Ht. simpl. intros E.
    apply (f_equal (fun d => Case.status <$> (cases_collection d ≫= fun m => m !! id))) in E.
    simpl in E. rewrite Hc, ?lookup_alter_eq, Hst in E. simpl in E.
    rewrite Hst in E. simpl in E.
    injection E as E. rewrite <- E in Ht. discriminate.
  - rewrite Hst in Hc0. injection Hc0 as <-. exists title.
    split; [exact Hs|]. split; [exact Hother|]. split; [exact Hp|]. split; [exact Hpo|].
    destruct (generate_content_async env _); [|exact Htitle].
    split; [exact Htitle|]. rewrite Htitle. apply remove_char_quote_free.
Qed.

Lemma resolution_files_the_title_witness :
  exists title,
    stored_case (resolve_case_endpoint (sample_env None) (sample_db "open" false) "s1").1 "s1"
    = Some (Case.set_resolved title
              (default (new_case (sample_env None) (sample_request "q" "general" []))
                 (stored_case (sample_db "open" false) "s1"))) /\
    title = "Opening hours question".
Proof.
  destruct (resolution_files_the_title (sample_env None) (sample_db "open" false) "s1"
              _ eq_refl eq_refl ltac:(vm_compute; eauto))
    as (title & Hs & _ & _ & _ & Ht & _).
  exists title. split; [exact Hs | exact Ht].
Defined.

(** X20. The summarize endpoint always answers, echoing the session id;
    its title is "Untitled Chat" when the LLM call raises, and otherwise
    the LLM text, trimmed and with every double quote removed. *)
Theorem summarize_always_answers env request :
  exists resp,
    summarize_case_endpoint env request = Return resp /\
    HistorySummaryResponse.session_id resp = HistorySummaryRequest.session_id request /\
    match generate_content_async env
            (summary_prompt
               (Py.join " " (List.map content
                               (HistorySummaryRequest.conversation_history request))))
    with
    | Some text =>
        HistorySummaryResponse.summary resp = Py.remove_char dquote (Py.strip text) /\
        quote_free (HistorySummaryResponse.summary resp)
    | None => HistorySummaryResponse.summary resp = "Untitled Chat"
    end.
Proof.
  unfold summarize_case_endpoint. eexists. split; [reflexivity|]. simpl.
  split; [reflexivity|].
  destruct (generate_content_async env _); [|reflexivity].
  split; [reflexivity | apply remove_char_quote_free].
Qed.

(** ** Reading a conversation back *)

Lemma llm_call_reaches_guard kb env db request r :
  llm_call kb env db request = Some r -> reaches_guard env db request = true.
Proof.
  unfold llm_call. destruct (chat_prepare kb env db request) as [|t] eqn:E; [discriminate|].
  intros _. apply chat_prepare_ready in E.
  destruct E as (cases & customers & Hc & Hcu & Hf & _).
  unfold reaches_guard. now rewrite Hc, Hcu, Hf.
Qed.

(** X21. A saved turn can be read back: after a chat request that reached
    the LLM call, the conversation of that customer and session is the
    submitted history followed by the user entry and the bot entry whose
    text the response carried; asked for under any other customer id, the
    same session is "not found". *)
Theorem saved_turn_is_read_back kb env db request r :
  llm_call kb env db request = Some r ->
  let db' := (chat_endpoint kb env db request).1 in
  let sid := ChatRequest.session_id request in
  let cid := CustomerProfile.customer_id (ChatRequest.customer_profile request) in
  (exists resp,
      (chat_endpoint kb env db request).2 = Return resp /\
      get_conversation_history db' cid sid
      = Return (ChatRequest.conversation_history request
                ++ turn_pair env (ChatRequest.user_query request)
                     (ChatResponse.bot_response resp))) /\
  (forall other, other <> cid ->
     get_conversation_history db' other sid
     = Raise (HTTPException 404 ("Conversation not found for session ID: " +:+ sid))).
Proof.
  intros H. cbv zeta.
  pose proof (llm_call_reaches_guard _ _ _ _ _ H) as Hr.
  destruct (reaches_guard_after kb env db request Hr) as (cs & cu & c0 & _ & _ & _ & Hcust).
  pose proof (saved_turn kb env db request _ H) as Hs. cbv zeta in Hs.
  assert (Hget : forall (h : list ChatMessage) (u st : string) (esc : bool),
             stored_case (chat_endpoint kb env db request).1 (ChatRequest.session_id request)
             = Some (Case.set_turn h u st esc (prior_case env db request)) ->
             get_conversation_history (chat_endpoint kb env db request).1
               (CustomerProfile.customer_id (ChatRequest.customer_profile request))
               (ChatRequest.session_id request) = Return h /\
             forall other,
               other <> CustomerProfile.customer_id (ChatRequest.customer_profile request) ->
               get_conversation_history (chat_endpoint kb env db request).1 other
                 (ChatRequest.session_id request)
               = Raise (HTTPException 404
                          ("Conversation not found for session ID: "
                           +:+ ChatRequest.session_id request))).
  { intros h u st esc Hst. unfold get_conversation_history, find_case.
    unfold stored_case in Hst.
    destruct (cases_collection (chat_endpoint kb env db request).1) as [cases'|];
      [|discriminate].
    simpl in Hst. rewrite Hst. simpl. rewrite Hcust, String.eqb_refl.
    split; [reflexivity|]. intros other Hne.
    destruct (String.eqb_spec
                (CustomerProfile.customer_id (ChatRequest.customer_profile request)) other);
      [congruence | reflexivity]. }
  destruct r as [text|];
    [destruct (manage_case_escalation _ _ _ _ _ && negb _)|];
    destruct Hs as [Hst Hresp]; destruct (Hget _ _ _ _ Hst) as [Hg Ho];
    (split; [|exact Ho]); rewrite Hresp; eexists; (split; [reflexivity|]); exact Hg.
Qed.

Lemma saved_turn_is_read_back_witness :
  get_conversation_history
    (chat_endpoint default_knowledge_bases (sample_env (Some "We open at nine."))
       (sample_db "open" false)
       (sample_request "and on sundays" "general" sample_history)).1 "c2" "s1"
  = Raise (HTTPException 404 "Conversation not found for session ID: s1").
Proof.
  refine (proj2 (saved_turn_is_read_back default_knowledge_bases
                   (sample_env (Some "We open at nine.")) (sample_db "open" false)
                   (sample_request "and on sundays" "general" sample_history)
                   (Some "We open at nine.") eq_refl) "c2" _).
  vm_compute. discriminate.
Defined.

(** ** Orders that no lookup finds *)

Lemma find_order_without (orders : list Order.t) (bad key : string) :
  key <> bad -> find_order (without_order bad orders) key = find_order orders key.
Proof.
  intros Hne. unfold find_order, without_order.
  induction orders as [|o orders IH]; simpl; [reflexivity|].
  destruct (String.eqb_spec (Order.shopid o) bad) as [Hb|Hb]; simpl.
  - destruct (String.eqb_spec (Order.shopid o) key); [congruence | exact IH].
  - destruct (String.eqb (Order.shopid o) key); [reflexivity | exact IH].
Qed.

(** X22. An order filed under an id with any character outside [A-Z0-9]
    (a lowercase letter, a blank, a dash) is invisible: for every id a
    caller supplies, the lookup answers exactly as it would if no such
    order were stored, because the id is uppercased and checked against
    [A-Z0-9]+ before the store is searched. *)
Theorem order_with_odd_id_is_invisible env orders (bad : string) (shopid : option string) :
  has_char_outside Re.upper_alnum bad ->
  get_order_details_by_id env (Some orders) shopid
  = get_order_details_by_id env (Some (without_order bad orders)) shopid.
Proof.
  intros Hbad. unfold get_order_details_by_id.
  destruct shopid as [s|]; [|reflexivity].
  destruct (negb (Py.truthy s)); [reflexivity|].
  destruct (Re.re_fullmatch shopid_shape (Py.upper (Py.strip s))) as [m|] eqn:E;
    [|reflexivity].
  assert (Hm : is_Some (Re.re_fullmatch shopid_shape (Py.upper (Py.strip s))))
    by (rewrite E; eauto).
  apply re_fullmatch_spec in Hm. destruct Hm as [_ Hall].
  rewrite find_order_without; [reflexivity|].
  intros Heq. rewrite Heq in Hall. exact (all_in_inside _ _ Hall Hbad).
Qed.

Lemma order_with_odd_id_is_invisible_witness :
  get_order_details_by_id (sample_env None)
    (Some [ {| Order.shopid := "shop123"; Order.product_name := Some "Kettle";
               Order.payment_status := Some "Paid"; Order.delivery_date := None |} ])
    (Some "shop123")
  = get_order_details_by_id (sample_env None) (Some []) (Some "shop123").
Proof.
  apply (order_with_odd_id_is_invisible (sample_env None)
           [ {| Order.shopid := "shop123"; Order.product_name := Some "Kettle";
                Order.payment_status := Some "Paid"; Order.delivery_date := None |} ]
           "shop123" (Some "shop123")).
  exists EmptyString, "s"%char, "hop123". split; vm_compute; reflexivity.
Defined.

(** ** Registration and login *)

Lemma find_user_none (users : list UserInDB.t) (email : string) :
  find_user users email = None <-> ~ In email (List.map UserInDB.email users).
Proof.
  unfold find_user. induction users as [|u users IH]; simpl; [tauto|].
  destruct (String.eqb_spec (UserInDB.email u) email) as [He|He].
  - split; [discriminate | intros H; exfalso; apply H; now left].
  - rewrite IH. split; [intros H [H1|H1]; [contradiction | auto] | tauto].
Qed.

Lemma find_user_appended (users : list UserInDB.t) (u : UserInDB.t) :
  find_user users (UserInDB.email u) = None ->
  find_user (users ++ [u]) (UserInDB.email u) = Some u.
Proof.
  unfold find_user. induction users as [|v users IH]; simpl.
  - now rewrite String.eqb_refl.
  - destruct (String.eqb (UserInDB.email v) (UserInDB.email u)); [discriminate | exact IH].
Qed.

(** X23. Registration keeps addresses unique: when no two stored users
    share an address, none do after a registration request; a request for
    an address that is taken is answered with 409 and stores nothing, and
    every other request appends exactly one user, filed under the
    requested address with the hashed password and the customer id that is
    returned. *)
Theorem registration_keeps_emails_unique aenv users user :
  NoDup (List.map UserInDB.email users) ->
  exists users',
    (register aenv (Some users) user).1 = Some users' /\
    NoDup (List.map UserInDB.email users') /\
    ((In (UserRegister.email user) (List.map UserInDB.email users) /\
      users' = users /\
      (register aenv (Some users) user).2
      = Raise (HTTPException 409 "Email already registered"))
     \/
     (~ In (UserRegister.email user) (List.map UserInDB.email users) /\
      users' = users ++ [ {| UserInDB.name := UserRegister.name user;
                             UserInDB.email := UserRegister.email user;
                             UserInDB.hashed_password :=
                               get_password_hash aenv (UserRegister.password user);
                             UserInDB.customer_id := uuid4 aenv |} ] /\
      (register aenv (Some users) user).2 = Return (uuid4 aenv))).
Proof.
  intros Hnd. unfold register.
  destruct (find_user users (UserRegister.email user)) as [u|] eqn:E; simpl.
  - exists users. split; [reflexivity|]. split; [exact Hnd|]. left.
    split; [|auto].
    assert (Hn : find_user users (UserRegister.email user) <> None) by congruence.
    rewrite find_user_none in Hn.
    destruct (in_dec String.string_dec (UserRegister.email user)
                (List.map UserInDB.email users)); [assumption | contradiction].
  - apply find_user_none in E. eexists. split; [reflexivity|].
    split; [|right; auto].
    rewrite List.map_app. simpl. apply NoDup_app.
    split; [exact Hnd|]. split; [|apply NoDup_singleton].
    intros x Hx Hx2. apply list_elem_of_singleton in Hx2. subst x.
    apply E. now apply list_elem_of_In.
Qed.

Lemma registration_keeps_emails_unique_witness :
  exists users',
    (register sample_auth
       (Some [ {| UserInDB.name := "Ada"; UserInDB.email := "ada@example.org";
                  UserInDB.hashed_password := "$2b$pw"; UserInDB.customer_id := "c1" |} ])
       {| UserRegister.name := "Ada"; UserRegister.email := "ada@example.org";
          UserRegister.password := "other" |}).1 = Some users' /\
    NoDup (List.map UserInDB.email users') /\
    length users' = 1.
Proof.
  destruct (registration_keeps_emails_unique sample_auth
              [ {| UserInDB.name := "Ada"; UserInDB.email := "ada@example.org";
                   UserInDB.hashed_password := "$2b$pw"; UserInDB.customer_id := "c1" |} ]
              {| UserRegister.name := "Ada"; UserRegister.email := "ada@example.org";
                 UserRegister.password := "other" |}
              ltac:(simpl; apply NoDup_singleton))
    as (users' & H1 & H2 & H3).
  exists users'. split; [exact H1|]. split; [exact H2|].
  destruct H3 as [(_ & -> & _) | (Hn & _)]; [reflexivity|].
  exfalso. apply Hn. simpl. tauto.
Defined.

(** X24. Registration and login fit together: after a registration that
    succeeded, a login with the same address and a password the password
    context accepts against the stored hash returns a bearer token issued
    for that address; a login with a password it rejects, and a login for
    an address that was never registered, are answered with the same 401;
    a second registration of the address is answered with 409. *)
Theorem login_after_registration aenv aenv2 users user users' cid :
  register aenv (Some users) user = (Some users', Return cid) ->
  let email := UserRegister.email user in
  let hash := get_password_hash aenv (UserRegister.password user) in
  (forall password,
      login_for_access_token aenv2 (Some users')
        {| LoginRequest.email := email; LoginRequest.password := password |}
      = if verify_password aenv2 password hash
        then Return {| Token.access_token := create_access_token aenv2 email;
                       Token.token_type := "bearer" |}
        else Raise (HTTPException 401 "Incorrect email or password")) /\
  (forall other password,
      ~ In other (List.map UserInDB.email users') ->
      login_for_access_token aenv2 (Some users')
        {| LoginRequest.email := other; LoginRequest.password := password |}
      = Raise (HTTPException 401 "Incorrect email or password")) /\
  (forall again,
      UserRegister.email again = email ->
      register aenv2 (Some users') again
      = (Some users', Raise (HTTPException 409 "Email already registered"))).
Proof.
  unfold register.
  destruct (find_user users (UserRegister.email user)) as [u|] eqn:E; [discriminate|].
  intros [= <- <-]. cbv zeta.
  set (u := {| UserInDB.name := UserRegister.name user;
               UserInDB.email := UserRegister.email user;
               UserInDB.hashed_password := get_password_hash aenv (UserRegister.password user);
               UserInDB.customer_id := uuid4 aenv |}).
  assert (Hfind : find_user (users ++ [u]) (UserRegister.email user) = Some u)
    by (apply (find_user_appended users u); exact E).
  split; [|split].
  - intros password. unfold login_for_access_token. simpl. now rewrite Hfind.
  - intros other password Hn. unfold login_for_access_token. simpl.
    apply find_user_none in Hn. now rewrite Hn.
  - intros again ->. now rewrite Hfind.
Qed.

Lemma login_after_registration_witness :
  login_for_access_token sample_auth
    (register sample_auth (Some [])
       {| UserRegister.name := "Ada"; UserRegister.email := "ada@example.org";
          UserRegister.password := "pw" |}).1
    {| LoginRequest.email := "ada@example.org"; LoginRequest.password := "pw" |}
  = Return {| Token.access_token := "jwt:ada@example.org"; Token.token_type := "bearer" |}.
Proof.
  exact (proj1 (login_after_registration sample_auth sample_auth []
                  {| UserRegister.name := "Ada"; UserRegister.email := "ada@example.org";
                     UserRegister.password := "pw" |} _ _ eq_refl) "pw").
Defined.

(** ** Profiles *)

(** X25. On every path past load-or-create (refused, raising while the
    prompt is composed, answered or not by the LLM) a chat request leaves
    the customer's profile stored: the stored one when there was one (the
    profile sent with the request is then ignored), else the one sent;
    its [active_case_id] is set to the session id exactly when the
    request created the case; nothing else of it changes, and no other
    customer's profile is touched. *)
Theorem chat_profile_effect kb env db request :
  reaches_guard env db request = true ->
  let sid := ChatRequest.session_id request in
  let cid := CustomerProfile.customer_id (ChatRequest.customer_profile request) in
  let db' := (chat_endpoint kb env db request).1 in
  stored_profile db' cid
  = Some (let p := default (ChatRequest.customer_profile request) (stored_profile db cid) in
          match stored_case db sid with
          | Some _ => p
          | None => CustomerProfile.set_active_case_id sid p
          end) /\
  (forall id, id <> cid -> stored_profile db' id = stored_profile db id).
Proof.
  intros Hr sid cid db'. subst db'. unfold reaches_guard in Hr.
  destruct (cases_collection db) as [cases|] eqn:Hc; [|discriminate].
  destruct (customers_collection db) as [customers|] eqn:Hcu; [|discriminate].
  destruct (find_or_create_case env cases _ request) as [[cases2 customers2] [c2|e]] eqn:Ef;
    [|discriminate].
  assert (Hdb : exists cases', (chat_endpoint kb env db request).1
                               = with_collections db cases' customers2).
  { unfold chat_endpoint.
    destruct (chat_prepare kb env db request) as [db1 r|t] eqn:E.
    - exists cases2. simpl. exact (chat_prepare_done_db _ _ _ _ _ _ _ _ _ _ _ E Hc Hcu Ef).
    - pose proof (chat_prepare_ready _ _ _ _ _ E) as Hp.
      destruct Hp as (cases0 & customers0 & Hc0 & Hcu0 & Hf & _).
      rewrite Hc in Hc0. rewrite Hcu in Hcu0. injection Hc0 as <-. injection Hcu0 as <-.
      rewrite Ef in Hf. injection Hf as _ Hf2 _.
      pose proof (chat_complete_spec kb env db request t
                    (send_message_async env (gemini_history t) (final_instruction t))) as Hsp.
      destruct (settled t _) as [[bot_text st] esc]. rewrite Hsp. simpl.
      rewrite <- Hf2. eauto. }
  destruct Hdb as [cases' ->]. unfold stored_profile, stored_case. rewrite Hc, Hcu. simpl.
  pose proof (load_or_create_profile_lookup customers request) as Hp.
  pose proof (load_or_create_profile_others customers request) as Ho.
  simpl in Hp. fold cid in Hp, Ho.
  apply find_or_create_case_returns in Ef. fold sid cid in Ef.
  destruct Ef as [(Hs & _ & ->) | (Hs & _ & _ & ->)]; rewrite Hs.
  - auto.
  - rewrite lookup_alter_eq, Hp. split; [reflexivity|].
    intros id Hne. rewrite lookup_alter_ne by congruence. now apply Ho.
Qed.

Lemma chat_profile_effect_witness :
  stored_profile
    (chat_endpoint default_knowledge_bases (sample_env None) empty_db
       (sample_request "what are your opening hours" "general" [])).1 "c1"
  = Some (CustomerProfile.set_active_case_id "s1" (sample_profile "c1")).
Proof.
  exact (proj1 (chat_profile_effect default_knowledge_bases (sample_env None) empty_db
                  (sample_request "what are your opening hours" "general" []) eq_refl)).
Defined.

(** ** The messages handed to the LLM *)

Lemma extend_domain_prompt_result (domain : string) (table : kb_table)
    (prompts prompts' : gmap string string) (p : string) :
  prompts !! domain = Some p ->
  extend_domain_prompt domain table prompts = Return prompts' ->
  prompts' !! domain = Some (p +:+ kb_entries_text table).
Proof.
  revert prompts p. induction table as [|[q a] table IH]; intros prompts p Hp; simpl.
  - intros [= <-]. now rewrite append_nil_r.
  - rewrite Hp. intros H. eapply IH in H; [|apply lookup_insert_eq].
    rewrite H. f_equal. rewrite append_assoc. reflexivity.
Qed.

(** X26. In one of the four known domains the LLM chat is started with
    two fixed messages followed by the submitted history, one message per
    entry in the same order, a stored "bot" entry as role "model" and any
    other as role "user"; the first message is the system instruction and
    holds the persona line of the domain followed by every knowledge-base
    entry of the domain, in table order, as "Q: ... A: ...". *)
Theorem llm_is_given_history_and_knowledge kb env db request history instruction :
  llm_messages kb env db request = Some (history, instruction) ->
  In (ChatRequest.domain request) known_domains ->
  exists persona,
    domain_prompts !! ChatRequest.domain request = Some persona /\
    history
    = [ {| gemini_role := "user";
           parts := [ "You are a friendly, empathetic, and professional customer support assistant. " +:+
                      "Your expertise is strictly limited to **" +:+ ChatRequest.domain request +:+
                      "**-related customer support queries. " +:+
                      (persona +:+
                       kb_entries_text (default [] (kb !! ChatRequest.domain request))) +:+ nl +:+
                      "If a user asks something outside this domain, gently explain your scope and offer to assist with relevant topics. " +:+
                      "Maintain a conversational and approachable tone, like a helpful human agent. " +:+
                      "Be concise and actionable in your advice." ] |};
        {| gemini_role := "model";
           parts := [ "Understood. I am ready to assist customers within these topics with a helpful and friendly tone." ] |} ]
      ++ List.map (fun m => {| gemini_role := if String.eqb (role m) "bot" then "model" else "user";
                               parts := [content m] |})
                  (ChatRequest.conversation_history request).
Proof.
  unfold llm_messages, chat_prepare. intros H Hin.
  destruct (domain_prompts_known _ Hin) as [persona Hp]. exists persona.
  split; [exact Hp|]. revert H.
  destruct (cases_collection db) as [cases|]; [|discriminate].
  destruct (customers_collection db) as [customers|]; [|discriminate].
  destruct (load_or_create_profile customers request) as [customers1 profile].
  destruct (find_or_create_case env cases customers1 request)
    as [[cases2 customers2] [c2|e]]; [|discriminate].
  destruct (determine_intent_and_urgency _) as [[i u] ents].
  destruct (negb _); [discriminate|].
  destruct (extend_domain_prompt _ _ _) as [prompts'|] eqn:Ex; [|discriminate].
  apply (extend_domain_prompt_result _ _ _ _ _ Hp) in Ex.
  intros [= <- _]. simpl. unfold base_system_instruction. rewrite Ex. reflexivity.
Qed.

Lemma llm_is_given_history_and_knowledge_witness :
  exists history instruction persona,
    llm_messages default_knowledge_bases (sample_env None) (sample_db "open" false)
      (sample_request "and on sundays" "general" sample_history)
    = Some (history, instruction) /\
    domain_prompts !! "general" = Some persona /\
    length history = 4.
Proof.
  destruct (llm_messages default_knowledge_bases (sample_env None) (sample_db "open" false)
              (sample_request "and on sundays" "general" sample_history))
    as [[history instruction]|] eqn:E; [|vm_compute in E; discriminate].
  destruct (llm_is_given_history_and_knowledge _ _ _ _ _ _ E ltac:(simpl; tauto))
    as (persona & Hp & Hh).
  exists history, instruction, persona. split; [reflexivity|]. split; [exact Hp|].
  rewrite Hh. reflexivity.
Defined.
